(** * The X11 main loop of herbstluftwm (src/xmainloop.cpp, src/xmainloop.h)

    A shallow embedding of [XMainLoop]: its constructor, [run], [quit],
    [collectZombies], [dropEnterNotifyEvents], the eighteen event handlers,
    [callCommand], [draggedClientChanges] and [scanExistingClients].

    What lives outside the two files (client manager, monitors, mouse and key
    managers, EWMH, decorations, the command interpreter, Xlib requests) is
    not interpreted.  Every call into it is appended to a history, and every
    value read from it is given by an oracle that sees the history so far, so
    that an answer may change after any call.  The members of the main loop
    itself ([aboutToQuit_], [duringEnterNotify_], [handlerTable_]) and Xlib's
    event queue are modelled concretely.  While another component serves a
    call it may call back into the main loop ([quit], and the two members the
    constructor connects to signals); which calls do so is the oracle's
    answer too. *)

From Stdlib Require Import ZArith Bool Lia.
From stdpp Require Import base list strings.

Open Scope Z_scope.

(** ** Constants of X11/X.h, X11/Xatom.h and X11/cursorfont.h *)

Module X.
(* event type codes *)
Definition KeyPress : Z := 2.
Definition KeyRelease : Z := 3.
Definition ButtonPress : Z := 4.
Definition ButtonRelease : Z := 5.
Definition MotionNotify : Z := 6.
Definition EnterNotify : Z := 7.
Definition LeaveNotify : Z := 8.
Definition FocusIn : Z := 9.
Definition FocusOut : Z := 10.
Definition KeymapNotify : Z := 11.
Definition Expose : Z := 12.
Definition GraphicsExpose : Z := 13.
Definition NoExpose : Z := 14.
Definition VisibilityNotify : Z := 15.
Definition CreateNotify : Z := 16.
Definition DestroyNotify : Z := 17.
Definition UnmapNotify : Z := 18.
Definition MapNotify : Z := 19.
Definition MapRequest : Z := 20.
Definition ReparentNotify : Z := 21.
Definition ConfigureNotify : Z := 22.
Definition ConfigureRequest : Z := 23.
Definition GravityNotify : Z := 24.
Definition ResizeRequest : Z := 25.
Definition CirculateNotify : Z := 26.
Definition CirculateRequest : Z := 27.
Definition PropertyNotify : Z := 28.
Definition SelectionClear : Z := 29.
Definition SelectionRequest : Z := 30.
Definition SelectionNotify : Z := 31.
Definition ColormapNotify : Z := 32.
Definition ClientMessage : Z := 33.
Definition MappingNotify : Z := 34.
Definition GenericEvent : Z := 35.
Definition LASTEvent : Z := 36.

(* input event masks *)
Definition KeyPressMask : Z := Z.shiftl 1 0.
Definition KeyReleaseMask : Z := Z.shiftl 1 1.
Definition ButtonPressMask : Z := Z.shiftl 1 2.
Definition ButtonReleaseMask : Z := Z.shiftl 1 3.
Definition EnterWindowMask : Z := Z.shiftl 1 4.
Definition LeaveWindowMask : Z := Z.shiftl 1 5.
Definition PointerMotionMask : Z := Z.shiftl 1 6.
Definition PointerMotionHintMask : Z := Z.shiftl 1 7.
Definition Button1MotionMask : Z := Z.shiftl 1 8.
Definition Button2MotionMask : Z := Z.shiftl 1 9.
Definition Button3MotionMask : Z := Z.shiftl 1 10.
Definition Button4MotionMask : Z := Z.shiftl 1 11.
Definition Button5MotionMask : Z := Z.shiftl 1 12.
Definition ButtonMotionMask : Z := Z.shiftl 1 13.
Definition KeymapStateMask : Z := Z.shiftl 1 14.
Definition ExposureMask : Z := Z.shiftl 1 15.
Definition VisibilityChangeMask : Z := Z.shiftl 1 16.
Definition StructureNotifyMask : Z := Z.shiftl 1 17.
Definition ResizeRedirectMask : Z := Z.shiftl 1 18.
Definition SubstructureNotifyMask : Z := Z.shiftl 1 19.
Definition SubstructureRedirectMask : Z := Z.shiftl 1 20.
Definition FocusChangeMask : Z := Z.shiftl 1 21.
Definition PropertyChangeMask : Z := Z.shiftl 1 22.
Definition ColormapChangeMask : Z := Z.shiftl 1 23.

(* ConfigureWindow value mask *)
Definition CWX : Z := Z.shiftl 1 0.
Definition CWY : Z := Z.shiftl 1 1.
Definition CWWidth : Z := Z.shiftl 1 2.
Definition CWHeight : Z := Z.shiftl 1 3.
Definition CWBorderWidth : Z := Z.shiftl 1 4.
Definition CWSibling : Z := Z.shiftl 1 5.
Definition CWStackMode : Z := Z.shiftl 1 6.

(* notify modes and details *)
Definition NotifyNormal : Z := 0.
Definition NotifyGrab : Z := 1.
Definition NotifyUngrab : Z := 2.
Definition NotifyWhileGrabbed : Z := 3.
Definition NotifyAncestor : Z := 0.
Definition NotifyVirtual : Z := 1.
Definition NotifyInferior : Z := 2.
Definition NotifyNonlinear : Z := 3.
Definition NotifyNonlinearVirtual : Z := 4.
Definition NotifyPointer : Z := 5.
Definition NotifyPointerRoot : Z := 6.
Definition NotifyDetailNone : Z := 7.

Definition PropertyNewValue : Z := 0.
Definition PropertyDelete : Z := 1.
Definition MappingModifier : Z := 0.
Definition MappingKeyboard : Z := 1.
Definition MappingPointer : Z := 2.
Definition Button1 : Z := 1.
Definition IsUnmapped : Z := 0.
Definition IsUnviewable : Z := 1.
Definition IsViewable : Z := 2.
Definition ReplayPointer : Z := 2.
Definition RevertToPointerRoot : Z := 1.
Definition CurrentTime : Z := 0.
Definition GrabModeAsync : Z := 1.
Definition None : Z := 0.

Definition XA_WM_HINTS : Z := 35.
Definition XA_WM_NAME : Z := 39.
Definition XA_WM_NORMAL_HINTS : Z := 40.
Definition XA_WM_CLASS : Z := 67.
Definition XC_fleur : Z := 52.
End X.

(** ** Data *)

Definition Window := Z.
Definition Atom := Z.

(** [XEvent] is a C union whose variants all start with [type]; a handler
    reads the members of the variant it is registered for.  The record has
    one field per member that xmainloop.cpp reads, named as in Xlib with an
    [e_] prefix. *)
Record XEvent := {
  e_type : Z;
  e_send_event : bool;
  e_window : Window;
  e_event : Window;        (* XUnmapEvent.event: the reporting window *)
  e_subwindow : Window;
  e_above : Window;
  e_x : Z;
  e_y : Z;
  e_width : Z;
  e_height : Z;
  e_border_width : Z;
  e_x_root : Z;
  e_y_root : Z;
  e_state : Z;
  e_button : Z;
  e_time : Z;
  e_detail : Z;
  e_mode : Z;
  e_focus : bool;
  e_value_mask : Z;
  e_selection : Atom;
  e_atom : Atom;
  e_request : Z
}.

Record Point2D := { px : Z; py : Z }.
Record Rectangle := { rx : Z; ry : Z; rwidth : Z; rheight : Z }.

(** Non-null pointers to objects owned by other components; a pointer that
    may be null is an [option]. *)
Definition ClientRef := nat.
Definition TagRef := nat.
Definition MonitorRef := nat.
Definition FrameRef := nat.
Definition FrameDecRef := nat.
(** [ResizeAction] is declared outside the two files; only its conversion to
    bool and [toCursorShape] are used here, both supplied by the oracle. *)
Definition ResizeAction := Z.

Module LayoutAlgorithm.
Inductive t := vertical | horizontal | max | grid.
End LayoutAlgorithm.
Inductive WindowType := NetWmWindowTypeDesktop | NetWmWindowTypeDock | NetWmWindowTypeOther.

Record XWindowAttributes := { override_redirect : bool; map_state : Z }.

(** [Input(name, args)] of command.h. *)
Record Input := { command : string; args : list string }.
(** [IpcServer::CallResult]. *)
Record CallResult := { exitCode : Z; output : string; error : string }.

(** The member functions stored in [handlerTable_]. *)
Inductive EventHandler :=
| buttonpress_ | buttonrelease_ | clientmessage_ | configurenotify_
| configurerequest_ | createnotify_ | destroynotify_ | enternotify_
| expose_ | focusin_ | keypress_ | mapnotify_ | maprequest_
| mappingnotify_ | motionnotify_ | propertynotify_ | unmapnotify_
| selectionclear_.

(** The last argument of [manage_client]: left out by [mapnotify] and
    [maprequest]; in [scanExistingClients] the closure returned by
    [findTagForWindow(win)], which is either the empty one or the one that
    imports the tag of [win]. *)
Inductive RuleOverride := DefaultOverride | DoNothing | ImportTagOf (win : Window).

(** The member of [ClientChanges] (rules.h) written in this file. *)
Record ClientChanges := { tag_name : string }.

Record XWindowChanges := {
  wc_x : Z; wc_y : Z; wc_width : Z; wc_height : Z;
  wc_border_width : Z; wc_sibling : Window; wc_stack_mode : Z
}.

(** ** The history of calls *)

(** One constructor per call that leaves xmainloop.cpp: Xlib requests
    first, then calls into the other components of the window manager
    (assignments to members of their objects included). *)
Inductive Action :=
(* Xlib *)
| XSync_
| select_
| XAllowEvents_ (mode time : Z)
| XConfigureWindow_ (w : Window) (value_mask : Z) (wc : XWindowChanges)
| XSetInputFocus_ (w : Window) (revert_to time : Z)
| XMapWindow_ (w : Window)
| XUnmapWindow_ (w : Window)
| XSelectInput_ (w : Window) (mask : Z)
| XReparentWindow_ (w parent : Window) (x y : Z)
| XRefreshKeyboardMapping_ (ev : XEvent)
| XCreateFontCursor_ (shape : Z)
| XGrabPointer_ (w : Window) (owner_events : bool) (mask : Z)
    (pointer_mode keyboard_mode : Z) (confine_to : Window) (cursor time : Z)
| XUngrabPointer_ (time : Z)
(* the member call through the handler table *)
| MemberCall (h : EventHandler) (ev : XEvent)
(* signals emitted by the main loop *)
| childExited_emit (pid status : Z)
(* other components *)
| Watchers_scanForChanges
| Mouse_handle_event (state button : Z) (w : Window)
| Mouse_stop_drag
| Mouse_initiate_resize (c : ClientRef) (ra : ResizeAction)
| Mouse_initiate_move (c : ClientRef)
| Mouse_handle_motion_event (p : Point2D)
| focus_client_ (c : option ClientRef) (switch_tag switch_monitor raise : bool)
| Root_focusFrame (f : FrameRef)
| Ipc_addConnection (w : Window)
| Ipc_handleConnection (w : Window)
| Ewmh_handleClientMessage (ev : XEvent)
| Keys_handleKeyPress (ev : XEvent)
| Keys_regrabAll
| Panels_rootWindowChanged (width height : Z)
| Panels_geometryChanged (w : Window) (geometry : Rectangle)
| Panels_registerPanel (w : Window)
| Panels_unregisterPanel (w : Window)
| Panels_propertyChanged (w : Window) (a : Atom)
| Monitors_detectMonitorsCommand (input : Input)
| Monitors_restack
| Monitor_applyLayout (m : MonitorRef)
| DesktopWindow_registerDesktop (w : Window)
| DesktopWindow_unregisterDesktop (w : Window)
| Clients_manage_client (w : Window) (visible_already force_unmanage : bool)
    (changes : RuleOverride)
| Clients_force_unmanage (c : ClientRef)
| Clients_unmap_notify (w : Window)
| Clients_applyRules (c : ClientRef)
| Client_set_float_size (c : ClientRef) (r : Rectangle)
| Client_set_minimized (c : ClientRef) (v : bool)
| Client_resize_floating (c : ClientRef) (m : option MonitorRef) (isfocused : bool)
| Client_send_configure (c : ClientRef) (force : bool)
| Client_update_title (c : ClientRef)
| Client_update_wm_hints (c : ClientRef)
| Client_updatesizehints (c : ClientRef)
| Client_applysizehints (c : ClientRef) (w h : Z) (force : bool)
| Dec_updateResizeAreaCursors (c : ClientRef)
| Commands_call (input : Input) (channels_name : string).

Definition History := list Action.

(** What another component may call back while it serves a call: the public
    member [quit], and the two members connected to signals by the
    constructor. *)
Inductive Callback :=
| cb_quit
| cb_dropEnterNotifyEvents
| cb_draggedClientChanges (draggedClient : option ClientRef).

(** ** The oracle

    Everything read from outside the two files.  The first argument of a
    query is the history at the moment of the read.  For a call that returns
    a value, the oracle gives the value returned when the call is made after
    that history. *)
Record Oracle := {
  (* XConnection and Xlib *)
  X_root : Window;
  X_queryTree : History -> Window -> list Window;
  XGetWindowAttributes : History -> Window -> option XWindowAttributes;
  waitpid_WNOHANG : History -> list (Z * Z);
    (* the children (pid > 0, status) that successive waitpid calls reap
       before one returns pid <= 0 *)
  (* ClientManager and Client *)
  clients_client : History -> Window -> option ClientRef;
  clients_focus : History -> option ClientRef;
  get_current_client : History -> option ClientRef;
  manage_client_result : History -> Window -> bool -> bool -> RuleOverride -> option ClientRef;
  x11Window : History -> ClientRef -> Window;
  decorationWindow : History -> ClientRef -> Window;
  tag : History -> ClientRef -> TagRef;
  float_size_ : History -> ClientRef -> Rectangle;
  last_size_ : History -> ClientRef -> Rectangle;
  sizehints_floating_ : History -> ClientRef -> bool;
  pseudotile_ : History -> ClientRef -> bool;
  is_client_floated : History -> ClientRef -> bool;
  applysizehints_result : History -> ClientRef -> Z -> Z -> bool -> Z * Z;
  (* tags and frames *)
  tag_floating : History -> TagRef -> bool;
  tag_name_of : History -> TagRef -> string;
  tags_byIdx : History -> Z -> option TagRef;
  frameWithClient : History -> TagRef -> ClientRef -> option FrameRef;
  getLayout : History -> FrameRef -> LayoutAlgorithm.t;
  focusedClient : History -> FrameRef -> option ClientRef;
  (* monitors *)
  monitors_byTag : History -> TagRef -> option MonitorRef;
  monitors_byCoordinate : History -> Point2D -> option MonitorRef;
  monitors_focus : History -> MonitorRef;
  find_monitor_with_tag : History -> TagRef -> option MonitorRef;
  monitor_rect : History -> MonitorRef -> Rectangle;
  pad_left : History -> MonitorRef -> Z;
  pad_up : History -> MonitorRef -> Z;
  (* decorations *)
  Decoration_toClient : History -> Window -> option ClientRef;
  positionHasButton : History -> ClientRef -> Point2D -> option (option ClientRef);
    (* the optional click area with its [tabClient_] *)
  positionTriggersResize : History -> ClientRef -> Point2D -> ResizeAction;
  ResizeAction_bool : ResizeAction -> bool;
  toCursorShape : ResizeAction -> option Z;
  FrameDecoration_withWindow : History -> Window -> option FrameDecRef;
  frameDec_frame : History -> FrameDecRef -> option FrameRef;
  (* mouse manager *)
  mouse_handle_event_result : History -> Z -> Z -> Window -> bool;
  mouse_is_dragging : History -> bool;
  resizeAction : History -> ResizeAction;
  (* settings and globals *)
  raise_on_click : History -> bool;
  focus_follows_mouse : History -> bool;
  auto_detect_monitors : History -> bool;
  importTagsFromEwmh : History -> bool;
  (* EWMH and IPC *)
  isOwnWindow : History -> Window -> bool;
  getWindowType : History -> Window -> WindowType;
  original_client_list_ : list Window;
  windowGetInitialDesktop : History -> Window -> Z;
  windowManagerSelection : History -> Atom;
  windowManagerWindow : History -> Window;
  netatom_NetWmName : History -> Atom;
  isConnectable : History -> Window -> bool;
  is_herbstluft_window : History -> Window -> bool;
  (* the command interpreter: exit code and what it writes to the two
     streams of the output channels *)
  Commands_call_result : History -> Input -> string -> Z * string * string;
  (* re-entrant calls made while the given call is served *)
  signals : History -> Action -> list Callback
}.

(** ** The main loop object and the display *)

Record XMainLoop := {
  aboutToQuit_ : bool;
  duringEnterNotify_ : bool;
  handlerTable_ : list (option EventHandler);
  (* Xlib's queue of events already read from the connection *)
  xqueue : list XEvent;
  (* what the server delivers: the batch read by each coming XSync.  The
     list stands for the answers of the server over the part of a run that
     is looked at, whatever made the server send them; how long a drain
     lasts in a real run depends on what the requests of the handlers make
     the server send, which is not modelled, so the theorems bound no
     drain *)
  xserver : list (list XEvent);
  (* the calls made so far *)
  trace : History
}.

Definition set_aboutToQuit (b : bool) (st : XMainLoop) : XMainLoop :=
  {| aboutToQuit_ := b; duringEnterNotify_ := duringEnterNotify_ st;
     handlerTable_ := handlerTable_ st; xqueue := xqueue st;
     xserver := xserver st; trace := trace st |}.

Definition set_duringEnterNotify (b : bool) (st : XMainLoop) : XMainLoop :=
  {| aboutToQuit_ := aboutToQuit_ st; duringEnterNotify_ := b;
     handlerTable_ := handlerTable_ st; xqueue := xqueue st;
     xserver := xserver st; trace := trace st |}.

Definition set_handlerTable (t : list (option EventHandler)) (st : XMainLoop) : XMainLoop :=
  {| aboutToQuit_ := aboutToQuit_ st; duringEnterNotify_ := duringEnterNotify_ st;
     handlerTable_ := t; xqueue := xqueue st;
     xserver := xserver st; trace := trace st |}.

Definition set_display (q : list XEvent) (srv : list (list XEvent)) (st : XMainLoop) : XMainLoop :=
  {| aboutToQuit_ := aboutToQuit_ st; duringEnterNotify_ := duringEnterNotify_ st;
     handlerTable_ := handlerTable_ st; xqueue := q;
     xserver := srv; trace := trace st |}.

Definition log (a : Action) (st : XMainLoop) : XMainLoop :=
  {| aboutToQuit_ := aboutToQuit_ st; duringEnterNotify_ := duringEnterNotify_ st;
     handlerTable_ := handlerTable_ st; xqueue := xqueue st;
     xserver := xserver st; trace := trace st ++ [a] |}.

(** ** Xlib's event queue *)

Definition AllPointers : Z :=
  Z.lor X.PointerMotionMask (Z.lor X.PointerMotionHintMask X.ButtonMotionMask).
Definition AllButtons : Z :=
  Z.lor X.Button1MotionMask (Z.lor X.Button2MotionMask (Z.lor X.Button3MotionMask
    (Z.lor X.Button4MotionMask X.Button5MotionMask))).

(** Xlib's table from event type to the masks that select it. *)
Definition _Xevent_to_mask (type : Z) : Z :=
  if type =? X.KeyPress then X.KeyPressMask
  else if type =? X.KeyRelease then X.KeyReleaseMask
  else if type =? X.ButtonPress then X.ButtonPressMask
  else if type =? X.ButtonRelease then X.ButtonReleaseMask
  else if type =? X.MotionNotify then Z.lor AllPointers AllButtons
  else if type =? X.EnterNotify then X.EnterWindowMask
  else if type =? X.LeaveNotify then X.LeaveWindowMask
  else if (type =? X.FocusIn) || (type =? X.FocusOut) then X.FocusChangeMask
  else if type =? X.KeymapNotify then X.KeymapStateMask
  else if (type =? X.Expose) || (type =? X.GraphicsExpose) || (type =? X.NoExpose)
    then X.ExposureMask
  else if type =? X.VisibilityNotify then X.VisibilityChangeMask
  else if type =? X.CreateNotify then X.SubstructureNotifyMask
  else if (type =? X.DestroyNotify) || (type =? X.UnmapNotify) || (type =? X.MapNotify)
       || (type =? X.ReparentNotify) || (type =? X.ConfigureNotify)
       || (type =? X.GravityNotify) || (type =? X.CirculateNotify)
    then Z.lor X.StructureNotifyMask X.SubstructureNotifyMask
  else if (type =? X.MapRequest) || (type =? X.ConfigureRequest)
       || (type =? X.CirculateRequest)
    then X.SubstructureRedirectMask
  else if type =? X.ResizeRequest then X.ResizeRedirectMask
  else if type =? X.PropertyNotify then X.PropertyChangeMask
  else if type =? X.ColormapNotify then X.ColormapChangeMask
  else 0.

(** The test [XCheckMaskEvent] applies to a queued event. *)
Definition mask_selects (mask : Z) (ev : XEvent) : bool :=
  (0 <=? e_type ev) && (e_type ev <? X.LASTEvent)
  && negb (Z.land (_Xevent_to_mask (e_type ev)) mask =? 0)
  && (negb (e_type ev =? X.MotionNotify)
      || negb (Z.land mask AllPointers =? 0)
      || negb (Z.land (Z.land mask AllButtons) (e_state ev) =? 0)).

(** [XCheckMaskEvent]: the first queued event the mask selects is removed
    from the queue and returned. *)
Fixpoint XCheckMaskEvent (mask : Z) (q : list XEvent) : option (XEvent * list XEvent) :=
  match q with
  | [] => None
  | e :: q' =>
      if mask_selects mask e then Some (e, q')
      else match XCheckMaskEvent mask q' with
           | Some (m, r) => Some (m, e :: r)
           | None => None
           end
  end.

(** [while (XCheckMaskEvent(dpy, mask, &ev)) {}]: returns the last event
    stored into [ev] and the queue that is left.  Every round removes one
    event, so [length q] rounds are enough. *)
Fixpoint while_XCheckMaskEvent (rounds : nat) (mask : Z) (ev : XEvent) (q : list XEvent)
  : XEvent * list XEvent :=
  match rounds with
  | O => (ev, q)
  | S n =>
      match XCheckMaskEvent mask q with
      | Some (e, q') => while_XCheckMaskEvent n mask e q'
      | None => (ev, q)
      end
  end.

(** ** A state monad for member functions *)

Definition M (A : Type) : Type := XMainLoop -> A * XMainLoop.

Definition ret {A} (a : A) : M A := fun st => (a, st).
Definition bind {A B} (m : M A) (k : A -> M B) : M B :=
  fun st => let (a, st') := m st in k a st'.

Declare Scope M_scope.
Delimit Scope M_scope with M.
Bind Scope M_scope with M.
Notation "x ← y ; z" := (bind y (fun x => z))
  (at level 20, y at level 100, z at level 200, only parsing) : M_scope.
Notation "x ;; z" := (bind x (fun _ => z))
  (at level 100, z at level 200, only parsing, right associativity) : M_scope.
Open Scope M_scope.

(** The state a member function leaves. *)
Definition exec {A} (m : M A) (st : XMainLoop) : XMainLoop := snd (m st).

(** A read from another component, at the current history. *)
Definition ask {A} (f : History -> A) : M A := fun st => (f (trace st), st).
Definition get {A} (f : XMainLoop -> A) : M A := fun st => (f st, st).
Definition modify (f : XMainLoop -> XMainLoop) : M unit := fun st => (tt, f st).

(** An Xlib request: recorded, nothing calls back. *)
Definition xreq (a : Action) : M unit := modify (log a).

(** [XSync]: the output buffer is flushed and what the server has sent is
    read into the queue.  Events are taken to reach the queue here only:
    [xserver] lists what each coming [XSync] reads. *)
Definition XSync : M unit :=
  xreq XSync_ ;;
  modify (fun st => set_display (xqueue st ++ hd [] (xserver st)) (tl (xserver st)) st).

(** The loop [while (XCheckMaskEvent(X_.display(), mask, &ev))]; the result
    is the content of [ev] when the loop is left. *)
Definition drain_masked (mask : Z) (ev : XEvent) : M XEvent :=
  fun st =>
    let (ev', q') := while_XCheckMaskEvent (length (xqueue st)) mask ev (xqueue st) in
    (ev', set_display q' (xserver st) st).

(** An [XEvent ev;] that no code reads before [XCheckMaskEvent] writes it. *)
Definition uninitialised : XEvent :=
  {| e_type := 0; e_send_event := false; e_window := 0; e_event := 0;
     e_subwindow := 0; e_above := 0; e_x := 0; e_y := 0; e_width := 0;
     e_height := 0; e_border_width := 0; e_x_root := 0; e_y_root := 0;
     e_state := 0; e_button := 0; e_time := 0; e_detail := 0; e_mode := 0;
     e_focus := false; e_value_mask := 0; e_selection := 0; e_atom := 0;
     e_request := 0 |}.

Definition quit : M unit := modify (set_aboutToQuit true).

Definition dropEnterNotifyEvents : M unit :=
  during ← get duringEnterNotify_;
  if during then
    (* during a enternotify(), no artificial enter notify events can be
       created *)
    ret tt
  else
    XSync ;;
    drain_masked X.EnterWindowMask uninitialised ;;
    ret tt.

Definition draggedClientChanges (o : Oracle) (draggedClient : option ClientRef) : M unit :=
  match draggedClient with
  | Some c =>
      ra ← ask (resizeAction o);
      let maybeCursor := toCursorShape o ra in
      let shape := default X.XC_fleur maybeCursor in
      xreq (XCreateFontCursor_ shape) ;;
      (* the cursor handle is the one just created for [shape] *)
      w ← ask (fun h => x11Window o h c);
      xreq (XGrabPointer_ w true (Z.lor X.PointerMotionMask X.ButtonReleaseMask)
              X.GrabModeAsync X.GrabModeAsync X.None shape X.CurrentTime)
  | None =>
      xreq (XUngrabPointer_ X.CurrentTime) ;;
      XSync ;;
      drain_masked X.EnterWindowMask uninitialised ;;
      ret tt
  end.

Definition run_callback (o : Oracle) (cb : Callback) : M unit :=
  match cb with
  | cb_quit => quit
  | cb_dropEnterNotifyEvents => dropEnterNotifyEvents
  | cb_draggedClientChanges c => draggedClientChanges o c
  end.

Fixpoint run_callbacks (o : Oracle) (cbs : list Callback) : M unit :=
  match cbs with
  | [] => ret tt
  | cb :: cbs' => run_callback o cb ;; run_callbacks o cbs'
  end.

(** A call into another component: recorded, then the members it calls back
    while it is served run. *)
Definition call (o : Oracle) (a : Action) : M unit :=
  cbs ← ask (fun h => signals o h a);
  modify (log a) ;;
  run_callbacks o cbs.

(** C [int] arithmetic as the compiler emits it: the result taken modulo
    2^32 into the signed range. *)
Definition int32 (z : Z) : Z := (z + 2 ^ 31) mod 2 ^ 32 - 2 ^ 31.

(** An [unsigned long] passed where the callee declares [unsigned int]: the
    value taken modulo 2^32. *)
Definition uint32 (z : Z) : Z := z mod 2 ^ 32.

(** [WEXITSTATUS] of sys/wait.h. *)
Definition WEXITSTATUS (status : Z) : Z := Z.shiftr (Z.land status 65280) 8.

Definition set_xy (x y : Z) (r : Rectangle) : Rectangle :=
  {| rx := x; ry := y; rwidth := rwidth r; rheight := rheight r |}.
Definition set_width (w : Z) (r : Rectangle) : Rectangle :=
  {| rx := rx r; ry := ry r; rwidth := w; rheight := rheight r |}.
Definition set_height (h : Z) (r : Rectangle) : Rectangle :=
  {| rx := rx r; ry := ry r; rwidth := rwidth r; rheight := h |}.

(** ** Event handlers *)

Section Handlers.
Variable o : Oracle.

Definition buttonpress (be : XEvent) : M unit :=
  handled ← ask (fun h => mouse_handle_event_result o h (e_state be) (e_button be) (e_window be));
  call o (Mouse_handle_event (e_state be) (e_button be) (e_window be)) ;;
  (if negb handled then
     (* if the event was not handled by the mouse manager, pass it to the client *)
     client0 ← ask (fun h => clients_client o h (e_window be));
     client1 ← match client0 with
               | Some c => ret (Some c)
               | None => ask (fun h => Decoration_toClient o h (e_window be))
               end;
     match client1 with
     | Some client =>
         decwin ← ask (fun h => decorationWindow o h client);
         tabClient ←
           (if (e_window be =? decwin) && (e_button be =? X.Button1) then
              maybeClick ← ask (fun h => positionHasButton o h client
                                             {| px := e_x be; py := e_y be |});
              ret (match maybeClick with Some tab => tab | None => None end)
            else ret None);
         raise ← ask (raise_on_click o);
         match tabClient with
         | Some tab => call o (focus_client_ (Some tab) false true raise)
         | None =>
             call o (focus_client_ (Some client) false true raise) ;;
             decwin' ← ask (fun h => decorationWindow o h client);
             if e_window be =? decwin' then
               resize ← ask (fun h => positionTriggersResize o h client
                                         {| px := e_x be; py := e_y be |});
               if ResizeAction_bool o resize
               then call o (Mouse_initiate_resize client resize)
               else call o (Mouse_initiate_move client)
             else ret tt
         end
     | None => ret tt
     end
   else ret tt) ;;
  frameDec ← ask (fun h => FrameDecoration_withWindow o h (e_window be));
  match frameDec with
  | Some fd =>
      frame ← ask (fun h => frameDec_frame o h fd);
      match frame with
      | Some f => call o (Root_focusFrame f)
      | None => ret tt
      end
  | None => ret tt
  end ;;
  xreq (XAllowEvents_ X.ReplayPointer (e_time be)).

Definition buttonrelease (_ : XEvent) : M unit :=
  call o Mouse_stop_drag.

Definition createnotify (event : XEvent) : M unit :=
  connectable ← ask (fun h => isConnectable o h (e_window event));
  if connectable then
    call o (Ipc_addConnection (e_window event)) ;;
    call o (Ipc_handleConnection (e_window event))
  else ret tt.

(** The block of [configurerequest] guarded by
    [sizehints_floating_ && (is_client_floated() || pseudotile_)]: whether
    the request changes anything, and the rectangle it asks for. *)
Definition requested_geometry (client : ClientRef) (cre : XEvent) (newRect : Rectangle)
  : M (bool * Rectangle) :=
  let width_requested := negb (0 =? Z.land (e_value_mask cre) X.CWWidth) in
  let height_requested := negb (0 =? Z.land (e_value_mask cre) X.CWHeight) in
  let x_requested := negb (0 =? Z.land (e_value_mask cre) X.CWX) in
  let y_requested := negb (0 =? Z.land (e_value_mask cre) X.CWY) in
  let changes := false in
  let changes :=
    if width_requested && negb (rwidth newRect =? e_width cre) then true else changes in
  let changes :=
    if height_requested && negb (rheight newRect =? e_height cre) then true else changes in
  let changes := if x_requested || y_requested then true else changes in
  newRect ←
    (if x_requested || y_requested then
       (* if only one of the two dimensions is requested, then just set the
          other to some reasonable value *)
       last ← ask (fun h => last_size_ o h client);
       let cre_x := if negb x_requested then rx last else e_x cre in
       let cre_y := if negb y_requested then ry last else e_y cre in
       t ← ask (fun h => tag o h client);
       m0 ← ask (fun h => monitors_byTag o h t);
       m1 ← match m0 with
            | Some m => ret (Some m)
            | None => ask (fun h => monitors_byCoordinate o h {| px := cre_x; py := cre_y |})
            end;
       m ← match m1 with
           | Some m => ret m
           | None => ask (monitors_focus o)
           end;
       (* the requested coordinates are relative to the root window;
          convert them to coordinates relative to the monitor *)
       rect ← ask (fun h => monitor_rect o h m);
       left ← ask (fun h => pad_left o h m);
       up ← ask (fun h => pad_up o h m);
       let cre_x := int32 (cre_x - int32 (rx rect + left)) in
       let cre_y := int32 (cre_y - int32 (ry rect + up)) in
       ret (set_xy cre_x cre_y newRect)
     else ret newRect);
  let newRect := if width_requested then set_width (e_width cre) newRect else newRect in
  let newRect := if height_requested then set_height (e_height cre) newRect else newRect in
  ret (changes, newRect).

Definition configurerequest (cre : XEvent) : M unit :=
  client0 ← ask (fun h => clients_client o h (e_window cre));
  match client0 with
  | Some client =>
      newRect ← ask (fun h => float_size_ o h client);
      honours ← ask (fun h => sizehints_floating_ o h client);
      floated ← ask (fun h => is_client_floated o h client);
      pseudotile ← ask (fun h => pseudotile_ o h client);
      cn ← (if honours && (floated || pseudotile)
            then requested_geometry client cre newRect
            else ret (false, newRect));
      let changes := fst cn in
      let newRect := snd cn in
      floated ← ask (fun h => is_client_floated o h client);
      pseudotile ← ask (fun h => pseudotile_ o h client);
      if changes && floated then
        call o (Client_set_float_size client newRect) ;;
        t ← ask (fun h => tag o h client);
        m ← ask (fun h => find_monitor_with_tag o h t);
        current ← ask (get_current_client o);
        call o (Client_resize_floating client m (bool_decide (current = Some client)))
      else if changes && pseudotile then
        call o (Client_set_float_size client newRect) ;;
        t ← ask (fun h => tag o h client);
        m ← ask (fun h => find_monitor_with_tag o h t);
        match m with
        | Some m => call o (Monitor_applyLayout m)
        | None => ret tt
        end
      else
        call o (Client_send_configure client true)
  | None =>
      (* if client not known.. then allow configure; XConfigureWindow
         declares its mask as unsigned int, cre->value_mask is an unsigned
         long *)
      xreq (XConfigureWindow_ (e_window cre) (uint32 (e_value_mask cre))
              {| wc_x := e_x cre; wc_y := e_y cre;
                 wc_width := e_width cre; wc_height := e_height cre;
                 wc_border_width := e_border_width cre;
                 wc_sibling := e_above cre; wc_stack_mode := e_detail cre |})
  end.

Definition clientmessage (event : XEvent) : M unit :=
  call o (Ewmh_handleClientMessage event).

Definition configurenotify (event : XEvent) : M unit :=
  if e_window event =? X_root o then
    call o (Panels_rootWindowChanged (e_width event) (e_height event)) ;;
    auto ← ask (auto_detect_monitors o);
    if auto then
      call o (Monitors_detectMonitorsCommand {| command := "detect_monitors"; args := [] |})
    else ret tt
  else
    call o (Panels_geometryChanged (e_window event)
              {| rx := e_x event; ry := e_y event;
                 rwidth := e_width event; rheight := e_height event |}).

Definition destroynotify (event : XEvent) : M unit :=
  client ← ask (fun h => clients_client o h (e_window event));
  match client with
  | Some c => call o (Clients_force_unmanage c)
  | None =>
      call o (DesktopWindow_unregisterDesktop (e_window event)) ;;
      call o (Panels_unregisterPanel (e_window event))
  end.

(** The first statements of [enternotify] past the early return: the guard
    is set and the cursors of an entered decoration are refreshed. *)
Definition enternotify_begin (ce : XEvent) : M (option ClientRef) :=
  modify (set_duringEnterNotify true) ;;
  decorationClient ← ask (fun h => Decoration_toClient o h (e_window ce));
  match decorationClient with
  | Some d => call o (Dec_updateResizeAreaCursors d)
  | None => ret tt
  end ;;
  ret decorationClient.

Definition enternotify (ce : XEvent) : M unit :=
  if negb (e_mode ce =? X.NotifyNormal) || (e_detail ce =? X.NotifyInferior) then
    (* ignore an event if it is caused by (un-)grabbing the mouse or if the
       pointer moves from a window to its decoration *)
    ret tt
  else
    decorationClient ← enternotify_begin ce;
    dragging ← ask (mouse_is_dragging o);
    follows ← ask (focus_follows_mouse o);
    (if negb dragging && follows && negb (e_focus ce) then
       c0 ← ask (fun h => clients_client o h (e_window ce));
       let c := match c0 with Some c => Some c | None => decorationClient end in
       match c with
       | Some c =>
           t ← ask (fun h => tag o h c);
           floating ← ask (fun h => tag_floating o h t);
           hides ←
             (if negb floating then
                target ← ask (fun h => frameWithClient o h t c);
                match target with
                | Some target =>
                    layout ← ask (fun h => getLayout o h target);
                    focused ← ask (fun h => focusedClient o h target);
                    ret (match layout with LayoutAlgorithm.max => true | _ => false end
                         && negb (bool_decide (focused = Some c)))
                | None => ret false
                end
              else ret false);
           if hides then
             (* don't allow focus_follows_mouse if another window would be
                hidden during that focus change *)
             ret tt
           else call o (focus_client_ (Some c) false true false)
       | None =>
           (* if it's not a client window, it's maybe a frame *)
           frameDec ← ask (fun h => FrameDecoration_withWindow o h (e_window ce));
           match frameDec with
           | Some fd =>
               frame ← ask (fun h => frameDec_frame o h fd);
               match frame with
               | Some f => call o (Root_focusFrame f)
               | None => ret tt
               end
           | None => ret tt
           end
       end
     else ret tt) ;;
    modify (set_duringEnterNotify false).

Definition expose (_ : XEvent) : M unit := ret tt.

Definition focusin (event : XEvent) : M unit :=
  (* get the newest FocusIn event *)
  event ← drain_masked X.FocusChangeMask event;
  if (e_type event =? X.FocusIn)
     && ((e_detail event =? X.NotifyNonlinear)
         || (e_detail event =? X.NotifyNonlinearVirtual))
  then
    focus ← ask (clients_focus o);
    currentFocus ← match focus with
                   | Some c => ask (fun h => x11Window o h c)
                   | None => ret 0
                   end;
    if negb (e_window event =? currentFocus) then
      target ← ask (fun h => clients_client o h (e_window event));
      call o (focus_client_ target false true false)
    else ret tt
  else ret tt.

Definition keypress (event : XEvent) : M unit :=
  call o (Keys_handleKeyPress event).

Definition mappingnotify (ev : XEvent) : M unit :=
  xreq (XRefreshKeyboardMapping_ ev) ;;
  if e_request ev =? X.MappingKeyboard then call o Keys_regrabAll else ret tt.

Definition motionnotify (event : XEvent) : M unit :=
  (* get newest motion notification *)
  event ← drain_masked X.ButtonMotionMask event;
  call o (Mouse_handle_motion_event {| px := e_x_root event; py := e_y_root event |}).

Definition mapnotify (event : XEvent) : M unit :=
  c ← ask (fun h => clients_client o h (e_window event));
  match c with
  | Some c =>
      focus ← ask (clients_focus o);
      (if bool_decide (Some c = focus) then
         w ← ask (fun h => x11Window o h c);
         xreq (XSetInputFocus_ w X.RevertToPointerRoot X.CurrentTime)
       else ret tt) ;;
      call o (Client_update_title c)
  | None =>
      own ← ask (fun h => isOwnWindow o h (e_window event));
      dec ← ask (fun h => Decoration_toClient o h (e_window event));
      hlwm ← ask (fun h => is_herbstluft_window o h (e_window event));
      if negb own && negb (bool_decide (is_Some dec)) && negb hlwm then
        (* the window is not managed: briefly manage it to apply rules *)
        call o (Clients_manage_client (e_window event) true true DefaultOverride)
      else ret tt
  end.

Definition maprequest (mapreq : XEvent) : M unit :=
  let window := e_window mapreq in
  c ← ask (fun h => clients_client o h window);
  own ← ask (fun h => isOwnWindow o h window);
  hlwm ← ask (fun h => is_herbstluft_window o h window);
  if own || hlwm then
    (* just map the window if it wants that *)
    wa ← ask (fun h => XGetWindowAttributes o h window);
    match wa with
    | None => ret tt
    | Some _ => xreq (XMapWindow_ window)
    end
  else
    match c with
    | Some c => call o (Client_set_minimized c false)
    | None =>
        type ← ask (fun h => getWindowType o h window);
        match type with
        | NetWmWindowTypeDesktop =>
            call o (DesktopWindow_registerDesktop window) ;;
            call o Monitors_restack ;;
            xreq (XMapWindow_ window)
        | NetWmWindowTypeDock =>
            call o (Panels_registerPanel window) ;;
            xreq (XSelectInput_ window X.PropertyChangeMask) ;;
            xreq (XMapWindow_ window)
        | NetWmWindowTypeOther =>
            (* client should be managed (is not ignored) but is not managed yet *)
            client ← ask (fun h => manage_client_result o h window false false DefaultOverride);
            call o (Clients_manage_client window false false DefaultOverride) ;;
            match client with
            | Some client =>
                t ← ask (fun h => tag o h client);
                m ← ask (fun h => find_monitor_with_tag o h t);
                if bool_decide (is_Some m) then xreq (XMapWindow_ window) else ret tt
            | None => ret tt
            end
        end
    end.

Definition selectionclear (event : XEvent) : M unit :=
  selection ← ask (windowManagerSelection o);
  window ← ask (windowManagerWindow o);
  if (e_selection event =? selection) && (e_window event =? window)
  then quit
  else ret tt.

Definition propertynotify (ev : XEvent) : M unit :=
  client ← ask (fun h => clients_client o h (e_window ev));
  if e_state ev =? X.PropertyNewValue then
    connectable ← ask (fun h => isConnectable o h (e_window ev));
    if connectable then call o (Ipc_handleConnection (e_window ev))
    else
      match client with
      | Some client =>
          if e_atom ev =? X.XA_WM_HINTS then call o (Client_update_wm_hints client)
          else if e_atom ev =? X.XA_WM_NORMAL_HINTS then
            call o (Client_updatesizehints client) ;;
            geom ← ask (fun h => float_size_ o h client);
            wh ← ask (fun h => applysizehints_result o h client (rwidth geom) (rheight geom) true);
            call o (Client_applysizehints client (rwidth geom) (rheight geom) true) ;;
            call o (Client_set_float_size client (set_height (snd wh) (set_width (fst wh) geom))) ;;
            t ← ask (fun h => tag o h client);
            m ← ask (fun h => find_monitor_with_tag o h t);
            match m with
            | Some m => call o (Monitor_applyLayout m)
            | None => ret tt
            end
          else
            name ← ask (netatom_NetWmName o);
            if (e_atom ev =? X.XA_WM_NAME) || (e_atom ev =? name)
            then call o (Client_update_title client)
            else if e_atom ev =? X.XA_WM_CLASS
            then call o (Clients_applyRules client)
            else ret tt
      | None => call o (Panels_propertyChanged (e_window ev) (e_atom ev))
      end
  else ret tt.

Definition unmapnotify (event : XEvent) : M unit :=
  (if e_window event =? e_event event then
     (* reparenting the window creates multiple unmap notify events, both
        for the root window and the window itself *)
     call o (Clients_unmap_notify (e_window event))
   else ret tt) ;;
  (if e_send_event event then
     (* a synthetic event is a request by the window to be unmanaged *)
     xreq (XUnmapWindow_ (e_window event))
   else ret tt) ;;
  (* drop all enternotify events *)
  XSync ;;
  drain_masked X.EnterWindowMask uninitialised ;;
  ret tt.

Definition callCommand (call_ : list string) : M CallResult :=
  (* the call consists of the command and its arguments *)
  let commandName := match call_ with [] => EmptyString | c :: _ => c end in
  let input := match call_ with
               | [] => {| command := EmptyString; args := call_ |}
               | c :: rest => {| command := c; args := rest |}
               end in
  r ← ask (fun h => Commands_call_result o h input commandName);
  call o (Commands_call input commandName) ;;
  ret {| exitCode := fst (fst r); output := snd (fst r); error := snd r |}.

Definition collectZombies : M unit :=
  zombies ← ask (waitpid_WNOHANG o);
  fold_right (fun z k => call o (childExited_emit (fst z) (WEXITSTATUS (snd z))) ;; k)
             (ret tt) zombies.

(** [(this ->* handler)(&event)]. *)
Definition member (handler : EventHandler) : XEvent -> M unit :=
  match handler with
  | buttonpress_ => buttonpress
  | buttonrelease_ => buttonrelease
  | clientmessage_ => clientmessage
  | configurenotify_ => configurenotify
  | configurerequest_ => configurerequest
  | createnotify_ => createnotify
  | destroynotify_ => destroynotify
  | enternotify_ => enternotify
  | expose_ => expose
  | focusin_ => focusin
  | keypress_ => keypress
  | mapnotify_ => mapnotify
  | maprequest_ => maprequest
  | mappingnotify_ => mappingnotify
  | motionnotify_ => motionnotify
  | propertynotify_ => propertynotify
  | unmapnotify_ => unmapnotify
  | selectionclear_ => selectionclear
  end.

End Handlers.

(** ** Construction *)

(** [handlerTable_[type] = EH(&XMainLoop::handler)]; [type] is a valid index
    for every assignment of the constructor. *)
Definition assign (type : Z) (handler : EventHandler) (table : list (option EventHandler))
  : list (option EventHandler) :=
  <[Z.to_nat type := Some handler]> table.

(** The assignments of the constructor, in the order of the source. *)
Definition registrations : list (Z * EventHandler) :=
  [ (X.ButtonPress, buttonpress_);
    (X.ButtonRelease, buttonrelease_);
    (X.ClientMessage, clientmessage_);
    (X.ConfigureNotify, configurenotify_);
    (X.ConfigureRequest, configurerequest_);
    (X.CreateNotify, createnotify_);
    (X.DestroyNotify, destroynotify_);
    (X.EnterNotify, enternotify_);
    (X.Expose, expose_);
    (X.FocusIn, focusin_);
    (X.KeyPress, keypress_);
    (X.MapNotify, mapnotify_);
    (X.MapRequest, maprequest_);
    (X.MappingNotify, mappingnotify_);
    (X.MotionNotify, motionnotify_);
    (X.PropertyNotify, propertynotify_);
    (X.UnmapNotify, unmapnotify_);
    (X.SelectionClear, selectionclear_) ].

(** [XMainLoop::XMainLoop]: [aboutToQuit_(false)], [handlerTable_()] (all
    slots null) and the assignments; [duringEnterNotify_] has its default
    member initialiser.  The display and the history are those of the
    connection the loop is built on.  The two [connect] calls are what makes
    [cb_dropEnterNotifyEvents] and [cb_draggedClientChanges] reach this
    object. *)
Definition XMainLoop_new (q : list XEvent) (srv : list (list XEvent)) (h : History) : XMainLoop :=
  {| aboutToQuit_ := false;
     duringEnterNotify_ := false;
     handlerTable_ :=
       foldl (fun table r => assign (fst r) (snd r) table)
             (replicate (Z.to_nat X.LASTEvent) None) registrations;
     xqueue := q; xserver := srv; trace := h |}.

(** The table a constructed main loop holds. *)
Definition constructed_table : list (option EventHandler) :=
  handlerTable_ (XMainLoop_new [] [] []).

(** [handlerTable_[i]] for an [int] index: [None] outside the array. *)
Definition slot (table : list (option EventHandler)) (i : Z) : option (option EventHandler) :=
  if i <? 0 then None else table !! Z.to_nat i.

(** ** scanExistingClients *)

Inductive Completion := Normal | NullDereference.

Section Scan.
Variable o : Oracle.

(** [findTagForWindow(win)]: which closure is handed to [manage_client]. *)
Definition findTagForWindow (win : Window) : M RuleOverride :=
  import ← ask (importTagsFromEwmh o);
  if negb import then ret DoNothing else ret (ImportTagOf win).

(** The body of a closure, run by the client manager on its
    [ClientChanges] after history [h]. *)
Definition apply_override (h : History) (f : RuleOverride) (changes : ClientChanges) : ClientChanges :=
  match f with
  | DefaultOverride | DoNothing => changes
  | ImportTagOf win =>
      let idx := windowGetInitialDesktop o h win in
      if idx <? 0 then changes
      else match tags_byIdx o h idx with
           | Some t => {| tag_name := tag_name_of o h t |}
           | None => changes
           end
  end.

Definition isInOriginalClients (win : Window) : bool :=
  bool_decide (win ∈ original_client_list_ o).

(** The body of the first loop, for one child of the root window;
    [continue] and the end of the body are [Normal]. *)
Definition scan_child (win : Window) : M Completion :=
  wa ← ask (fun h => XGetWindowAttributes o h win);
  match wa with
  | None => ret Normal
  | Some wa =>
      if override_redirect wa then ret Normal
      else
        own ← ask (fun h => isOwnWindow o h win);
        if own then ret Normal
        else
          type ← ask (fun h => getWindowType o h win);
          match type with
          | NetWmWindowTypeDesktop =>
              call o (DesktopWindow_registerDesktop win) ;;
              call o Monitors_restack ;;
              xreq (XMapWindow_ win) ;;
              ret Normal
          | NetWmWindowTypeDock =>
              call o (Panels_registerPanel win) ;;
              xreq (XSelectInput_ win X.PropertyChangeMask) ;;
              xreq (XMapWindow_ win) ;;
              ret Normal
          | NetWmWindowTypeOther =>
              if (map_state wa =? X.IsViewable) || isInOriginalClients win then
                f ← findTagForWindow win;
                c ← ask (fun h => manage_client_result o h win true false f);
                call o (Clients_manage_client win true false f) ;;
                match c with
                | None => ret NullDereference   (* c->tag() *)
                | Some c =>
                    t ← ask (fun h => tag o h c);
                    m ← ask (fun h => monitors_byTag o h t);
                    (if bool_decide (is_Some m) then xreq (XMapWindow_ win) else ret tt) ;;
                    ret Normal
                end
              else ret Normal
          end
  end.

(** The first loop, over the children of the root window. *)
Fixpoint scan_children (wins : list Window) : M Completion :=
  match wins with
  | [] => ret Normal
  | win :: rest =>
      done ← scan_child win;
      match done with
      | Normal => scan_children rest
      | NullDereference => ret NullDereference
      end
  end.

(** The body of the second loop: ensure every original client is managed
    again. *)
Definition scan_original_client (win : Window) : M unit :=
  c ← ask (fun h => clients_client o h win);
  if bool_decide (is_Some c) then ret tt
  else
    wa ← ask (fun h => XGetWindowAttributes o h win);
    match wa with
    | None => ret tt
    | Some wa =>
        if override_redirect wa then ret tt
        else
          xreq (XReparentWindow_ win (X_root o) 0 0) ;;
          f ← findTagForWindow win;
          call o (Clients_manage_client win true false f)
    end.

Fixpoint scan_original (wins : list Window) : M unit :=
  match wins with
  | [] => ret tt
  | win :: rest => scan_original_client win ;; scan_original rest
  end.

Definition scanExistingClients : M Completion :=
  children ← ask (fun h => X_queryTree o h (X_root o));
  done ← scan_children children;
  match done with
  | NullDereference => ret NullDereference
  | Normal =>
      scan_original (original_client_list_ o) ;;
      call o Monitors_restack ;;
      ret Normal
  end.

End Scan.

(** ** run *)

(** Where control is inside [run]. *)
Inductive Pc :=
| OuterTest    (* at [while (!aboutToQuit_)] *)
| QuitCheck    (* at [if (aboutToQuit_) break], after select and reaping *)
| InnerTest    (* at [while (XQLength(X_.display()))] *)
| Returned     (* [run] has returned *)
| OutOfBounds  (* [handlerTable_[event.type]] read outside the array *).

Section Run.
Variable o : Oracle.

(** One pass from a test to the next one. *)
Definition step (c : Pc * XMainLoop) : Pc * XMainLoop :=
  let (pc, st) := c in
  match pc with
  | OuterTest =>
      if aboutToQuit_ st then (Returned, st)
      else
        (* before making the process hang in the select call, first collect
           all zombies; and again after it *)
        (QuitCheck, exec (collectZombies o ;; xreq select_ ;; collectZombies o) st)
  | QuitCheck =>
      if aboutToQuit_ st then (Returned, st)   (* break *)
      else (InnerTest, exec XSync st)
  | InnerTest =>
      match xqueue st with
      | [] => (OuterTest, st)
      | event :: rest =>
          (* XNextEvent *)
          let st := set_display rest (xserver st) st in
          match slot (handlerTable_ st) (e_type event) with
          | None => (OutOfBounds, st)
          | Some handler =>
              let st := match handler with
                        | Some h => exec (xreq (MemberCall h event) ;; member o h event) st
                        | None => st
                        end in
              (InnerTest, exec (call o Watchers_scanForChanges ;; XSync) st)
          end
      end
  | Returned => (Returned, st)
  | OutOfBounds => (OutOfBounds, st)
  end.

Definition steps (n : nat) (c : Pc * XMainLoop) : Pc * XMainLoop := Nat.iter n step c.

(** [run()], followed for [n] passes. *)
Definition run (n : nat) (st : XMainLoop) : Pc * XMainLoop := steps n (OuterTest, st).

End Run.

(** ** Notions used in the statements *)

Definition is_member_call (a : Action) : bool :=
  match a with MemberCall _ _ => true | _ => false end.

(** The requests made by [dropEnterNotifyEvents] and
    [draggedClientChanges], the members another component can call back. *)
Definition is_callback_request (a : Action) : bool :=
  match a with
  | XSync_ | XCreateFontCursor_ _ | XUngrabPointer_ _
  | XGrabPointer_ _ _ _ _ _ _ _ _ => true
  | _ => false
  end.

(** Events not yet taken out of the queue: queued or still to be read. *)
Definition pending_events (st : XMainLoop) : list XEvent :=
  xqueue st ++ concat (xserver st).
Definition pending (st : XMainLoop) : nat := length (pending_events st).

(** An event whose type indexes a slot of the handler table. *)
Definition core_event (e : XEvent) : Prop := 0 <= e_type e < X.LASTEvent.

(** [st'] comes after [st]: the table is the same, a set quit flag is still
    set, the pending events are among those that were pending, in their
    order, and the history grew by calls that satisfy [P]. *)
Record evolves (P : Action -> bool) (st st' : XMainLoop) : Prop := {
  ev_table : handlerTable_ st' = handlerTable_ st;
  ev_quit : aboutToQuit_ st = true -> aboutToQuit_ st' = true;
  ev_events : pending_events st' `sublist_of` pending_events st;
  ev_trace : exists new, trace st' = trace st ++ new /\ Forall (fun a => P a = true) new
}.

Definition keeps (P : Action -> bool) {A} (m : M A) : Prop :=
  forall st, evolves P st (snd (m st)).

(** The calls a member function makes itself: all but the member call
    through the table and the wait, which are made by [run]. *)
Definition own (a : Action) : bool :=
  match a with
  | MemberCall _ _ | select_ => false
  | _ => true
  end.


(** Calls that change the geometry of a window or of the layout. *)
Definition is_geometry_change (a : Action) : bool :=
  match a with
  | Client_set_float_size _ _ | Client_resize_floating _ _ _
  | Client_applysizehints _ _ _ _ | Monitor_applyLayout _
  | XConfigureWindow_ _ _ _ => true
  | _ => false
  end.

(** Calls that move the focus. *)
Definition is_focus_change (a : Action) : bool :=
  match a with
  | focus_client_ _ _ _ _ | Root_focusFrame _ | XSetInputFocus_ _ _ _ => true
  | _ => false
  end.

(** [currentFocus] of [focusin]: the window of the focused client, 0 when
    no client is focused. *)
Definition currentFocus (o : Oracle) (h : History) : Window :=
  match clients_focus o h with
  | Some c => x11Window o h c
  | None => 0
  end.

(** The windows the first loop of [scanExistingClients] hands to
    [manage_client]: attributes available, not override-redirect, not a
    window of the manager itself, neither desktop nor dock, and viewable or
    in the client list of the previous window manager. *)
Definition classified_as_client (o : Oracle) (h : History) (win : Window) : bool :=
  match XGetWindowAttributes o h win with
  | None => false
  | Some wa =>
      negb (override_redirect wa)
      && negb (isOwnWindow o h win)
      && match getWindowType o h win with
         | NetWmWindowTypeOther => true
         | _ => false
         end
      && ((map_state wa =? X.IsViewable) || isInOriginalClients o win)
  end.

(** The closure [findTagForWindow(win)] evaluates to after history [h]. *)
Definition override_for (o : Oracle) (h : History) (win : Window) : RuleOverride :=
  if negb (importTagsFromEwmh o h) then DoNothing else ImportTagOf win.

(** Whether a ConfigureRequest counts as a change for a client whose
    floating size is [current]: a position is asked for, or a width or a
    height that differs from the current one. *)
Definition effective_change (cre : XEvent) (current : Rectangle) : bool :=
  let width_requested := negb (0 =? Z.land (e_value_mask cre) X.CWWidth) in
  let height_requested := negb (0 =? Z.land (e_value_mask cre) X.CWHeight) in
  let x_requested := negb (0 =? Z.land (e_value_mask cre) X.CWX) in
  let y_requested := negb (0 =? Z.land (e_value_mask cre) X.CWY) in
  x_requested || y_requested
  || (width_requested && negb (rwidth current =? e_width cre))
  || (height_requested && negb (rheight current =? e_height cre)).

(** What the drain at the head of [focusin] works on: the queued events
    the FocusChange mask selects, the event left in [*event] by the drain,
    and the state the drain leaves. *)
Definition focus_burst (st : XMainLoop) : list XEvent :=
  List.filter (mask_selects X.FocusChangeMask) (xqueue st).
Definition newest_focus_event (event : XEvent) (st : XMainLoop) : XEvent :=
  List.last (focus_burst st) event.
Definition without (mask : Z) (st : XMainLoop) : XMainLoop :=
  set_display (List.filter (fun e => negb (mask_selects mask e)) (xqueue st))
              (xserver st) st.

(** Every call but the wait in [select]. *)
Definition no_wait (a : Action) : bool :=
  match a with select_ => false | _ => true end.

Definition anything (_ : Action) : bool := true.

(** The part of the history [st'] has beyond that of [st]. *)
Definition new_calls (st st' : XMainLoop) : History :=
  drop (length (trace st)) (trace st').

Definition member_calls (h : History) : History := List.filter is_member_call h.

(** ** Concrete scenarios *)

(** An event with the given type and window, every other member zero. *)
Definition event_of (type : Z) (window : Window) : XEvent :=
  {| e_type := type; e_send_event := false; e_window := window; e_event := 0;
     e_subwindow := 0; e_above := 0; e_x := 0; e_y := 0; e_width := 0;
     e_height := 0; e_border_width := 0; e_x_root := 0; e_y_root := 0;
     e_state := 0; e_button := 0; e_time := 0; e_detail := 0; e_mode := 0;
     e_focus := false; e_value_mask := 0; e_selection := 0; e_atom := 0;
     e_request := 0 |}.

(** A window manager with one monitor and one tag whose only frame uses the
    max layout and has client 0 focused.  Which windows are clients, whether
    clients float or are pseudotiled, what [manage_client] returns and what
    is called back are left open; nothing depends on the history. *)
Definition scenario (client_of : Window -> option ClientRef) (floated pseudotile : bool)
    (manage : Window -> option ClientRef) (cbs : Action -> list Callback) : Oracle :=
  {| X_root := 1;
     X_queryTree := fun _ _ => [10; 11];
     XGetWindowAttributes := fun _ _ =>
       Some {| override_redirect := false; map_state := X.IsViewable |};
     waitpid_WNOHANG := fun _ => [];
     clients_client := fun _ w => client_of w;
     clients_focus := fun _ => Some 0%nat;
     get_current_client := fun _ => Some 0%nat;
     manage_client_result := fun _ w _ _ _ => manage w;
     x11Window := fun _ c => 100 + Z.of_nat c;
     decorationWindow := fun _ c => 200 + Z.of_nat c;
     tag := fun _ _ => 0%nat;
     float_size_ := fun _ _ => {| rx := 30; ry := 40; rwidth := 640; rheight := 480 |};
     last_size_ := fun _ _ => {| rx := 30; ry := 40; rwidth := 640; rheight := 480 |};
     sizehints_floating_ := fun _ _ => true;
     pseudotile_ := fun _ _ => pseudotile;
     is_client_floated := fun _ _ => floated;
     applysizehints_result := fun _ _ w h _ => (w, h);
     tag_floating := fun _ _ => false;
     tag_name_of := fun _ _ => "default";
     tags_byIdx := fun _ _ => Some 0%nat;
     frameWithClient := fun _ _ _ => Some 0%nat;
     getLayout := fun _ _ => LayoutAlgorithm.max;
     focusedClient := fun _ _ => Some 0%nat;
     monitors_byTag := fun _ _ => Some 0%nat;
     monitors_byCoordinate := fun _ _ => Some 0%nat;
     monitors_focus := fun _ => 0%nat;
     find_monitor_with_tag := fun _ _ => Some 0%nat;
     monitor_rect := fun _ _ => {| rx := 0; ry := 0; rwidth := 1920; rheight := 1080 |};
     pad_left := fun _ _ => 0;
     pad_up := fun _ _ => 0;
     Decoration_toClient := fun _ _ => None;
     positionHasButton := fun _ _ _ => None;
     positionTriggersResize := fun _ _ _ => 0;
     ResizeAction_bool := fun ra => negb (ra =? 0);
     toCursorShape := fun _ => None;
     FrameDecoration_withWindow := fun _ _ => None;
     frameDec_frame := fun _ _ => None;
     mouse_handle_event_result := fun _ _ _ _ => false;
     mouse_is_dragging := fun _ => false;
     resizeAction := fun _ => 0;
     raise_on_click := fun _ => true;
     focus_follows_mouse := fun _ => true;
     auto_detect_monitors := fun _ => false;
     importTagsFromEwmh := fun _ => false;
     isOwnWindow := fun _ _ => false;
     getWindowType := fun _ _ => NetWmWindowTypeOther;
     original_client_list_ := [];
     windowGetInitialDesktop := fun _ _ => 0;
     windowManagerSelection := fun _ => 77;
     windowManagerWindow := fun _ => 5;
     netatom_NetWmName := fun _ => 300;
     isConnectable := fun _ _ => false;
     is_herbstluft_window := fun _ _ => false;
     Commands_call_result := fun _ input _ => (0, command input, EmptyString);
     signals := fun _ a => cbs a |}.

(** Windows 101 and 102 are the clients 1 and 2. *)
Definition two_clients (w : Window) : option ClientRef :=
  if w =? 101 then Some 1%nat else if w =? 102 then Some 2%nat else None.

Definition no_callbacks (_ : Action) : list Callback := [].

(** Tiled clients, nothing called back. *)
Definition tiled : Oracle := scenario two_clients false false two_clients no_callbacks.

(** Another window manager takes the selection; a key press is queued
    behind the notification. *)
Definition selection_lost : XEvent :=
  {| e_type := X.SelectionClear; e_send_event := false; e_window := 5; e_event := 0;
     e_subwindow := 0; e_above := 0; e_x := 0; e_y := 0; e_width := 0;
     e_height := 0; e_border_width := 0; e_x_root := 0; e_y_root := 0;
     e_state := 0; e_button := 0; e_time := 0; e_detail := 0; e_mode := 0;
     e_focus := false; e_value_mask := 0; e_selection := 77; e_atom := 0;
     e_request := 0 |}.
Definition key_pressed : XEvent := event_of X.KeyPress 101.

(** A key binding that runs the quit command: the key manager calls [quit]
    back while it handles the key press. *)
Definition quit_on_key (a : Action) : list Callback :=
  match a with Keys_handleKeyPress _ => [cb_quit] | _ => [] end.
Definition quit_bound : Oracle := scenario two_clients false false two_clients quit_on_key.
Definition button_released : XEvent := event_of X.ButtonRelease 101.

(** A ConfigureRequest for window 101 with every bit of the value mask set. *)
Definition configure_all : XEvent :=
  {| e_type := X.ConfigureRequest; e_send_event := false; e_window := 101; e_event := 0;
     e_subwindow := 0; e_above := 0; e_x := 5; e_y := 6; e_width := 800;
     e_height := 600; e_border_width := 1; e_x_root := 0; e_y_root := 0;
     e_state := 0; e_button := 0; e_time := 0; e_detail := 0; e_mode := 0;
     e_focus := false; e_value_mask := 127; e_selection := 0; e_atom := 0;
     e_request := 0 |}.

(** A ConfigureRequest for window 101 that asks only for the position the
    client already has, (30, 40). *)
Definition configure_same_position : XEvent :=
  {| e_type := X.ConfigureRequest; e_send_event := false; e_window := 101; e_event := 0;
     e_subwindow := 0; e_above := 0; e_x := 30; e_y := 40; e_width := 0;
     e_height := 0; e_border_width := 0; e_x_root := 0; e_y_root := 0;
     e_state := 0; e_button := 0; e_time := 0; e_detail := 0; e_mode := 0;
     e_focus := false; e_value_mask := 3; e_selection := 0; e_atom := 0;
     e_request := 0 |}.

(** A ConfigureRequest for window 101 that asks only for the size the
    client already has, 640x480. *)
Definition configure_same_size : XEvent :=
  {| e_type := X.ConfigureRequest; e_send_event := false; e_window := 101; e_event := 0;
     e_subwindow := 0; e_above := 0; e_x := 0; e_y := 0; e_width := 640;
     e_height := 480; e_border_width := 0; e_x_root := 0; e_y_root := 0;
     e_state := 0; e_button := 0; e_time := 0; e_detail := 0; e_mode := 0;
     e_focus := false; e_value_mask := 12; e_selection := 0; e_atom := 0;
     e_request := 0 |}.

(** Floated clients, nothing called back. *)
Definition floating : Oracle := scenario two_clients true false two_clients no_callbacks.

(** The state of a main loop just constructed on an idle connection. *)
Definition idle : XMainLoop := XMainLoop_new [] [] [].

(** The pointer enters window 102, of client 2, normally and from outside;
    the window does not have the keyboard focus. *)
Definition pointer_enters : XEvent :=
  {| e_type := X.EnterNotify; e_send_event := false; e_window := 102; e_event := 0;
     e_subwindow := 0; e_above := 0; e_x := 0; e_y := 0; e_width := 0;
     e_height := 0; e_border_width := 0; e_x_root := 0; e_y_root := 0;
     e_state := 0; e_button := 0; e_time := 0; e_detail := X.NotifyNonlinear;
     e_mode := X.NotifyNormal;
     e_focus := false; e_value_mask := 0; e_selection := 0; e_atom := 0;
     e_request := 0 |}.

(** Focus changes: window 102 takes the focus by itself (detail
    NotifyNonlinear), and the same window loses it. *)
Definition focus_taken : XEvent :=
  {| e_type := X.FocusIn; e_send_event := false; e_window := 102; e_event := 0;
     e_subwindow := 0; e_above := 0; e_x := 0; e_y := 0; e_width := 0;
     e_height := 0; e_border_width := 0; e_x_root := 0; e_y_root := 0;
     e_state := 0; e_button := 0; e_time := 0; e_detail := X.NotifyNonlinear;
     e_mode := X.NotifyNormal;
     e_focus := false; e_value_mask := 0; e_selection := 0; e_atom := 0;
     e_request := 0 |}.
Definition focus_lost : XEvent :=
  {| e_type := X.FocusOut; e_send_event := false; e_window := 102; e_event := 0;
     e_subwindow := 0; e_above := 0; e_x := 0; e_y := 0; e_width := 0;
     e_height := 0; e_border_width := 0; e_x_root := 0; e_y_root := 0;
     e_state := 0; e_button := 0; e_time := 0; e_detail := X.NotifyNonlinear;
     e_mode := X.NotifyNormal;
     e_focus := false; e_value_mask := 0; e_selection := 0; e_atom := 0;
     e_request := 0 |}.

(** A synthetic UnmapNotify of window 101, reported on the window itself. *)
Definition withdrawn : XEvent :=
  {| e_type := X.UnmapNotify; e_send_event := true; e_window := 101; e_event := 101;
     e_subwindow := 0; e_above := 0; e_x := 0; e_y := 0; e_width := 0;
     e_height := 0; e_border_width := 0; e_x_root := 0; e_y_root := 0;
     e_state := 0; e_button := 0; e_time := 0; e_detail := 0; e_mode := 0;
     e_focus := false; e_value_mask := 0; e_selection := 0; e_atom := 0;
     e_request := 0 |}.

(** [manage_client] refuses window 11 (it returns a null pointer) and
    accepts every other window as client 1. *)
Definition refuse_11 (w : Window) : option ClientRef :=
  if w =? 11 then None else Some 1%nat.
Definition refusing : Oracle := scenario two_clients false false refuse_11 no_callbacks.

(** ** Notions used in the statements about the rest of the file *)

(** The events passed to handlers in a history, in the order of the calls. *)
Definition dispatched (h : History) : list XEvent :=
  flat_map (fun a => match a with MemberCall _ ev => [ev] | _ => [] end) h.

(** The [(pid, status)] pairs emitted on [childExited] in a history. *)
Definition child_exits (h : History) : list (Z * Z) :=
  flat_map (fun a => match a with childExited_emit pid s => [(pid, s)] | _ => [] end) h.

(** [f] holds after a computation what it held before. *)
Definition respects (R : XMainLoop -> XMainLoop -> Prop) {A} (m : M A) : Prop :=
  forall st, R st (snd (m st)).

(** The guard of [enternotify] is as it was. *)
Definition same_guard (st st' : XMainLoop) : Prop :=
  duringEnterNotify_ st' = duringEnterNotify_ st.

(** The queue and what the server still holds are as they were. *)
Definition same_events (st st' : XMainLoop) : Prop :=
  xqueue st' = xqueue st /\ xserver st' = xserver st.

(** Started with the guard set, a computation leaves the events alone and
    the guard set. *)
Definition guarded {A} (m : M A) : Prop :=
  forall st, duringEnterNotify_ st = true ->
             same_events st (snd (m st)) /\ duringEnterNotify_ (snd (m st)) = true.

(** Started with the guard set, a computation leaves the events alone. *)
Definition spares_events {A} (m : M A) : Prop :=
  forall st, duringEnterNotify_ st = true -> same_events st (snd (m st)).

(** The callback made when a drag ends: [draggedClientChanges(nullptr)]. *)
Definition ends_drag (cb : Callback) : bool :=
  match cb with cb_draggedClientChanges None => true | _ => false end.

Definition is_XConfigureWindow (a : Action) : bool :=
  match a with XConfigureWindow_ _ _ _ => true | _ => false end.

Definition is_XMapWindow (a : Action) : bool :=
  match a with XMapWindow_ _ => true | _ => false end.

(** What a button press does for the client under the pointer. *)
Definition is_click_response (a : Action) : bool :=
  match a with
  | focus_client_ _ _ _ _ | Mouse_initiate_resize _ _ | Mouse_initiate_move _ => true
  | _ => false
  end.

(** Calls by which a property change reaches the IPC server or the panels. *)
Definition is_ipc_or_panel_notice (a : Action) : bool :=
  match a with
  | Ipc_handleConnection _ | Ipc_addConnection _ | Panels_propertyChanged _ _ => true
  | _ => false
  end.

(** A reparenting other than that of a window of the previous client list to
    the root window at (0, 0). *)
Definition is_foreign_reparent (o : Oracle) (a : Action) : bool :=
  match a with
  | XReparentWindow_ w parent x y =>
      negb (bool_decide (w ∈ original_client_list_ o)
            && (parent =? X_root o) && (x =? 0) && (y =? 0))
  | _ => false
  end.

(** The monitor [configurerequest] translates requested coordinates for:
    the one showing the tag of the client, else the one at the requested
    point, else the focused one. *)
Definition monitor_for_request (o : Oracle) (h : History) (c : ClientRef) (x y : Z)
  : MonitorRef :=
  match monitors_byTag o h (tag o h c) with
  | Some m => m
  | None =>
      match monitors_byCoordinate o h {| px := x; py := y |} with
      | Some m => m
      | None => monitors_focus o h
      end
  end.

(** A value an [int] holds. *)
Definition fits_int (z : Z) : Prop := - 2 ^ 31 <= z < 2 ^ 31.

(** ** Further scenarios *)

(** [base] with the layout of every frame, the children to reap, the
    verdict of the mouse manager on button presses, IPC connectability of
    every window and the callbacks replaced. *)
Definition variant (base : Oracle) (layout : LayoutAlgorithm.t) (zombies : list (Z * Z))
    (handled connectable : bool) (cbs : Action -> list Callback) : Oracle :=
  {| X_root := X_root base;
     X_queryTree := X_queryTree base;
     XGetWindowAttributes := XGetWindowAttributes base;
     waitpid_WNOHANG := fun _ => zombies;
     clients_client := clients_client base;
     clients_focus := clients_focus base;
     get_current_client := get_current_client base;
     manage_client_result := manage_client_result base;
     x11Window := x11Window base;
     decorationWindow := decorationWindow base;
     tag := tag base;
     float_size_ := float_size_ base;
     last_size_ := last_size_ base;
     sizehints_floating_ := sizehints_floating_ base;
     pseudotile_ := pseudotile_ base;
     is_client_floated := is_client_floated base;
     applysizehints_result := applysizehints_result base;
     tag_floating := tag_floating base;
     tag_name_of := tag_name_of base;
     tags_byIdx := tags_byIdx base;
     frameWithClient := frameWithClient base;
     getLayout := fun _ _ => layout;
     focusedClient := focusedClient base;
     monitors_byTag := monitors_byTag base;
     monitors_byCoordinate := monitors_byCoordinate base;
     monitors_focus := monitors_focus base;
     find_monitor_with_tag := find_monitor_with_tag base;
     monitor_rect := monitor_rect base;
     pad_left := pad_left base;
     pad_up := pad_up base;
     Decoration_toClient := Decoration_toClient base;
     positionHasButton := positionHasButton base;
     positionTriggersResize := positionTriggersResize base;
     ResizeAction_bool := ResizeAction_bool base;
     toCursorShape := toCursorShape base;
     FrameDecoration_withWindow := FrameDecoration_withWindow base;
     frameDec_frame := frameDec_frame base;
     mouse_handle_event_result := fun _ _ _ _ => handled;
     mouse_is_dragging := mouse_is_dragging base;
     resizeAction := resizeAction base;
     raise_on_click := raise_on_click base;
     focus_follows_mouse := focus_follows_mouse base;
     auto_detect_monitors := auto_detect_monitors base;
     importTagsFromEwmh := importTagsFromEwmh base;
     isOwnWindow := isOwnWindow base;
     getWindowType := getWindowType base;
     original_client_list_ := original_client_list_ base;
     windowGetInitialDesktop := windowGetInitialDesktop base;
     windowManagerSelection := windowManagerSelection base;
     windowManagerWindow := windowManagerWindow base;
     netatom_NetWmName := netatom_NetWmName base;
     isConnectable := fun _ _ => connectable;
     is_herbstluft_window := is_herbstluft_window base;
     Commands_call_result := Commands_call_result base;
     signals := fun _ a => cbs a |}.

(** Focusing a client makes the monitors ask for the enter events to be
    dropped. *)
Definition drop_on_focus (a : Action) : list Callback :=
  match a with focus_client_ _ _ _ _ => [cb_dropEnterNotifyEvents] | _ => [] end.

(** Frames laid out vertically, and the request to drop enter events on
    every focus change. *)
Definition vertical_refocusing : Oracle :=
  variant tiled LayoutAlgorithm.vertical [] false false drop_on_focus.

(** Two children wait to be reaped: 4711 exited with status 3, 4712 with 0
    (wait statuses 0x0300 and 0). *)
Definition two_zombies : Oracle :=
  variant tiled LayoutAlgorithm.max [(4711, 768); (4712, 0)] false false no_callbacks.

(** A child waits to be reaped, and a receiver of [childExited] answers by
    calling [quit]. *)
Definition quit_on_exit (a : Action) : list Callback :=
  match a with childExited_emit _ _ => [cb_quit] | _ => [] end.

Definition reaping_quits : Oracle :=
  variant tiled LayoutAlgorithm.max [(4711, 768)] false false quit_on_exit.

(** A panel, not managed, asks for a position with a mask that has a bit
    set above the 32 bits an unsigned int holds. *)
Definition configure_panel : XEvent :=
  {| e_type := X.ConfigureRequest; e_send_event := false; e_window := 55; e_event := 0;
     e_subwindow := 0; e_above := 0; e_x := 0; e_y := 780; e_width := 1280;
     e_height := 20; e_border_width := 0; e_x_root := 0; e_y_root := 0;
     e_state := 0; e_button := 0; e_time := 0; e_detail := 0; e_mode := 0;
     e_focus := false; e_value_mask := 2 ^ 32 + 3; e_selection := 0; e_atom := 0;
     e_request := 0 |}.

(** The mouse manager consumes every button press. *)
Definition mouse_binds : Oracle :=
  variant tiled LayoutAlgorithm.max [] true false no_callbacks.

(** Every window is an IPC connection. *)
Definition ipc_everywhere : Oracle :=
  variant tiled LayoutAlgorithm.max [] false true no_callbacks.

Definition button_pressed : XEvent :=
  {| e_type := X.ButtonPress; e_send_event := false; e_window := 101; e_event := 0;
     e_subwindow := 0; e_above := 0; e_x := 3; e_y := 4; e_width := 0;
     e_height := 0; e_border_width := 0; e_x_root := 0; e_y_root := 0;
     e_state := 0; e_button := 1; e_time := 1234; e_detail := 0; e_mode := 0;
     e_focus := false; e_value_mask := 0; e_selection := 0; e_atom := 0;
     e_request := 0 |}.

(** The pointer moves, a button held, to the root position (x, y). *)
Definition moved_to (x y : Z) : XEvent :=
  {| e_type := X.MotionNotify; e_send_event := false; e_window := 101; e_event := 0;
     e_subwindow := 0; e_above := 0; e_x := 0; e_y := 0; e_width := 0;
     e_height := 0; e_border_width := 0; e_x_root := x; e_y_root := y;
     e_state := 256; e_button := 0; e_time := 0; e_detail := 0; e_mode := 0;
     e_focus := false; e_value_mask := 0; e_selection := 0; e_atom := 0;
     e_request := 0 |}.

Definition map_requested (w : Window) : XEvent := event_of X.MapRequest w.

(** The title of window [w] has a new value. *)
Definition title_changed (w : Window) : XEvent :=
  {| e_type := X.PropertyNotify; e_send_event := false; e_window := w; e_event := 0;
     e_subwindow := 0; e_above := 0; e_x := 0; e_y := 0; e_width := 0;
     e_height := 0; e_border_width := 0; e_x_root := 0; e_y_root := 0;
     e_state := X.PropertyNewValue; e_button := 0; e_time := 0; e_detail := 0;
     e_mode := 0; e_focus := false; e_value_mask := 0; e_selection := 0;
     e_atom := X.XA_WM_NAME; e_request := 0 |}.

Definition is_XAllowEvents (a : Action) : bool :=
  match a with XAllowEvents_ _ _ => true | _ => false end.

Definition is_unmap_request (a : Action) : bool :=
  match a with XUnmapWindow_ _ | Clients_unmap_notify _ => true | _ => false end.

(** The state [motionnotify] reports from: the queue without the motion
    events. *)
Definition without_motion (st : XMainLoop) : XMainLoop :=
  set_display (List.filter (fun e => negb (e_type e =? X.MotionNotify)) (xqueue st))
              (xserver st) st.

(** The complements of the predicates above. *)
Definition not_replay (a : Action) : bool := negb (is_XAllowEvents a).
Definition not_click_response (a : Action) : bool := negb (is_click_response a).
Definition not_configure (a : Action) : bool := negb (is_XConfigureWindow a).
Definition not_map (a : Action) : bool := negb (is_XMapWindow a).
Definition not_ipc_or_panel (a : Action) : bool := negb (is_ipc_or_panel_notice a).
Definition not_foreign_reparent (o : Oracle) (a : Action) : bool :=
  negb (is_foreign_reparent o a).

(** [manage_client] accepts every window as client 1. *)
Definition accepting : Oracle :=
  scenario two_clients false false (fun _ => Some 1%nat) no_callbacks.

Definition not_focus (a : Action) : bool := negb (is_focus_change a).

(** The pointer enters window 102 while window 102 already has the
    keyboard focus. *)
Definition pointer_enters_focused : XEvent :=
  {| e_type := X.EnterNotify; e_send_event := false; e_window := 102; e_event := 0;
     e_subwindow := 0; e_above := 0; e_x := 0; e_y := 0; e_width := 0;
     e_height := 0; e_border_width := 0; e_x_root := 0; e_y_root := 0;
     e_state := 0; e_button := 0; e_time := 0; e_detail := X.NotifyNonlinear;
     e_mode := X.NotifyNormal;
     e_focus := true; e_value_mask := 0; e_selection := 0; e_atom := 0;
     e_request := 0 |}.
(** * Properties *)

(** ** The queue primitives *)

Lemma XCheckMaskEvent_None mask q :
  XCheckMaskEvent mask q = None <-> List.filter (mask_selects mask) q = [].
Proof.
  induction q as [|e q IH]; simpl; [tauto|].
  destruct (mask_selects mask e); [split; discriminate|].
  destruct (XCheckMaskEvent mask q) as [[m r]|]; [|tauto].
  split; [discriminate|]. intros H. apply IH in H. discriminate.
Qed.

Lemma XCheckMaskEvent_Some mask q e q' :
  XCheckMaskEvent mask q = Some (e, q') ->
  List.filter (mask_selects mask) q = e :: List.filter (mask_selects mask) q'
  /\ List.filter (fun x => negb (mask_selects mask x)) q'
     = List.filter (fun x => negb (mask_selects mask x)) q
  /\ length q = S (length q').
Proof.
  revert e q'. induction q as [|x q IH]; simpl; intros e q' H; [discriminate|].
  destruct (mask_selects mask x) eqn:Hx; simpl.
  - injection H as <- <-. auto.
  - destruct (XCheckMaskEvent mask q) as [[m r]|]; [|discriminate].
    injection H as <- <-. destruct (IH m r eq_refl) as (H1 & H2 & H3).
    simpl. rewrite Hx. simpl. rewrite H1, H2, H3. auto.
Qed.

Lemma last_cons_default {A} (e d : A) (l : list A) :
  List.last (e :: l) d = List.last l e.
Proof.
  assert (Hd : forall (l : list A) (x d1 d2 : A),
             List.last (x :: l) d1 = List.last (x :: l) d2).
  { clear. induction l as [|y l IH]; intros x d1 d2; [reflexivity|].
    change (List.last (y :: l) d1 = List.last (y :: l) d2). apply IH. }
  destruct l as [|x l]; [reflexivity|].
  change (List.last (x :: l) d = List.last (x :: l) e). apply Hd.
Qed.

(** The loop leaves in [ev] the last queued event the mask selects ([ev]
    itself when there is none) and in the queue the events it does not
    select, in their order. *)
Lemma while_XCheckMaskEvent_spec mask n ev q :
  (length (List.filter (mask_selects mask) q) <= n)%nat ->
  while_XCheckMaskEvent n mask ev q
  = (List.last (List.filter (mask_selects mask) q) ev,
     List.filter (fun x => negb (mask_selects mask x)) q).
Proof.
  revert ev q. induction n as [|n IH]; intros ev q Hn; simpl.
  - destruct (List.filter (mask_selects mask) q) eqn:Hf; [|simpl in Hn; lia].
    simpl. f_equal. clear Hn. induction q as [|x q IHq]; [reflexivity|].
    simpl in *. destruct (mask_selects mask x); [discriminate|].
    simpl. f_equal. auto.
  - destruct (XCheckMaskEvent mask q) as [[e q']|] eqn:Hc.
    + apply XCheckMaskEvent_Some in Hc as (H1 & H2 & _).
      rewrite H1 in Hn. simpl in Hn. rewrite IH by lia.
      rewrite H1, H2. f_equal. symmetry. apply last_cons_default.
    + apply XCheckMaskEvent_None in Hc. rewrite Hc. simpl. f_equal.
      clear Hn. induction q as [|x q IHq]; [reflexivity|].
      simpl in *. destruct (mask_selects mask x); [discriminate|].
      simpl. f_equal. auto.
Qed.

Lemma filter_length_le {A} (f : A -> bool) (l : list A) :
  (length (List.filter f l) <= length l)%nat.
Proof. induction l as [|x l IH]; simpl; [lia|]. destruct (f x); simpl; lia. Qed.

Lemma drain_masked_spec mask ev st :
  drain_masked mask ev st
  = (List.last (List.filter (mask_selects mask) (xqueue st)) ev,
     set_display (List.filter (fun x => negb (mask_selects mask x)) (xqueue st))
                 (xserver st) st).
Proof.
  unfold drain_masked.
  rewrite while_XCheckMaskEvent_spec by apply filter_length_le. reflexivity.
Qed.

(** Which events the two masks of the drains select. *)
Lemma FocusChangeMask_selects e :
  mask_selects X.FocusChangeMask e = true
  <-> e_type e = X.FocusIn \/ e_type e = X.FocusOut.
Proof.
  unfold mask_selects. split.
  - intros H. apply andb_prop in H as [H _]. apply andb_prop in H as [H Hm].
    apply andb_prop in H as [H0 H1].
    apply Z.leb_le in H0. apply Z.ltb_lt in H1. unfold X.LASTEvent in H1.
    assert (Hc : exists n : nat, (n < 36)%nat /\ e_type e = Z.of_nat n).
    { exists (Z.to_nat (e_type e)). lia. }
    destruct Hc as (n & Hn & He). rewrite He in *. clear He H0 H1.
    do 36 (destruct n as [|n]; [vm_compute in Hm; try discriminate; vm_compute; auto|]).
    lia.
  - intros [H|H]; rewrite H; reflexivity.
Qed.

Lemma EnterWindowMask_selects e :
  mask_selects X.EnterWindowMask e = true <-> e_type e = X.EnterNotify.
Proof.
  unfold mask_selects. split.
  - intros H. apply andb_prop in H as [H _]. apply andb_prop in H as [H Hm].
    apply andb_prop in H as [H0 H1].
    apply Z.leb_le in H0. apply Z.ltb_lt in H1. unfold X.LASTEvent in H1.
    assert (Hc : exists n : nat, (n < 36)%nat /\ e_type e = Z.of_nat n).
    { exists (Z.to_nat (e_type e)). lia. }
    destruct Hc as (n & Hn & He). rewrite He in *. clear He H0 H1.
    do 36 (destruct n as [|n]; [vm_compute in Hm; try discriminate; vm_compute; auto|]).
    lia.
  - intros H; rewrite H; reflexivity.
Qed.

(** ** What every member function preserves *)

Lemma bind_run {A B} (m : M A) (k : A -> M B) st :
  bind m k st = k (fst (m st)) (snd (m st)).
Proof. unfold bind. destruct (m st). reflexivity. Qed.

Lemma exec_bind {A B} (m : M A) (k : A -> M B) st :
  exec (bind m k) st = exec (k (fst (m st))) (exec m st).
Proof. unfold exec. rewrite bind_run. reflexivity. Qed.

Lemma bind_ask {A B} (f : History -> A) (k : A -> M B) st :
  bind (ask f) k st = k (f (trace st)) st.
Proof. reflexivity. Qed.

Lemma bind_ret {A B} (a : A) (k : A -> M B) st : bind (ret a) k st = k a st.
Proof. reflexivity. Qed.

Lemma bind_modify {B} (f : XMainLoop -> XMainLoop) (k : unit -> M B) st :
  bind (modify f) k st = k tt (f st).
Proof. reflexivity. Qed.

(** Reads and returns at the head of a computation are carried out. *)
Ltac mred :=
  repeat (first [rewrite bind_ask | rewrite bind_ret | rewrite bind_modify];
          cbn beta iota).





Lemma evolves_refl P st : evolves P st st.
Proof.
  split; auto. exists []. split; [symmetry; apply app_nil_r | constructor].
Qed.

Lemma evolves_pending P st st' : evolves P st st' -> (pending st' <= pending st)%nat.
Proof. intros [_ _ H _]. apply sublist_length, H. Qed.

Lemma filter_sublist {A} (f : A -> bool) (l : list A) : List.filter f l `sublist_of` l.
Proof.
  induction l as [|x l IH]; simpl; [constructor|].
  destruct (f x); [apply sublist_skip | apply sublist_cons]; exact IH.
Qed.

Lemma evolves_trans P st1 st2 st3 :
  evolves P st1 st2 -> evolves P st2 st3 -> evolves P st1 st3.
Proof.
  intros [T1 Q1 N1 (n1 & E1 & F1)] [T2 Q2 N2 (n2 & E2 & F2)]. split.
  - congruence.
  - auto.
  - etransitivity; eassumption.
  - exists (n1 ++ n2). split.
    + rewrite E2, E1. symmetry. apply app_assoc.
    + apply Forall_app. auto.
Qed.

Lemma evolves_weaken (P Q : Action -> bool) st st' :
  (forall a, P a = true -> Q a = true) -> evolves P st st' -> evolves Q st st'.
Proof.
  intros HPQ [T Qt N (n & E & F)]. split; auto.
  exists n. split; [assumption|]. eapply Forall_impl; eauto.
Qed.

Section Keeps.
Variable P : Action -> bool.
Hypothesis P_callback : forall a, is_callback_request a = true -> P a = true.

Lemma keeps_ret {A} (a : A) : keeps P (ret a).
Proof. intros st. apply evolves_refl. Qed.

Lemma keeps_ask {A} (f : History -> A) : keeps P (ask f).
Proof. intros st. apply evolves_refl. Qed.

Lemma keeps_get {A} (f : XMainLoop -> A) : keeps P (get f).
Proof. intros st. apply evolves_refl. Qed.

Lemma keeps_bind {A B} (m : M A) (k : A -> M B) :
  keeps P m -> (forall a, keeps P (k a)) -> keeps P (bind m k).
Proof.
  intros Hm Hk st. rewrite bind_run.
  eapply evolves_trans; [apply Hm | apply Hk].
Qed.

Lemma keeps_xreq a : P a = true -> keeps P (xreq a).
Proof.
  intros Ha st. split; simpl; auto. exists [a]. split; [reflexivity|].
  constructor; [assumption | constructor].
Qed.

Lemma keeps_guard b : keeps P (modify (set_duringEnterNotify b)).
Proof. intros st. split; simpl; auto. exists []. rewrite app_nil_r. auto. Qed.

Lemma keeps_quit : keeps P quit.
Proof. intros st. split; simpl; auto. exists []. rewrite app_nil_r. auto. Qed.

Lemma keeps_XSync : keeps P XSync.
Proof.
  unfold XSync. apply keeps_bind.
  - apply keeps_xreq. apply P_callback. reflexivity.
  - intros _ st. split; simpl; auto.
    + unfold pending_events. simpl.
      destruct (xserver st) as [|b srv]; simpl; [rewrite !app_nil_r|rewrite <- app_assoc];
        reflexivity.
    + exists []. rewrite app_nil_r. auto.
Qed.

Lemma keeps_drain_masked mask ev : keeps P (drain_masked mask ev).
Proof.
  intros st. rewrite drain_masked_spec. split; simpl; auto.
  - unfold pending_events. simpl.
    apply sublist_app; [apply filter_sublist | reflexivity].
  - exists []. rewrite app_nil_r. auto.
Qed.

Lemma keeps_dropEnterNotifyEvents : keeps P dropEnterNotifyEvents.
Proof.
  unfold dropEnterNotifyEvents. apply keeps_bind; [apply keeps_get|].
  intros [|]; [apply keeps_ret|].
  apply keeps_bind; [apply keeps_XSync|]. intros _.
  apply keeps_bind; [apply keeps_drain_masked|]. intros _. apply keeps_ret.
Qed.

Lemma keeps_draggedClientChanges o c : keeps P (draggedClientChanges o c).
Proof.
  unfold draggedClientChanges. destruct c as [c|].
  - apply keeps_bind; [apply keeps_ask|]. intros ra.
    apply keeps_bind; [apply keeps_xreq, P_callback; reflexivity|]. intros _.
    apply keeps_bind; [apply keeps_ask|]. intros w.
    apply keeps_xreq, P_callback. reflexivity.
  - apply keeps_bind; [apply keeps_xreq, P_callback; reflexivity|]. intros _.
    apply keeps_bind; [apply keeps_XSync|]. intros _.
    apply keeps_bind; [apply keeps_drain_masked|]. intros _. apply keeps_ret.
Qed.

Lemma keeps_run_callbacks o cbs : keeps P (run_callbacks o cbs).
Proof.
  induction cbs as [|cb cbs IH]; simpl; [apply keeps_ret|].
  apply keeps_bind; [|intros _; exact IH].
  destruct cb; simpl.
  - apply keeps_quit.
  - apply keeps_dropEnterNotifyEvents.
  - apply keeps_draggedClientChanges.
Qed.

Lemma keeps_call o a : P a = true -> keeps P (call o a).
Proof.
  intros Ha. unfold call. apply keeps_bind; [apply keeps_ask|]. intros cbs.
  apply keeps_bind; [apply (keeps_xreq a Ha)|]. intros _.
  apply keeps_run_callbacks.
Qed.

End Keeps.


Lemma own_callback a : is_callback_request a = true -> own a = true.
Proof. destruct a; simpl; intros H; try discriminate H; reflexivity. Qed.

Ltac keeps_step :=
  first
    [ apply keeps_ret
    | apply keeps_ask
    | apply keeps_get
    | apply keeps_quit
    | apply keeps_guard
    | apply (keeps_XSync own own_callback)
    | apply keeps_drain_masked
    | apply keeps_xreq; reflexivity
    | apply (keeps_call own own_callback); reflexivity
    | apply keeps_bind; [|intros ?]
    | match goal with
      | |- keeps _ (if ?b then _ else _) => destruct b
      | |- keeps _ (match ?x with _ => _ end) => destruct x
      end ].

Ltac keeps_auto := cbv zeta; repeat keeps_step.

Lemma keeps_collectZombies o : keeps own (collectZombies o).
Proof.
  unfold collectZombies. apply keeps_bind; [apply keeps_ask|]. intros zs.
  induction zs as [|z zs IH]; simpl; [apply keeps_ret|].
  apply keeps_bind; [|intros _; exact IH].
  apply (keeps_call own own_callback). reflexivity.
Qed.

Lemma keeps_member o h ev : keeps own (member o h ev).
Proof.
  destruct h; simpl;
    [ unfold buttonpress | unfold buttonrelease | unfold clientmessage
    | unfold configurenotify | unfold configurerequest, requested_geometry
    | unfold createnotify | unfold destroynotify
    | unfold enternotify, enternotify_begin
    | unfold expose | unfold focusin | unfold keypress | unfold mapnotify
    | unfold maprequest | unfold mappingnotify | unfold motionnotify
    | unfold propertynotify | unfold unmapnotify | unfold selectionclear ];
    keeps_auto.
Qed.

Lemma keeps_callCommand o c : keeps own (callCommand o c).
Proof. unfold callCommand. keeps_auto. Qed.

Lemma keeps_scan_children o wins : keeps own (scan_children o wins).
Proof.
  induction wins as [|w wins IH]; simpl; [apply keeps_ret|].
  apply keeps_bind.
  - unfold scan_child, findTagForWindow. keeps_auto.
  - intros [|]; [exact IH | apply keeps_ret].
Qed.

Lemma keeps_scan_original o wins : keeps own (scan_original o wins).
Proof.
  induction wins as [|w wins IH]; simpl; [apply keeps_ret|].
  apply keeps_bind; [|intros _; exact IH].
  unfold scan_original_client, findTagForWindow. keeps_auto.
Qed.

Lemma keeps_scanExistingClients o : keeps own (scanExistingClients o).
Proof.
  unfold scanExistingClients.
  apply keeps_bind; [apply keeps_ask|]. intros ws.
  apply keeps_bind; [apply keeps_scan_children|]. intros [|]; [|apply keeps_ret].
  apply keeps_bind; [apply keeps_scan_original|]. intros _. keeps_auto.
Qed.

(** ** The loop of [run] *)

Lemma own_no_wait a : own a = true -> no_wait a = true.
Proof. destruct a; simpl; intros H; try discriminate H; reflexivity. Qed.

Lemma no_wait_callback a : is_callback_request a = true -> no_wait a = true.
Proof. destruct a; simpl; intros H; try discriminate H; reflexivity. Qed.

Lemma anything_callback a : is_callback_request a = true -> anything a = true.
Proof. reflexivity. Qed.

Lemma keeps_weaken (P Q : Action -> bool) {A} (m : M A) :
  (forall a, P a = true -> Q a = true) -> keeps P m -> keeps Q m.
Proof. intros HPQ Hm st. eapply evolves_weaken; [exact HPQ | apply Hm]. Qed.

Lemma steps_succ o n c : steps o (S n) c = steps o n (step o c).
Proof. unfold steps. apply Nat.iter_succ_r. Qed.

Lemma set_display_evolves P q srv st :
  q ++ concat srv `sublist_of` pending_events st ->
  evolves P st (set_display q srv st).
Proof.
  intros H. split; simpl; auto. exists []. rewrite app_nil_r. auto.
Qed.

(** What one pass of the inner loop does to the state once an event has
    been taken out of the queue. *)
Lemma dispatch_evolves o (handler : option EventHandler) event st :
  evolves no_wait st
    (exec (call o Watchers_scanForChanges ;; XSync)
       match handler with
       | Some h => exec (xreq (MemberCall h event) ;; member o h event) st
       | None => st
       end).
Proof.
  eapply evolves_trans.
  2:{ apply (keeps_bind no_wait).
      - apply (keeps_call no_wait no_wait_callback). reflexivity.
      - intros _. apply (keeps_XSync no_wait no_wait_callback). }
  destruct handler as [h|]; [|apply evolves_refl].
  apply (keeps_bind no_wait).
  - apply keeps_xreq. reflexivity.
  - intros _ st'. eapply evolves_weaken; [apply own_no_wait | apply keeps_member].
Qed.

Lemma step_inner o st event rest :
  xqueue st = event :: rest ->
  (fst (step o (InnerTest, st)) = InnerTest \/ fst (step o (InnerTest, st)) = OutOfBounds)
  /\ evolves no_wait st (snd (step o (InnerTest, st)))
  /\ (pending (snd (step o (InnerTest, st))) < pending st)%nat.
Proof.
  intros Hq. simpl. rewrite Hq.
  assert (Hpop : evolves no_wait st (set_display rest (xserver st) st)
                 /\ (pending (set_display rest (xserver st) st) < pending st)%nat).
  { split.
    - apply set_display_evolves. unfold pending_events. rewrite Hq.
      apply sublist_cons. reflexivity.
    - unfold pending, pending_events. rewrite Hq. simpl. lia. }
  destruct Hpop as [Hpop Hlt].
  destruct (slot (handlerTable_ st) (e_type event)) as [handler|]; simpl.
  - pose proof (dispatch_evolves o handler event (set_display rest (xserver st) st)) as Hd.
    split; [auto|]. split.
    + eapply evolves_trans; eassumption.
    + apply evolves_pending in Hd. lia.
  - auto.
Qed.

Lemma step_evolves o pc st : evolves anything st (snd (step o (pc, st))).
Proof.
  destruct pc; simpl; try apply evolves_refl.
  - destruct (aboutToQuit_ st); simpl; [apply evolves_refl|].
    apply (keeps_bind anything).
    + eapply keeps_weaken; [|apply keeps_collectZombies]. reflexivity.
    + intros _. apply (keeps_bind anything); [apply keeps_xreq; reflexivity|].
      intros _. eapply keeps_weaken; [|apply keeps_collectZombies]. reflexivity.
  - destruct (aboutToQuit_ st); simpl; [apply evolves_refl|].
    apply (keeps_XSync anything anything_callback).
  - destruct (xqueue st) as [|event rest] eqn:Hq; [apply evolves_refl|].
    pose proof (step_inner o st event rest Hq) as (_ & H & _).
    simpl in H. rewrite Hq in H.
    eapply evolves_weaken; [|exact H]. reflexivity.
Qed.

Lemma steps_evolves o n pc st : evolves anything st (snd (steps o n (pc, st))).
Proof.
  revert pc st. induction n as [|n IH]; intros pc st; [apply evolves_refl|].
  rewrite steps_succ. destruct (step o (pc, st)) as [pc' st'] eqn:Hs.
  eapply evolves_trans; [|apply IH].
  pose proof (step_evolves o pc st) as H. rewrite Hs in H. exact H.
Qed.

Lemma step_inner_empty o st :
  xqueue st = [] -> step o (InnerTest, st) = (OuterTest, st).
Proof. intros H. simpl. rewrite H. reflexivity. Qed.

Lemma step_outer_quit o st :
  aboutToQuit_ st = true -> step o (OuterTest, st) = (Returned, st).
Proof. intros H. simpl. rewrite H. reflexivity. Qed.

Lemma step_check_quit o st :
  aboutToQuit_ st = true -> step o (QuitCheck, st) = (Returned, st).
Proof. intros H. simpl. rewrite H. reflexivity. Qed.

Lemma Forall_sublist {A} (P : A -> Prop) (l1 l2 : list A) :
  l1 `sublist_of` l2 -> Forall P l2 -> Forall P l1.
Proof.
  intros Hs Hall. apply Forall_forall. intros x Hx.
  rewrite Forall_forall in Hall. apply Hall.
  eapply sublist_subseteq; eassumption.
Qed.

Lemma slot_of_core_event type :
  0 <= type < X.LASTEvent -> slot constructed_table type <> None.
Proof.
  intros [H0 H1]. unfold X.LASTEvent in H1. unfold slot.
  destruct (type <? 0) eqn:Hneg; [lia|].
  intros Hnone. apply lookup_ge_None in Hnone.
  change (length constructed_table) with 36%nat in Hnone. lia.
Qed.

(** With the constructed table and pending events of core types only, no
    pass reads outside the table. *)
Lemma steps_in_bounds o n :
  forall pc st,
    handlerTable_ st = constructed_table ->
    Forall core_event (pending_events st) ->
    pc <> OutOfBounds ->
    fst (steps o n (pc, st)) <> OutOfBounds.
Proof.
  induction n as [|n IH]; intros pc st Htable Hcore Hpc; [exact Hpc|].
  rewrite steps_succ.
  pose proof (step_evolves o pc st) as Hev.
  destruct (step o (pc, st)) as [pc1 st1] eqn:Hs. cbn [snd] in Hev.
  apply IH.
  - rewrite (ev_table _ _ _ Hev). exact Htable.
  - eapply Forall_sublist; [apply (ev_events _ _ _ Hev) | exact Hcore].
  - destruct pc; simpl in Hs.
    + destruct (aboutToQuit_ st); injection Hs as <- _; discriminate.
    + destruct (aboutToQuit_ st); injection Hs as <- _; discriminate.
    + destruct (xqueue st) as [|event rest] eqn:Hq; [injection Hs as <- _; discriminate|].
      assert (Hslot : slot (handlerTable_ st) (e_type event) <> None).
      { rewrite Htable. apply slot_of_core_event.
        unfold pending_events in Hcore. rewrite Hq in Hcore.
        apply Forall_inv in Hcore. exact Hcore. }
      destruct (slot (handlerTable_ st) (e_type event)); [|congruence].
      injection Hs as <- _. discriminate.
    + injection Hs as <- _. discriminate.
    + congruence.
Qed.

Lemma new_calls_app st st' new :
  trace st' = trace st ++ new -> new_calls st st' = new.
Proof. intros H. unfold new_calls. rewrite H. apply drop_app_length. Qed.

Lemma member_calls_app h1 h2 :
  member_calls (h1 ++ h2) = member_calls h1 ++ member_calls h2.
Proof. apply List.filter_app. Qed.

Lemma member_calls_own new :
  Forall (fun a => own a = true) new -> member_calls new = [].
Proof.
  induction 1 as [|a new Ha _ IH]; [reflexivity|].
  simpl. destruct a; simpl in *; try discriminate Ha; exact IH.
Qed.

Lemma no_wait_not_elem new :
  Forall (fun a => no_wait a = true) new -> select_ ∉ new.
Proof.
  intros H Hin. rewrite Forall_forall in H. apply H in Hin. discriminate Hin.
Qed.

(** An inner pass over an event whose slot holds [h]: [h] is called with the
    event, and that is the only member call of the pass. *)
Lemma step_inner_registered o st event rest h :
  xqueue st = event :: rest ->
  slot (handlerTable_ st) (e_type event) = Some (Some h) ->
  step o (InnerTest, st)
  = (InnerTest,
     exec (call o Watchers_scanForChanges ;; XSync)
       (exec (member o h event)
          (log (MemberCall h event) (set_display rest (xserver st) st))))
  /\ member_calls (new_calls st (snd (step o (InnerTest, st)))) = [MemberCall h event].
Proof.
  intros Hq Hslot.
  assert (Hstep : step o (InnerTest, st)
    = (InnerTest,
       exec (call o Watchers_scanForChanges ;; XSync)
         (exec (member o h event)
            (log (MemberCall h event) (set_display rest (xserver st) st))))).
  { simpl. rewrite Hq. simpl. rewrite Hslot. reflexivity. }
  split; [exact Hstep|]. rewrite Hstep. cbn [snd].
  set (st1 := log (MemberCall h event) (set_display rest (xserver st) st)).
  assert (H1 : evolves own st1
                 (exec (call o Watchers_scanForChanges ;; XSync) (exec (member o h event) st1))).
  { eapply evolves_trans; [apply keeps_member|].
    apply (keeps_bind own).
    - apply (keeps_call own own_callback). reflexivity.
    - intros _. apply (keeps_XSync own own_callback). }
  destruct H1 as [_ _ _ (new & Hnew & Hown)].
  rewrite (new_calls_app st _ (MemberCall h event :: new)).
  - change (member_calls ([MemberCall h event] ++ new) = [MemberCall h event]).
    rewrite member_calls_app, (member_calls_own new Hown). reflexivity.
  - rewrite Hnew. subst st1. simpl. rewrite <- app_assoc. reflexivity.
Qed.

(** An inner pass over an event whose slot is null: no member is called. *)
Lemma step_inner_unregistered o st event rest :
  xqueue st = event :: rest ->
  slot (handlerTable_ st) (e_type event) = Some None ->
  step o (InnerTest, st)
  = (InnerTest,
     exec (call o Watchers_scanForChanges ;; XSync) (set_display rest (xserver st) st))
  /\ member_calls (new_calls st (snd (step o (InnerTest, st)))) = [].
Proof.
  intros Hq Hslot.
  assert (Hstep : step o (InnerTest, st)
    = (InnerTest,
       exec (call o Watchers_scanForChanges ;; XSync) (set_display rest (xserver st) st))).
  { simpl. rewrite Hq. simpl. rewrite Hslot. reflexivity. }
  split; [exact Hstep|]. rewrite Hstep. cbn [snd].
  set (st1 := set_display rest (xserver st) st).
  assert (H1 : evolves own st1 (exec (call o Watchers_scanForChanges ;; XSync) st1)).
  { apply (keeps_bind own).
    - apply (keeps_call own own_callback). reflexivity.
    - intros _. apply (keeps_XSync own own_callback). }
  destruct H1 as [_ _ _ (new & Hnew & Hown)].
  rewrite (new_calls_app st _ new).
  - apply member_calls_own, Hown.
  - rewrite Hnew. reflexivity.
Qed.

(** ** C1: the quit flag *)

(** With the flag set, however many passes [run] makes it never waits in
    [select], and the flag stays set. *)
Lemma flagged_steps o n :
  forall pc st, aboutToQuit_ st = true ->
  evolves no_wait st (snd (steps o n (pc, st))).
Proof.
  induction n as [|n IH]; intros pc st Hquit; [apply evolves_refl|].
  rewrite steps_succ.
  assert (H1 : evolves no_wait st (snd (step o (pc, st)))).
  { destruct pc.
    - rewrite step_outer_quit by exact Hquit. apply evolves_refl.
    - rewrite step_check_quit by exact Hquit. apply evolves_refl.
    - destruct (xqueue st) as [|event rest] eqn:Hq.
      + rewrite step_inner_empty by exact Hq. apply evolves_refl.
      + apply (step_inner o st event rest Hq).
    - apply evolves_refl.
    - apply evolves_refl. }
  destruct (step o (pc, st)) as [pc1 st1]. cbn [snd] in H1.
  eapply evolves_trans; [exact H1|].
  apply IH, (ev_quit _ _ _ H1), Hquit.
Qed.

(** C1, amended.  [run] tests [aboutToQuit_] at two places only, the loop
    condition and the check after the wait and the second reaping, and
    returns at the first of them that control reaches with the flag set,
    whoever set it.

    First part, for a state [st] in which the flag is set.  At either test
    [run] returns at once and leaves the state as it is, so nothing is
    dispatched after the test.  The inner loop does not test the flag: when
    it finds the queue empty control goes to the loop condition and [run]
    returns; when it finds an event whose slot holds a handler, it still
    passes that event to the handler.  However many passes follow, the flag
    stays set and [run] does not wait in [select] again; and with the
    constructed table and events of core types it does not read outside the
    table.

    Second part, for a pass that begins at the loop condition with the flag
    clear.  When the reaping before the wait leaves the flag set (a receiver
    of [childExited] called [quit]), the wait is not skipped: [select] is
    still called, the second reaping follows, and [run] returns at the check
    after it, having dispatched nothing. *)
Theorem quit_returns_at_next_check o :
  (forall pc st n,
     aboutToQuit_ st = true ->
     (pc = OuterTest \/ pc = QuitCheck -> step o (pc, st) = (Returned, st))
     /\ (pc = InnerTest -> xqueue st = [] -> steps o 2 (pc, st) = (Returned, st))
     /\ (pc = InnerTest -> forall event rest h,
           xqueue st = event :: rest ->
           slot (handlerTable_ st) (e_type event) = Some (Some h) ->
           member_calls (new_calls st (snd (step o (pc, st)))) = [MemberCall h event])
     /\ aboutToQuit_ (snd (steps o n (pc, st))) = true
     /\ (exists new,
           trace (snd (steps o n (pc, st))) = trace st ++ new /\ select_ ∉ new)
     /\ (handlerTable_ st = constructed_table ->
         Forall core_event (pending_events st) ->
         pc <> OutOfBounds ->
         fst (steps o n (pc, st)) <> OutOfBounds))
  /\
  (forall st,
     aboutToQuit_ st = false ->
     let s1 := exec (collectZombies o) st in
     let s2 := exec (collectZombies o) (exec (xreq select_) s1) in
     aboutToQuit_ s1 = true ->
     (exists after,
        trace s2 = trace s1 ++ select_ :: after
        /\ Forall (fun a => own a = true) after)
     /\ steps o 2 (OuterTest, st) = (Returned, s2)
     /\ member_calls (new_calls st s2) = []).
Proof.
  split.
  - intros pc st n Hquit.
    pose proof (flagged_steps o n pc st Hquit) as Hev.
    split; [|split; [|split; [|split; [|split]]]].
    + intros [-> | ->]; [apply step_outer_quit | apply step_check_quit]; exact Hquit.
    + intros -> Hq.
      rewrite !steps_succ, step_inner_empty, step_outer_quit by assumption.
      reflexivity.
    + intros -> event rest h Hq Hslot.
      apply (step_inner_registered o st event rest h Hq Hslot).
    + apply (ev_quit _ _ _ Hev), Hquit.
    + destruct Hev as [_ _ _ (new & Hnew & Hf)].
      exists new. split; [exact Hnew | apply no_wait_not_elem, Hf].
    + apply steps_in_bounds.
  - intros st Hclear s1 s2 Hset.
    destruct (keeps_collectZombies o st) as [_ _ _ (before & Hb & Hfb)].
    fold (exec (collectZombies o) st) in Hb. fold s1 in Hb.
    pose proof (keeps_collectZombies o (exec (xreq select_) s1)) as Hafter.
    fold (exec (collectZombies o) (exec (xreq select_) s1)) in Hafter. fold s2 in Hafter.
    assert (Hset2 : aboutToQuit_ s2 = true) by (apply (ev_quit _ _ _ Hafter), Hset).
    destruct Hafter as [_ _ _ (after & Ha & Hfa)].
    assert (Htr : trace s2 = trace s1 ++ select_ :: after).
    { rewrite Ha. cbn. rewrite <- app_assoc. reflexivity. }
    split; [exists after; split; assumption|]. split.
    + rewrite !steps_succ.
      assert (Hs : step o (OuterTest, st) = (QuitCheck, s2)).
      { cbn [step]. rewrite Hclear. f_equal. rewrite !exec_bind. reflexivity. }
      rewrite Hs, step_check_quit by exact Hset2. reflexivity.
    + rewrite (new_calls_app st s2 (before ++ select_ :: after)).
      * rewrite member_calls_app, (member_calls_own before Hfb).
        change (member_calls (select_ :: after)) with (member_calls after).
        apply member_calls_own, Hfa.
      * rewrite Htr, Hb, <- app_assoc. reflexivity.
Qed.

(** Applied, for the first part, to a loop whose drain has just seen the
    selection taken away, with a key press still queued, and for the second
    to a pass during which a receiver of [childExited] calls [quit]. *)
Lemma quit_returns_at_next_check_witness :
  (let st := snd (run tiled 3 (XMainLoop_new [] [[selection_lost; key_pressed]] [])) in
   aboutToQuit_ st = true
   /\ member_calls (new_calls st (snd (step tiled (InnerTest, st))))
      = [MemberCall keypress_ key_pressed]
   /\ steps tiled 3 (InnerTest, st) = (Returned, snd (steps tiled 3 (InnerTest, st)))
   /\ aboutToQuit_ (snd (steps tiled 3 (InnerTest, st))) = true
   /\ exists new,
        trace (snd (steps tiled 3 (InnerTest, st))) = trace st ++ new /\ select_ ∉ new)
  /\
  (let s1 := exec (collectZombies reaping_quits) idle in
   let s2 := exec (collectZombies reaping_quits) (exec (xreq select_) s1) in
   aboutToQuit_ idle = false
   /\ aboutToQuit_ s1 = true
   /\ trace s2 = [childExited_emit 4711 3; select_; childExited_emit 4711 3]
   /\ (exists after,
         trace s2 = trace s1 ++ select_ :: after
         /\ Forall (fun a => own a = true) after)
   /\ steps reaping_quits 2 (OuterTest, idle) = (Returned, s2)
   /\ member_calls (new_calls idle s2) = []).
Proof.
  split.
  - intros st.
    destruct (quit_returns_at_next_check tiled) as [Hset _].
    destruct (Hset InnerTest st 3%nat eq_refl) as (_ & _ & Hpass & Hq & Htr & _).
    split; [reflexivity|]. split.
    + apply (Hpass eq_refl key_pressed [] keypress_); reflexivity.
    + split; [vm_compute; reflexivity|]. split; [exact Hq | exact Htr].
  - intros s1 s2.
    destruct (quit_returns_at_next_check reaping_quits) as [_ Hwait].
    split; [reflexivity|]. split; [reflexivity|]. split; [reflexivity|].
    apply (Hwait idle); reflexivity.
Defined.

(** C1 as stated fails.  The server delivers a SelectionClear for the
    window manager selection followed by a key press.  After three passes
    [run] is at the inner loop test with the flag set by [selectionclear]
    and the key press still queued; the next pass reads the key press and
    passes it to [keypress].  The same happens when the flag is set from
    outside, by a key binding that calls [quit]: the button release queued
    behind the key press is still passed to [buttonrelease]. *)
Lemma dispatch_after_quit :
  (let st0 := XMainLoop_new [] [[selection_lost; key_pressed]] [] in
   exists st,
     run tiled 3 st0 = (InnerTest, st)
     /\ aboutToQuit_ st = true
     /\ xqueue st = [key_pressed]
     /\ new_calls st (snd (step tiled (InnerTest, st)))
        = [MemberCall keypress_ key_pressed; Keys_handleKeyPress key_pressed;
           Watchers_scanForChanges; XSync_])
  /\
  (let st0 := XMainLoop_new [] [[key_pressed; button_released]] [] in
   exists st,
     run quit_bound 3 st0 = (InnerTest, st)
     /\ aboutToQuit_ st = true
     /\ xqueue st = [button_released]
     /\ new_calls st (snd (step quit_bound (InnerTest, st)))
        = [MemberCall buttonrelease_ button_released; Mouse_stop_drag;
           Watchers_scanForChanges; XSync_]).
Proof.
  split; intros st0; eexists; (split; [vm_compute; reflexivity|]);
    repeat split; reflexivity.
Qed.

(** ** C2: the handler table *)

Lemma constructed_table_registered type h :
  slot constructed_table type = Some (Some h) <-> In (type, h) registrations.
Proof.
  split.
  - unfold slot. destruct (type <? 0) eqn:Hneg; [discriminate|].
    apply Z.ltb_ge in Hneg. intros H.
    assert (Hty : type = Z.of_nat (Z.to_nat type)) by lia.
    rewrite Hty. revert H. generalize (Z.to_nat type). clear. intros n H.
    do 36 (destruct n as [|n];
           [vm_compute in H; try discriminate H; injection H as <-;
            vm_compute; repeat (first [left; reflexivity | right])|]).
    vm_compute in H. discriminate H.
  - intros H. vm_compute in H.
    repeat (destruct H as [H|H]; [injection H as <- <-; reflexivity|]).
    contradiction.
Qed.

Lemma constructed_table_null type :
  slot constructed_table type = Some None
  <-> (0 <= type < X.LASTEvent /\ forall h, ~ In (type, h) registrations).
Proof.
  split.
  - intros H. split.
    + unfold slot in H. destruct (type <? 0) eqn:Hneg; [discriminate|].
      apply Z.ltb_ge in Hneg. apply lookup_lt_Some in H.
      change (length constructed_table) with 36%nat in H. unfold X.LASTEvent. lia.
    + intros h Hin. apply constructed_table_registered in Hin. congruence.
  - intros [[H0 H1] Hno]. unfold X.LASTEvent in H1.
    destruct (slot constructed_table type) as [[h|]|] eqn:Hs; [| reflexivity |].
    + apply constructed_table_registered in Hs. destruct (Hno h Hs).
    + unfold slot in Hs. destruct (type <? 0) eqn:Hneg; [lia|].
      apply lookup_ge_None in Hs.
      change (length constructed_table) with 36%nat in Hs. lia.
Qed.

(** C2.  The table is filled by the constructor with the eighteen
    registrations and nothing else; no member function changes it; and an
    inner pass of [run] over an event whose type is registered calls exactly
    the registered member with that event, while an event whose slot is null
    is dropped: the pass goes on to the watchers and to XSync with no member
    call. *)
Theorem dispatch_by_constructed_table o :
  (forall q srv h, handlerTable_ (XMainLoop_new q srv h) = constructed_table)
  /\ (forall type h,
        slot constructed_table type = Some (Some h) <-> In (type, h) registrations)
  /\ (forall type,
        slot constructed_table type = Some None
        <-> (0 <= type < X.LASTEvent /\ forall h, ~ In (type, h) registrations))
  /\ (forall st,
        handlerTable_ (exec (scanExistingClients o) st) = handlerTable_ st
        /\ (forall n pc, handlerTable_ (snd (steps o n (pc, st))) = handlerTable_ st)
        /\ (forall cb, handlerTable_ (exec (run_callback o cb) st) = handlerTable_ st)
        /\ (forall c, handlerTable_ (exec (callCommand o c) st) = handlerTable_ st))
  /\ (forall st event rest,
        handlerTable_ st = constructed_table ->
        xqueue st = event :: rest ->
        (forall h, In (e_type event, h) registrations ->
           step o (InnerTest, st)
           = (InnerTest,
              exec (call o Watchers_scanForChanges ;; XSync)
                (exec (member o h event)
                   (log (MemberCall h event) (set_display rest (xserver st) st))))
           /\ member_calls (new_calls st (snd (step o (InnerTest, st))))
              = [MemberCall h event])
        /\ ((0 <= e_type event < X.LASTEvent
             /\ forall h, ~ In (e_type event, h) registrations) ->
            step o (InnerTest, st)
            = (InnerTest,
               exec (call o Watchers_scanForChanges ;; XSync)
                 (set_display rest (xserver st) st))
            /\ member_calls (new_calls st (snd (step o (InnerTest, st)))) = [])).
Proof.
  split; [reflexivity|].
  split; [apply constructed_table_registered|].
  split; [apply constructed_table_null|].
  split.
  - intros st. split; [apply keeps_scanExistingClients|].
    split; [intros n pc; apply steps_evolves|].
    split.
    + intros cb.
      pose proof (keeps_run_callbacks own own_callback o [cb] st) as H.
      destruct H as [H _ _ _]. simpl in H. unfold exec.
      rewrite bind_run in H. exact H.
    + intros c. apply keeps_callCommand.
  - intros st event rest Htable Hq. split.
    + intros h Hin. apply step_inner_registered; [exact Hq|].
      rewrite Htable. apply constructed_table_registered, Hin.
    + intros Hnull. apply (step_inner_unregistered o st event rest Hq).
      rewrite Htable. apply constructed_table_null, Hnull.
Qed.

(** Applied to the pass that reads the SelectionClear of the scenario. *)
Lemma dispatch_by_constructed_table_witness :
  let st := snd (run tiled 2 (XMainLoop_new [] [[selection_lost; key_pressed]] [])) in
  handlerTable_ st = constructed_table
  /\ xqueue st = [selection_lost; key_pressed]
  /\ In (e_type selection_lost, selectionclear_) registrations
  /\ member_calls (new_calls st (snd (step tiled (InnerTest, st))))
     = [MemberCall selectionclear_ selection_lost].
Proof.
  intros st.
  pose proof (dispatch_by_constructed_table tiled) as (_ & _ & _ & _ & H).
  assert (Hin : In (e_type selection_lost, selectionclear_) registrations).
  { vm_compute. repeat (first [left; reflexivity | right]). }
  split; [reflexivity|]. split; [reflexivity|]. split; [exact Hin|].
  apply (H st selection_lost [key_pressed] eq_refl eq_refl), Hin.
Defined.

(** ** Calls into other components *)

(** A call extends the history by itself and by the requests of the
    members that are called back. *)
Lemma call_trace o a st :
  exists noise,
    trace (exec (call o a) st) = trace st ++ a :: noise
    /\ Forall (fun x => is_callback_request x = true) noise.
Proof.
  unfold call, exec. rewrite bind_run. cbn [ask fst snd]. rewrite bind_run.
  cbn [modify fst snd].
  destruct (keeps_run_callbacks is_callback_request (fun a H => H) o
              (signals o (trace st) a) (log a st)) as [_ _ _ (noise & Hn & Hf)].
  exists noise. split; [|exact Hf].
  rewrite Hn. simpl. rewrite <- app_assoc. reflexivity.
Qed.

Lemma call_new_calls o a st :
  exists noise,
    new_calls st (exec (call o a) st) = a :: noise
    /\ Forall (fun x => is_callback_request x = true) noise.
Proof.
  destruct (call_trace o a st) as (noise & Hn & Hf).
  exists noise. split; [apply new_calls_app, Hn | exact Hf].
Qed.

Lemma callback_not_geometry a :
  is_callback_request a = true -> is_geometry_change a = false.
Proof. destruct a; simpl; intros H; try discriminate H; reflexivity. Qed.

Lemma callback_not_focus a :
  is_callback_request a = true -> is_focus_change a = false.
Proof. destruct a; simpl; intros H; try discriminate H; reflexivity. Qed.

(** ** C3 and C8: ConfigureRequest *)

(** C3.  A ConfigureRequest for a managed client that is neither floated
    nor pseudotiled, whatever its value mask: all the handler does is call
    [send_configure(true)] on the client, the call that sends the synthetic
    ConfigureNotify.  The history grows by that call and by what is called
    back while it is served; [float_size_] is not assigned, no layout is
    applied, nothing is resized and no XConfigureWindow is issued
    ([last_size_] is never written by this file). *)
Theorem configurerequest_of_tiled_client o cre st c :
  clients_client o (trace st) (e_window cre) = Some c ->
  is_client_floated o (trace st) c = false ->
  pseudotile_ o (trace st) c = false ->
  exec (configurerequest o cre) st = exec (call o (Client_send_configure c true)) st
  /\ (exists noise,
        new_calls st (exec (configurerequest o cre) st)
        = Client_send_configure c true :: noise
        /\ Forall (fun a => is_callback_request a = true) noise)
  /\ Forall (fun a => is_geometry_change a = false)
       (new_calls st (exec (configurerequest o cre) st)).
Proof.
  intros Hc Hfl Hps.
  assert (Heq : exec (configurerequest o cre) st
                = exec (call o (Client_send_configure c true)) st).
  { unfold configurerequest, exec, bind, ask, ret.
    rewrite Hc. cbn beta iota. rewrite Hfl, Hps, andb_false_r.
    cbn [fst snd andb]. reflexivity. }
  split; [exact Heq|]. rewrite Heq.
  destruct (call_new_calls o (Client_send_configure c true) st) as (noise & Hn & Hf).
  split; [exists noise; auto|].
  rewrite Hn. constructor; [reflexivity|].
  eapply Forall_impl; [exact Hf|]. apply callback_not_geometry.
Qed.

(** Applied to a request with all mask bits set for the tiled client 1. *)
Lemma configurerequest_of_tiled_client_witness :
  clients_client tiled (trace idle) (e_window configure_all) = Some 1%nat
  /\ is_client_floated tiled (trace idle) 1%nat = false
  /\ pseudotile_ tiled (trace idle) 1%nat = false
  /\ e_value_mask configure_all = 127
  /\ Forall (fun a => is_geometry_change a = false)
       (new_calls idle (exec (configurerequest tiled configure_all) idle)).
Proof.
  repeat (split; [reflexivity|]).
  apply (configurerequest_of_tiled_client tiled configure_all idle 1%nat);
    reflexivity.
Defined.

(** The guarded block of [configurerequest] only reads: it leaves the state
    as it is, and its verdict is [effective_change]. *)
Lemma requested_geometry_reads o c cre current st :
  snd (requested_geometry o c cre current st) = st
  /\ fst (fst (requested_geometry o c cre current st)) = effective_change cre current.
Proof.
  unfold requested_geometry, effective_change, bind, ask, ret. cbv zeta.
  destruct (negb (0 =? Z.land (e_value_mask cre) X.CWX));
    destruct (negb (0 =? Z.land (e_value_mask cre) X.CWY));
    destruct (negb (0 =? Z.land (e_value_mask cre) X.CWWidth));
    destruct (negb (0 =? Z.land (e_value_mask cre) X.CWHeight));
    destruct (negb (rwidth current =? e_width cre));
    destruct (negb (rheight current =? e_height cre));
    cbn [andb orb negb];
    repeat match goal with
           | |- context [match ?x with Some _ => _ | None => _ end] => destruct x
           end;
    split; reflexivity.
Qed.

(** C8.  A ConfigureRequest for a managed client that honours size hints
    while floating and is floated or pseudotiled counts as a change exactly
    when [effective_change] holds: whenever CWX or CWY is in the value mask,
    whatever the coordinates, and otherwise only for a requested width or
    height that differs from [float_size_].  A change assigns the requested
    rectangle to [float_size_] and then resizes the floated client, or
    applies the layout of the monitor of the tag of a pseudotiled client when
    there is one; without a change the handler only calls
    [send_configure(true)]. *)
Theorem configurerequest_effective_change o cre st c :
  clients_client o (trace st) (e_window cre) = Some c ->
  sizehints_floating_ o (trace st) c = true ->
  is_client_floated o (trace st) c || pseudotile_ o (trace st) c = true ->
  let current := float_size_ o (trace st) c in
  let asked := snd (fst (requested_geometry o c cre current st)) in
  let st1 := exec (call o (Client_set_float_size c asked)) st in
  let t := tag o (trace st1) c in
  (negb (0 =? Z.land (e_value_mask cre) X.CWX)
   || negb (0 =? Z.land (e_value_mask cre) X.CWY) = true ->
   effective_change cre current = true)
  /\ exec (configurerequest o cre) st
     = (if effective_change cre current then
          if is_client_floated o (trace st) c then
            exec (call o (Client_resize_floating c (find_monitor_with_tag o (trace st1) t)
                            (bool_decide (get_current_client o (trace st1) = Some c)))) st1
          else
            match find_monitor_with_tag o (trace st1) t with
            | Some m => exec (call o (Monitor_applyLayout m)) st1
            | None => st1
            end
        else exec (call o (Client_send_configure c true)) st)
  /\ exists rest,
       new_calls st (exec (configurerequest o cre) st)
       = (if effective_change cre current
          then Client_set_float_size c asked
          else Client_send_configure c true) :: rest.
Proof.
  intros Hc Hh Hfp current asked st1 t.
  destruct (requested_geometry_reads o c cre current st) as [Hst Hch].
  assert (Heq : exec (configurerequest o cre) st
     = (if effective_change cre current then
          if is_client_floated o (trace st) c then
            exec (call o (Client_resize_floating c (find_monitor_with_tag o (trace st1) t)
                            (bool_decide (get_current_client o (trace st1) = Some c)))) st1
          else
            match find_monitor_with_tag o (trace st1) t with
            | Some m => exec (call o (Monitor_applyLayout m)) st1
            | None => st1
            end
        else exec (call o (Client_send_configure c true)) st)).
  { unfold configurerequest, exec. unfold bind at 1. unfold ask at 1. rewrite Hc.
    cbn beta iota. unfold bind at 1 2 3 4. unfold ask at 1 2 3 4.
    rewrite Hh, Hfp. cbn [andb]. rewrite bind_run.
    fold current. rewrite Hst. rewrite Hch. fold asked.
    unfold bind at 1 2. unfold ask at 1 2.
    destruct (effective_change cre current); cbn [andb].
    - destruct (is_client_floated o (trace st) c) eqn:Hfl.
      + rewrite bind_run. fold (exec (call o (Client_set_float_size c asked)) st).
        fold st1. unfold bind, ask. reflexivity.
      + simpl in Hfp. rewrite Hfp. rewrite bind_run.
        fold (exec (call o (Client_set_float_size c asked)) st). fold st1.
        unfold bind, ask. fold t.
        destruct (find_monitor_with_tag o (trace st1) t); reflexivity.
    - destruct (is_client_floated o (trace st) c), (pseudotile_ o (trace st) c);
        reflexivity. }
  split.
  - intros Hxy. unfold effective_change. cbv zeta. rewrite Hxy. reflexivity.
  - split; [exact Heq|]. rewrite Heq.
    destruct (effective_change cre current).
    + destruct (call_trace o (Client_set_float_size c asked) st) as (n1 & Hn1 & _).
      fold st1 in Hn1.
      destruct (is_client_floated o (trace st) c).
      * match goal with |- context [exec (call o ?a) st1] =>
          destruct (call_trace o a st1) as (n2 & Hn2 & _); exists (n1 ++ a :: n2) end.
        apply new_calls_app. rewrite Hn2, Hn1, <- app_assoc. reflexivity.
      * destruct (find_monitor_with_tag o (trace st1) t) as [m|].
        -- destruct (call_trace o (Monitor_applyLayout m) st1) as (n2 & Hn2 & _).
           exists (n1 ++ Monitor_applyLayout m :: n2).
           apply new_calls_app. rewrite Hn2, Hn1, <- app_assoc. reflexivity.
        -- exists n1. apply new_calls_app. exact Hn1.
    + destruct (call_new_calls o (Client_send_configure c true) st) as (n & Hn & _).
      exists n. exact Hn.
Qed.

(** Applied to requests for the floated client 1: one that asks for the
    position the client has is a change, one that asks for the size it has
    is not. *)
Lemma configurerequest_effective_change_witness :
  (effective_change configure_same_position (float_size_ floating (trace idle) 1%nat) = true
   /\ exists rest,
        new_calls idle (exec (configurerequest floating configure_same_position) idle)
        = Client_set_float_size 1%nat {| rx := 30; ry := 40; rwidth := 640; rheight := 480 |}
          :: rest)
  /\ (effective_change configure_same_size (float_size_ floating (trace idle) 1%nat) = false
      /\ exists rest,
           new_calls idle (exec (configurerequest floating configure_same_size) idle)
           = Client_send_configure 1%nat true :: rest).
Proof.
  split.
  - split; [reflexivity|].
    apply (configurerequest_effective_change floating configure_same_position idle 1%nat);
      reflexivity.
  - split; [reflexivity|].
    apply (configurerequest_effective_change floating configure_same_size idle 1%nat);
      reflexivity.
Defined.

(** ** C4: EnterNotify in a max layout *)

(** C4.  An EnterNotify with mode Normal and a detail other than Inferior,
    while nothing is dragged, focus_follows_mouse is on and the event's focus
    member is false: when the client the window resolves to (directly, or as
    the client of the decoration) is on a tag that is not floating, in a
    frame whose layout is max and whose focused client is another one, the
    handler only sets and clears its guard around the refresh of the cursors
    of the decoration; the history gains no call that moves the focus. *)
Theorem enternotify_hidden_in_max_layout o ce st c leaf :
  let st1 := exec (enternotify_begin o ce) st in
  let h := trace st1 in
  e_mode ce = X.NotifyNormal ->
  e_detail ce <> X.NotifyInferior ->
  mouse_is_dragging o h = false ->
  focus_follows_mouse o h = true ->
  e_focus ce = false ->
  (clients_client o h (e_window ce) = Some c
   \/ clients_client o h (e_window ce) = None
      /\ Decoration_toClient o (trace st) (e_window ce) = Some c) ->
  tag_floating o h (tag o h c) = false ->
  frameWithClient o h (tag o h c) c = Some leaf ->
  getLayout o h leaf = LayoutAlgorithm.max ->
  focusedClient o h leaf <> Some c ->
  exec (enternotify o ce) st = set_duringEnterNotify false st1
  /\ Forall (fun a => is_focus_change a = false)
       (new_calls st (exec (enternotify o ce) st)).
Proof.
  intros st1 h Hmode Hdetail Hdrag Hffm Hfocus Hc Hfloat Hleaf Hlayout Hfocused.
  assert (Hdec : fst (enternotify_begin o ce st) = Decoration_toClient o (trace st) (e_window ce)).
  { unfold enternotify_begin. rewrite !bind_run. reflexivity. }
  assert (Heq : exec (enternotify o ce) st = set_duringEnterNotify false st1).
  { unfold enternotify, exec.
    rewrite Hmode, Z.eqb_refl. apply Z.eqb_neq in Hdetail. rewrite Hdetail.
    cbn [negb orb]. rewrite bind_run. fold (exec (enternotify_begin o ce) st).
    fold st1. rewrite Hdec. mred. fold h.
    rewrite Hdrag, Hffm, Hfocus. cbn [negb andb].
    rewrite bind_run. mred. fold h.
    assert (Hres : match clients_client o h (e_window ce) with
                   | Some c0 => Some c0
                   | None => Decoration_toClient o (trace st) (e_window ce)
                   end = Some c).
    { destruct Hc as [-> | [-> ->]]; reflexivity. }
    rewrite Hres. mred. fold h. rewrite Hfloat. cbn [negb].
    rewrite bind_run. mred. fold h. rewrite Hleaf. mred. fold h.
    rewrite Hlayout. rewrite bool_decide_eq_false_2 by exact Hfocused.
    reflexivity. }
  split; [exact Heq|]. rewrite Heq.
  assert (Hnew : exists new, trace st1 = trace st ++ new
                   /\ Forall (fun a => is_focus_change a = false) new).
  { subst st1. unfold enternotify_begin, exec. rewrite !bind_run.
    cbn [modify ask ret fst snd]. change (trace (set_duringEnterNotify true st)) with (trace st).
    destruct (Decoration_toClient o (trace st) (e_window ce)) as [d|].
    - destruct (call_trace o (Dec_updateResizeAreaCursors d) (set_duringEnterNotify true st))
        as (noise & Hn & Hf).
      exists (Dec_updateResizeAreaCursors d :: noise). split; [exact Hn|].
      constructor; [reflexivity|].
      eapply Forall_impl; [exact Hf | apply callback_not_focus].
    - exists []. split; [symmetry; apply app_nil_r | constructor]. }
  destruct Hnew as (new & Hn & Hf).
  rewrite (new_calls_app st _ new); [exact Hf | exact Hn].
Qed.

(** Applied to the pointer entering the window of client 2 while client 0
    is the focused client of the max frame. *)
Lemma enternotify_hidden_in_max_layout_witness :
  clients_client tiled (trace (exec (enternotify_begin tiled pointer_enters) idle))
    (e_window pointer_enters) = Some 2%nat
  /\ focusedClient tiled (trace (exec (enternotify_begin tiled pointer_enters) idle)) 0%nat
     = Some 0%nat
  /\ Forall (fun a => is_focus_change a = false)
       (new_calls idle (exec (enternotify tiled pointer_enters) idle)).
Proof.
  split; [reflexivity|]. split; [reflexivity|].
  apply (enternotify_hidden_in_max_layout tiled pointer_enters idle 2%nat 0%nat);
    try reflexivity.
  - vm_compute. discriminate.
  - left. reflexivity.
  - vm_compute. discriminate.
Defined.

(** ** C5 and C9: FocusIn *)


(** C9.  The drain of [focusin] takes FocusOut events as well as FocusIn
    events, and when the last event of the burst is a FocusOut nothing is
    done after the drain: no call is made at all. *)
Theorem focusin_burst_ending_in_FocusOut o event st :
  e_type (newest_focus_event event st) = X.FocusOut ->
  (forall e, mask_selects X.FocusChangeMask e = true
             <-> e_type e = X.FocusIn \/ e_type e = X.FocusOut)
  /\ exec (focusin o event) st = without X.FocusChangeMask st
  /\ new_calls st (exec (focusin o event) st) = [].
Proof.
  intros Hout. split; [apply FocusChangeMask_selects|].
  assert (Heq : exec (focusin o event) st = without X.FocusChangeMask st).
  { unfold focusin, exec. rewrite bind_run, drain_masked_spec. cbn [fst snd].
    fold (focus_burst st). fold (newest_focus_event event st). rewrite Hout.
    reflexivity. }
  split; [exact Heq|]. rewrite Heq.
  apply new_calls_app. symmetry. apply app_nil_r.
Qed.

(** Applied to a FocusIn that steals the focus, with the FocusOut of the
    same window queued behind it. *)
Lemma focusin_burst_ending_in_FocusOut_witness :
  let st := XMainLoop_new [key_pressed; focus_lost] [] [] in
  newest_focus_event focus_taken st = focus_lost
  /\ xqueue (exec (focusin tiled focus_taken) st) = [key_pressed]
  /\ new_calls st (exec (focusin tiled focus_taken) st) = [].
Proof.
  intros st.
  destruct (focusin_burst_ending_in_FocusOut tiled focus_taken st eq_refl)
    as (_ & Heq & Hnew).
  split; [reflexivity|]. split; [rewrite Heq; reflexivity | exact Hnew].
Defined.

(** ** C6: synthetic UnmapNotify *)

(** C6.  An UnmapNotify with [send_event] set whose window is the reporting
    window: the client manager is told of the unmap, then XUnmapWindow is
    issued for the window, then XSync, and last every queued event the
    EnterWindow mask selects (the EnterNotify events) is taken out of the
    queue. *)
Theorem unmapnotify_synthetic o event st :
  e_send_event event = true ->
  e_window event = e_event event ->
  let st1 := exec (call o (Clients_unmap_notify (e_window event))) st in
  let st2 := exec XSync (exec (xreq (XUnmapWindow_ (e_window event))) st1) in
  exec (unmapnotify o event) st = without X.EnterWindowMask st2
  /\ (exists noise,
        new_calls st (exec (unmapnotify o event) st)
        = Clients_unmap_notify (e_window event) :: noise
          ++ [XUnmapWindow_ (e_window event); XSync_]
        /\ Forall (fun a => is_callback_request a = true) noise)
  /\ xqueue (exec (unmapnotify o event) st)
     = List.filter (fun e => negb (mask_selects X.EnterWindowMask e))
         (xqueue st1 ++ hd [] (xserver st1))
  /\ (forall e, mask_selects X.EnterWindowMask e = true <-> e_type e = X.EnterNotify).
Proof.
  intros Hsend Hwin st1 st2.
  assert (Heq : exec (unmapnotify o event) st = without X.EnterWindowMask st2).
  { unfold unmapnotify, exec. rewrite Hsend, <- Hwin, Z.eqb_refl.
    rewrite bind_run. fold (exec (call o (Clients_unmap_notify (e_window event))) st).
    fold st1. rewrite bind_run.
    fold (exec (xreq (XUnmapWindow_ (e_window event))) st1).
    rewrite bind_run.
    fold (exec XSync (exec (xreq (XUnmapWindow_ (e_window event))) st1)). fold st2.
    rewrite bind_run, drain_masked_spec. reflexivity. }
  split; [exact Heq|]. rewrite Heq.
  split; [|split; [reflexivity | apply EnterWindowMask_selects]].
  destruct (call_trace o (Clients_unmap_notify (e_window event)) st) as (noise & Hn & Hf).
  fold st1 in Hn. exists noise. split; [|exact Hf].
  apply new_calls_app. cbn. rewrite Hn, <- !app_assoc. reflexivity.
Qed.

(** Applied to the withdrawal of window 101 while two EnterNotify events
    and a key press are on their way. *)
Lemma unmapnotify_synthetic_witness :
  let st := XMainLoop_new [pointer_enters] [[key_pressed; pointer_enters]] [] in
  e_send_event withdrawn = true
  /\ e_window withdrawn = e_event withdrawn
  /\ new_calls st (exec (unmapnotify tiled withdrawn) st)
     = [Clients_unmap_notify 101; XUnmapWindow_ 101; XSync_]
  /\ xqueue (exec (unmapnotify tiled withdrawn) st) = [key_pressed].
Proof.
  intros st.
  destruct (unmapnotify_synthetic tiled withdrawn st eq_refl eq_refl)
    as (Heq & _ & Hq & _).
  split; [reflexivity|]. split; [reflexivity|].
  split; [rewrite Heq; reflexivity | rewrite Hq; reflexivity].
Defined.

(** A burst that ends in a FocusIn of a window that took the focus itself:
    the one call of [focus_client] is for the client of that window. *)
Example newest_FocusIn_is_reasserted :
  let st := XMainLoop_new [focus_lost; key_pressed; focus_taken] [] [] in
  new_calls st (exec (focusin tiled focus_lost) st)
  = [focus_client_ (Some 2%nat) false true false]
  /\ xqueue (exec (focusin tiled focus_lost) st) = [key_pressed].
Proof. split; reflexivity. Qed.

(** ** C7: callCommand *)

(** C7.  For a call [c :: rest] the interpreter is invoked with command
    name [c] and arguments [rest], for the empty call with the empty name and
    no arguments; the output channels carry the same command name.  The
    result holds the exit code of the interpreter and what it wrote to the
    two streams. *)
Theorem callCommand_passes_call o st :
  (forall c rest,
     let input := {| command := c; args := rest |} in
     let r := Commands_call_result o (trace st) input c in
     fst (callCommand o (c :: rest) st)
     = {| exitCode := fst (fst r); output := snd (fst r); error := snd r |}
     /\ exists noise,
          new_calls st (exec (callCommand o (c :: rest)) st)
          = Commands_call input c :: noise
          /\ Forall (fun a => is_callback_request a = true) noise)
  /\ (let input := {| command := EmptyString; args := [] |} in
      let r := Commands_call_result o (trace st) input EmptyString in
      fst (callCommand o [] st)
      = {| exitCode := fst (fst r); output := snd (fst r); error := snd r |}
      /\ exists noise,
           new_calls st (exec (callCommand o []) st)
           = Commands_call input EmptyString :: noise
           /\ Forall (fun a => is_callback_request a = true) noise).
Proof.
  split; [intros c rest input r | intros input r];
    (split;
     [ unfold callCommand; cbv zeta; rewrite bind_ask, bind_run; reflexivity
     | unfold callCommand, exec; cbv zeta; rewrite bind_ask, bind_run;
       apply call_new_calls ]).
Qed.

(** ** C10: the first loop of scanExistingClients *)

Lemma findTagForWindow_run o win st :
  findTagForWindow o win st = (override_for o (trace st) win, st).
Proof.
  unfold findTagForWindow, override_for. rewrite bind_ask.
  destruct (importTagsFromEwmh o (trace st)); reflexivity.
Qed.

(** The body of the first loop dereferences a null pointer exactly for a
    window it hands to [manage_client] when [manage_client] returns null. *)
Lemma scan_child_null o win st :
  fst (scan_child o win st) = NullDereference
  <-> classified_as_client o (trace st) win = true
      /\ manage_client_result o (trace st) win true false (override_for o (trace st) win)
         = None.
Proof.
  unfold scan_child, classified_as_client. rewrite bind_ask.
  destruct (XGetWindowAttributes o (trace st) win) as [wa|];
    [|split; [discriminate | intros [H _]; discriminate H]].
  destruct (override_redirect wa); cbn [negb andb];
    [split; [discriminate | intros [H _]; discriminate H]|].
  rewrite bind_ask.
  destruct (isOwnWindow o (trace st) win); cbn [negb andb];
    [split; [discriminate | intros [H _]; discriminate H]|].
  rewrite bind_ask.
  destruct (getWindowType o (trace st) win); cbn [andb].
  - rewrite !bind_run. split; [discriminate | intros [H _]; discriminate H].
  - rewrite !bind_run. split; [discriminate | intros [H _]; discriminate H].
  - destruct ((map_state wa =? X.IsViewable) || isInOriginalClients o win);
      [|split; [discriminate | intros [H _]; discriminate H]].
    rewrite bind_run, findTagForWindow_run. cbn [fst snd]. rewrite bind_ask.
    rewrite bind_run.
    destruct (manage_client_result o (trace st) win true false
                (override_for o (trace st) win)) as [c|].
    + rewrite !bind_run. split; [discriminate | intros [_ H]; discriminate H].
    + split; [auto | reflexivity].
Qed.

Lemma scan_children_app o pre post st :
  scan_children o (pre ++ post) st
  = match fst (scan_children o pre st) with
    | Normal => scan_children o post (exec (scan_children o pre) st)
    | NullDereference => scan_children o pre st
    end.
Proof.
  revert st. induction pre as [|w pre IH]; intros st; [reflexivity|].
  cbn [app scan_children]. unfold exec. rewrite !bind_run.
  destruct (fst (scan_child o w st)); [apply IH | reflexivity].
Qed.

Lemma scan_children_null o wins :
  forall st,
    fst (scan_children o wins st) = NullDereference
    <-> exists pre win post,
          wins = pre ++ win :: post
          /\ fst (scan_children o pre st) = Normal
          /\ fst (scan_child o win (exec (scan_children o pre) st)) = NullDereference.
Proof.
  induction wins as [|w wins IH]; intros st.
  - split; [discriminate|]. intros (pre & win & post & H & _). destruct pre; discriminate H.
  - cbn [scan_children]. rewrite bind_run.
    destruct (fst (scan_child o w st)) eqn:Hw.
    + rewrite IH. split.
      * intros (pre & win & post & -> & Hpre & Hnull).
        exists (w :: pre), win, post. split; [reflexivity|].
        cbn [scan_children]. unfold exec. rewrite !bind_run, Hw. auto.
      * intros (pre & win & post & Heq & Hpre & Hnull).
        destruct pre as [|w' pre].
        -- injection Heq as -> ->.
           change (fst (scan_child o win st) = NullDereference) in Hnull. congruence.
        -- injection Heq as <- ->. exists pre, win, post. split; [reflexivity|].
           cbn [scan_children] in Hpre, Hnull. unfold exec in Hnull.
           rewrite !bind_run, Hw in Hpre, Hnull. auto.
    + split; [intros _ | reflexivity].
      exists [], w, wins. auto.
Qed.

(** C10.  In the first loop of [scanExistingClients] the pointer returned
    by [manage_client] is dereferenced unchecked: the scan dereferences a
    null pointer if and only if, for some child of the root window that the
    loop reaches and hands to [manage_client], [manage_client] returns null.
    So the scan is free of a null dereference exactly when [manage_client]
    returns a client for every such window. *)
Theorem scanExistingClients_null_dereference o st :
  let children := X_queryTree o (trace st) (X_root o) in
  (fst (scanExistingClients o st) = NullDereference
   <-> exists pre win post,
         children = pre ++ win :: post
         /\ fst (scan_children o pre st) = Normal
         /\ let h := trace (exec (scan_children o pre) st) in
            classified_as_client o h win = true
            /\ manage_client_result o h win true false (override_for o h win) = None)
  /\ (fst (scanExistingClients o st) = Normal
      <-> forall pre win post,
            children = pre ++ win :: post ->
            fst (scan_children o pre st) = Normal ->
            let h := trace (exec (scan_children o pre) st) in
            classified_as_client o h win = true ->
            is_Some (manage_client_result o h win true false (override_for o h win))).
Proof.
  intros children.
  assert (Hfst : fst (scanExistingClients o st) = fst (scan_children o children st)).
  { unfold scanExistingClients. rewrite bind_ask, bind_run. fold children.
    destruct (fst (scan_children o children st)); [|reflexivity].
    rewrite !bind_run. reflexivity. }
  assert (Hnull : fst (scanExistingClients o st) = NullDereference
   <-> exists pre win post,
         children = pre ++ win :: post
         /\ fst (scan_children o pre st) = Normal
         /\ let h := trace (exec (scan_children o pre) st) in
            classified_as_client o h win = true
            /\ manage_client_result o h win true false (override_for o h win) = None).
  { rewrite Hfst, scan_children_null. split.
    - intros (pre & win & post & Heq & Hpre & Hn).
      exists pre, win, post. split; [exact Heq|]. split; [exact Hpre|].
      apply scan_child_null, Hn.
    - intros (pre & win & post & Heq & Hpre & Hn).
      exists pre, win, post. split; [exact Heq|]. split; [exact Hpre|].
      apply scan_child_null, Hn. }
  split; [exact Hnull|]. split.
  - intros Hnormal pre win post Heq Hpre h Hcl.
    destruct (manage_client_result o h win true false (override_for o h win)) eqn:Hm;
      [eauto|].
    assert (Hbad : fst (scanExistingClients o st) = NullDereference).
    { apply Hnull. exists pre, win, post. auto. }
    congruence.
  - intros Hall. destruct (fst (scanExistingClients o st)) eqn:Hs; [reflexivity|].
    destruct (proj1 Hnull eq_refl) as (pre & win & post & Heq & Hpre & Hcl & Hm).
    destruct (Hall pre win post Heq Hpre Hcl) as [c Hc]. congruence.
Qed.

(** Applied to a root window with the children 10 and 11, both viewable,
    when [manage_client] returns null for 11: the scan dereferences it. *)
Lemma scanExistingClients_null_dereference_witness :
  X_queryTree refusing (trace idle) (X_root refusing) = [10; 11]
  /\ classified_as_client refusing (trace (exec (scan_children refusing [10]) idle)) 11 = true
  /\ fst (scanExistingClients refusing idle) = NullDereference.
Proof.
  split; [reflexivity|]. split; [reflexivity|].
  apply (scanExistingClients_null_dereference refusing idle).
  exists [10], 11, []. repeat split; reflexivity.
Defined.

(** * The rest of the file *)

(** ** The loop of [run], whether or not the flag is set *)

Lemma dispatched_app h1 h2 : dispatched (h1 ++ h2) = dispatched h1 ++ dispatched h2.
Proof. apply flat_map_app. Qed.

Lemma dispatched_none new :
  Forall (fun a => is_member_call a = false) new -> dispatched new = [].
Proof.
  induction 1 as [|a new Ha _ IH]; [reflexivity|].
  simpl. destruct a; simpl in *; try exact IH. discriminate Ha.
Qed.

Lemma dispatched_own new :
  Forall (fun a => own a = true) new -> dispatched new = [].
Proof.
  intros H. apply dispatched_none. eapply Forall_impl; [exact H|].
  intros a Ha. destruct a; simpl in *; try reflexivity; discriminate Ha.
Qed.

(** One pass: the events it hands to handlers, followed by the events it
    leaves pending, are among the events that were pending, in their
    order. *)
Lemma step_dispatch o pc st :
  exists new,
    trace (snd (step o (pc, st))) = trace st ++ new
    /\ dispatched new ++ pending_events (snd (step o (pc, st)))
       `sublist_of` pending_events st.
Proof.
  assert (Hquiet : forall st1, evolves own st st1 ->
            exists new, trace st1 = trace st ++ new
              /\ dispatched new ++ pending_events st1 `sublist_of` pending_events st).
  { intros st1 [_ _ Hev (new & Hn & Hf)]. exists new. split; [exact Hn|].
    rewrite (dispatched_own new Hf). exact Hev. }
  destruct pc; cbn [step].
  - destruct (aboutToQuit_ st); cbn [snd]; [apply Hquiet, evolves_refl|].
    assert (H : evolves (fun a => negb (is_member_call a)) st
                  (exec (collectZombies o ;; xreq select_ ;; collectZombies o) st)).
    { apply (keeps_bind (fun a => negb (is_member_call a))).
      - eapply keeps_weaken; [|apply keeps_collectZombies].
        intros a Ha. destruct a; simpl in *; try reflexivity; discriminate Ha.
      - intros _. apply (keeps_bind (fun a => negb (is_member_call a)));
          [apply keeps_xreq; reflexivity|].
        intros _. eapply keeps_weaken; [|apply keeps_collectZombies].
        intros a Ha. destruct a; simpl in *; try reflexivity; discriminate Ha. }
    destruct H as [_ _ Hev (new & Hn & Hf)]. exists new. split; [exact Hn|].
    rewrite dispatched_none; [exact Hev|].
    eapply Forall_impl; [exact Hf|]. intros a Ha. cbv beta in Ha.
    destruct (is_member_call a); [discriminate Ha | reflexivity].
  - destruct (aboutToQuit_ st); cbn [snd]; [apply Hquiet, evolves_refl|].
    apply Hquiet, (keeps_XSync own own_callback).
  - destruct (xqueue st) as [|event rest] eqn:Hq; [apply Hquiet, evolves_refl|].
    set (popped := set_display rest (xserver st) st).
    assert (Hpop : pending_events st = event :: pending_events popped).
    { unfold pending_events. rewrite Hq. reflexivity. }
    assert (Hafter : forall st1, evolves own st1
              (exec (call o Watchers_scanForChanges ;; XSync) st1)).
    { apply (keeps_bind own).
      - apply (keeps_call own own_callback). reflexivity.
      - intros _. apply (keeps_XSync own own_callback). }
    destruct (slot (handlerTable_ popped) (e_type event)) as [[h|]|] eqn:Hslot;
      cbn [snd].
    + assert (H1 : evolves own (log (MemberCall h event) popped)
                (exec (call o Watchers_scanForChanges ;; XSync)
                   (exec (xreq (MemberCall h event) ;; member o h event) popped))).
      { eapply evolves_trans; [|apply Hafter].
        unfold exec. rewrite bind_run. apply keeps_member. }
      destruct H1 as [_ _ Hev (new & Hn & Hf)].
      exists (MemberCall h event :: new). split.
      * rewrite Hn. simpl. rewrite <- app_assoc. reflexivity.
      * simpl. rewrite (dispatched_own new Hf), Hpop. simpl.
        apply sublist_skip. exact Hev.
    + destruct (Hafter popped) as [_ _ Hev (new & Hn & Hf)].
      exists new. split; [exact Hn|].
      rewrite (dispatched_own new Hf), Hpop. simpl. apply sublist_cons. exact Hev.
    + exists []. split; [symmetry; apply app_nil_r|].
      rewrite Hpop. simpl. apply sublist_cons. reflexivity.
  - apply Hquiet, evolves_refl.
  - apply Hquiet, evolves_refl.
Qed.

Lemma steps_dispatch o n :
  forall pc st,
  exists new,
    trace (snd (steps o n (pc, st))) = trace st ++ new
    /\ dispatched new ++ pending_events (snd (steps o n (pc, st)))
       `sublist_of` pending_events st.
Proof.
  induction n as [|n IH]; intros pc st.
  - exists []. split; [symmetry; apply app_nil_r | reflexivity].
  - rewrite steps_succ.
    destruct (step_dispatch o pc st) as (new1 & Hn1 & Hs1).
    destruct (step o (pc, st)) as [pc1 st1]. cbn [snd] in *.
    destruct (IH pc1 st1) as (new2 & Hn2 & Hs2).
    exists (new1 ++ new2). split.
    + rewrite Hn2, Hn1, app_assoc. reflexivity.
    + rewrite dispatched_app, <- app_assoc.
      etransitivity; [|exact Hs1]. apply sublist_app; [reflexivity | exact Hs2].
Qed.

(** X1.  However long [run] is followed, the events it has passed to
    handlers, in the order of the calls, followed by the events still
    pending, form a sublist of the events that were pending at the start:
    events are dispatched in the order of the queue, none twice, and none
    that was not delivered. *)
Theorem dispatch_follows_queue_order o n pc st :
  dispatched (new_calls st (snd (steps o n (pc, st))))
  ++ pending_events (snd (steps o n (pc, st)))
  `sublist_of` pending_events st.
Proof.
  destruct (steps_dispatch o n pc st) as (new & Hn & Hs).
  rewrite (new_calls_app st _ new Hn). exact Hs.
Qed.

(** X2.  [run] returns only with the quit flag set: from no place inside
    the loop does any number of passes end in [Returned] with
    [aboutToQuit_] false. *)
Theorem run_returns_only_on_quit o n pc st st' :
  pc <> Returned ->
  steps o n (pc, st) = (Returned, st') ->
  aboutToQuit_ st' = true.
Proof.
  intros Hpc.
  assert (Hinv : forall n pc st,
            (pc = Returned -> aboutToQuit_ st = true) ->
            fst (steps o n (pc, st)) = Returned ->
            aboutToQuit_ (snd (steps o n (pc, st))) = true).
  { clear. induction n as [|n IH]; intros pc st Hinv Hret; [apply Hinv, Hret|].
    rewrite steps_succ in *.
    destruct (step o (pc, st)) as [pc1 st1] eqn:Hs.
    apply IH; [|exact Hret]. intros ->.
    destruct pc; simpl in Hs.
    - destruct (aboutToQuit_ st) eqn:Hq; [congruence | discriminate Hs].
    - destruct (aboutToQuit_ st) eqn:Hq; [congruence | discriminate Hs].
    - destruct (xqueue st) as [|event rest]; [discriminate|].
      destruct (slot (handlerTable_ st) (e_type event)); discriminate.
    - injection Hs as <-. apply Hinv. reflexivity.
    - discriminate. }
  intros Hsteps. specialize (Hinv n pc st). rewrite Hsteps in Hinv.
  apply Hinv; [congruence | reflexivity].
Qed.

(** The run of the scenario of the lost selection has returned after six
    passes, and the flag is set. *)
Lemma run_returns_only_on_quit_witness :
  exists st',
    run tiled 6 (XMainLoop_new [] [[selection_lost; key_pressed]] []) = (Returned, st')
    /\ aboutToQuit_ st' = true.
Proof.
  eexists. split; [vm_compute; reflexivity|].
  apply (run_returns_only_on_quit tiled 6 OuterTest
           (XMainLoop_new [] [[selection_lost; key_pressed]] []));
    [discriminate | vm_compute; reflexivity].
Defined.

(** X4.  What every handler leaves as it found it: the handler table is not
    written, a set quit flag is not cleared, no event is added to the pending
    ones nor are they reordered, and the history only grows, by calls other
    than a member call through the table or a wait in [select]. *)
Theorem member_keeps_loop_state o h ev st :
  handlerTable_ (exec (member o h ev) st) = handlerTable_ st
  /\ (aboutToQuit_ st = true -> aboutToQuit_ (exec (member o h ev) st) = true)
  /\ pending_events (exec (member o h ev) st) `sublist_of` pending_events st
  /\ exists new,
       trace (exec (member o h ev) st) = trace st ++ new
       /\ Forall (fun a => own a = true) new.
Proof.
  destruct (keeps_member o h ev st) as [H1 H2 H3 H4]. auto.
Qed.

(** ** The guard of [enternotify] and the enter events *)

Section Respects.
Context (R : XMainLoop -> XMainLoop -> Prop) `{!PreOrder R}.

Lemma respects_ret {A} (a : A) : respects R (ret a).
Proof. intros st. reflexivity. Qed.

Lemma respects_ask {A} (f : History -> A) : respects R (ask f).
Proof. intros st. reflexivity. Qed.

Lemma respects_get {A} (f : XMainLoop -> A) : respects R (get f).
Proof. intros st. reflexivity. Qed.

Lemma respects_bind {A B} (m : M A) (k : A -> M B) :
  respects R m -> (forall a, respects R (k a)) -> respects R (bind m k).
Proof.
  intros Hm Hk st. rewrite bind_run. etransitivity; [apply Hm | apply Hk].
Qed.

End Respects.

#[local] Instance same_guard_preorder : PreOrder same_guard.
Proof.
  split; [intros st; reflexivity|].
  intros s1 s2 s3 H1 H2. unfold same_guard in *. congruence.
Qed.

#[local] Instance same_events_preorder : PreOrder same_events.
Proof.
  split; [intros st; split; reflexivity|].
  intros s1 s2 s3 [H1 H1'] [H2 H2']. unfold same_events. split; congruence.
Qed.

Lemma guard_xreq a : respects same_guard (xreq a).
Proof. intros st. reflexivity. Qed.

Lemma guard_quit : respects same_guard quit.
Proof. intros st. reflexivity. Qed.

Lemma guard_XSync : respects same_guard XSync.
Proof. intros st. reflexivity. Qed.

Lemma guard_drain_masked mask ev : respects same_guard (drain_masked mask ev).
Proof. intros st. rewrite drain_masked_spec. reflexivity. Qed.

Lemma guard_call o a : respects same_guard (call o a).
Proof.
  unfold call. apply (respects_bind same_guard); [apply (respects_ask same_guard)|]. intros cbs.
  apply (respects_bind same_guard); [intros st; reflexivity|]. intros _.
  induction cbs as [|cb cbs IH]; simpl; [apply (respects_ret same_guard)|].
  apply (respects_bind same_guard); [|intros _; exact IH].
  destruct cb as [| |[c|]]; simpl.
  - apply guard_quit.
  - unfold dropEnterNotifyEvents. apply (respects_bind same_guard);
      [apply (respects_get same_guard)|].
    intros [|]; [apply (respects_ret same_guard)|].
    apply (respects_bind same_guard); [apply guard_XSync|]. intros _.
    apply (respects_bind same_guard); [apply guard_drain_masked|]. intros _.
    apply (respects_ret same_guard).
  - intros st. reflexivity.
  - unfold draggedClientChanges.
    apply (respects_bind same_guard); [apply guard_xreq|]. intros _.
    apply (respects_bind same_guard); [apply guard_XSync|]. intros _.
    apply (respects_bind same_guard); [apply guard_drain_masked|]. intros _.
    apply (respects_ret same_guard).
Qed.

Ltac guard_step :=
  first
    [ apply (respects_ret same_guard)
    | apply (respects_ask same_guard)
    | apply (respects_get same_guard)
    | apply guard_quit
    | apply guard_XSync
    | apply guard_drain_masked
    | apply guard_xreq
    | apply guard_call
    | apply (respects_bind same_guard); [|intros ?]
    | match goal with
      | |- respects _ (if ?b then _ else _) => destruct b
      | |- respects _ (match ?x with _ => _ end) => destruct x
      end ].

Ltac guard_auto := cbv zeta; repeat guard_step.

Lemma guard_collectZombies o : respects same_guard (collectZombies o).
Proof.
  unfold collectZombies. apply (respects_bind same_guard); [apply (respects_ask same_guard)|].
  intros zs. induction zs as [|z zs IH]; simpl; [apply (respects_ret same_guard)|].
  apply (respects_bind same_guard); [apply guard_call | intros _; exact IH].
Qed.

(** Every handler but [enternotify] leaves the guard alone. *)
Lemma guard_member o h ev :
  h <> enternotify_ -> respects same_guard (member o h ev).
Proof.
  intros Hh. destruct h; try congruence; simpl;
    [ unfold buttonpress | unfold buttonrelease | unfold clientmessage
    | unfold configurenotify | unfold configurerequest, requested_geometry
    | unfold createnotify | unfold destroynotify
    | unfold expose | unfold focusin | unfold keypress | unfold mapnotify
    | unfold maprequest | unfold mappingnotify | unfold motionnotify
    | unfold propertynotify | unfold unmapnotify | unfold selectionclear ];
    guard_auto.
Qed.

Lemma bind_ends_clear {A B} (m : M A) (k : A -> M B) :
  (forall a st, duringEnterNotify_ (snd (k a st)) = false) ->
  forall st, duringEnterNotify_ (snd (bind m k st)) = false.
Proof. intros Hk st. rewrite bind_run. apply Hk. Qed.

(** [enternotify] returns at once or clears the guard on its way out. *)
Lemma enternotify_guard o ce st :
  exec (enternotify o ce) st = st
  \/ duringEnterNotify_ (exec (enternotify o ce) st) = false.
Proof.
  unfold enternotify, exec.
  destruct (negb (e_mode ce =? X.NotifyNormal) || (e_detail ce =? X.NotifyInferior));
    [left; reflexivity | right].
  apply bind_ends_clear. intros d. apply bind_ends_clear. intros dragging.
  apply bind_ends_clear. intros follows. apply bind_ends_clear. intros _ st'.
  reflexivity.
Qed.

#[local] Instance EventHandler_eq_dec : EqDecision EventHandler.
Proof. solve_decision. Defined.

Lemma member_guard_clear o h ev st :
  duringEnterNotify_ st = false ->
  duringEnterNotify_ (exec (member o h ev) st) = false.
Proof.
  intros Hg. destruct (decide (h = enternotify_)) as [-> | Hh].
  - destruct (enternotify_guard o ev st) as [H | H]; simpl; [rewrite H|]; assumption.
  - rewrite <- Hg. apply (guard_member o h ev Hh).
Qed.

(** X5.  [duringEnterNotify_] is set only while [enternotify] runs: if it
    is clear when [run] is entered (as the constructor leaves it), it is clear
    again at every test of the two loops, whatever events are handled and
    whatever is called back. *)
Theorem guard_clear_at_every_test o n pc st :
  duringEnterNotify_ st = false ->
  duringEnterNotify_ (snd (steps o n (pc, st))) = false.
Proof.
  revert pc st. induction n as [|n IH]; intros pc st Hg; [exact Hg|].
  rewrite steps_succ. destruct (step o (pc, st)) as [pc1 st1] eqn:Hs.
  apply IH. destruct pc; cbn [step] in Hs.
  - destruct (aboutToQuit_ st); injection Hs as _ <-; [exact Hg|].
    rewrite <- Hg.
    apply (respects_bind same_guard); [apply guard_collectZombies|]. intros _.
    apply (respects_bind same_guard); [apply guard_xreq|]. intros _.
    apply guard_collectZombies.
  - destruct (aboutToQuit_ st); injection Hs as _ <-; [exact Hg|].
    rewrite <- Hg. apply guard_XSync.
  - destruct (xqueue st) as [|event rest]; [injection Hs as _ <-; exact Hg|].
    destruct (slot (handlerTable_ (set_display rest (xserver st) st)) (e_type event))
      as [handler|]; injection Hs as _ <-; [|exact Hg].
    assert (Hafter : forall s, duringEnterNotify_ s = false ->
              duringEnterNotify_ (exec (call o Watchers_scanForChanges ;; XSync) s) = false).
    { intros s Hs'. rewrite <- Hs'.
      apply (respects_bind same_guard); [apply guard_call|]. intros _. apply guard_XSync. }
    apply Hafter. destruct handler as [h|]; [|exact Hg].
    unfold exec. rewrite bind_run. apply member_guard_clear. exact Hg.
  - injection Hs as _ <-. exact Hg.
  - injection Hs as _ <-. exact Hg.
Qed.

(** Applied to a run that handles an EnterNotify. *)
Lemma guard_clear_at_every_test_witness :
  let st := XMainLoop_new [pointer_enters; key_pressed] [] [] in
  duringEnterNotify_ st = false
  /\ member_calls (trace (snd (steps vertical_refocusing 2 (InnerTest, st))))
     = [MemberCall enternotify_ pointer_enters; MemberCall keypress_ key_pressed]
  /\ duringEnterNotify_ (snd (steps vertical_refocusing 2 (InnerTest, st))) = false.
Proof.
  intros st. split; [reflexivity|]. split; [reflexivity|].
  apply (guard_clear_at_every_test vertical_refocusing 2 InnerTest st). reflexivity.
Defined.

Section Guarded.
Variable o : Oracle.
Hypothesis no_drag_end :
  forall h a, Forall (fun cb => ends_drag cb = false) (signals o h a).

Lemma guarded_ret {A} (a : A) : guarded (ret a).
Proof. intros st Hg. split; [reflexivity | exact Hg]. Qed.

Lemma guarded_ask {A} (f : History -> A) : guarded (ask f).
Proof. intros st Hg. split; [reflexivity | exact Hg]. Qed.

Lemma guarded_xreq a : guarded (xreq a).
Proof. intros st Hg. split; [split; reflexivity | exact Hg]. Qed.

Lemma guarded_bind {A B} (m : M A) (k : A -> M B) :
  guarded m -> (forall a, guarded (k a)) -> guarded (bind m k).
Proof.
  intros Hm Hk st Hg. rewrite bind_run.
  destruct (Hm st Hg) as [He Hg'].
  destruct (Hk (fst (m st)) (snd (m st)) Hg') as [He' Hg''].
  split; [etransitivity; eassumption | exact Hg''].
Qed.

Lemma guarded_run_callbacks cbs :
  Forall (fun cb => ends_drag cb = false) cbs -> guarded (run_callbacks o cbs).
Proof.
  induction 1 as [|cb cbs Hcb _ IH]; simpl; [apply guarded_ret|].
  apply guarded_bind; [|intros _; exact IH].
  destruct cb as [| |[c|]]; simpl.
  - intros st Hg. split; [split; reflexivity | exact Hg].
  - intros st Hg. unfold dropEnterNotifyEvents. rewrite bind_run. cbn [get fst snd].
    rewrite Hg. split; [reflexivity | exact Hg].
  - unfold draggedClientChanges.
    apply guarded_bind; [apply guarded_ask|]. intros ra.
    apply guarded_bind; [apply guarded_xreq|]. intros _.
    apply guarded_bind; [apply guarded_ask|]. intros w. apply guarded_xreq.
  - discriminate Hcb.
Qed.

Lemma guarded_call a : guarded (call o a).
Proof.
  unfold call. intros st Hg. rewrite bind_ask, bind_modify.
  destruct (guarded_run_callbacks (signals o (trace st) a) (no_drag_end _ _)
              (log a st) Hg) as [He Hg'].
  split; [exact He | exact Hg'].
Qed.

Lemma spares_bind {A B} (m : M A) (k : A -> M B) :
  guarded m -> (forall a, spares_events (k a)) -> spares_events (bind m k).
Proof.
  intros Hm Hk st Hg. rewrite bind_run.
  destruct (Hm st Hg) as [He Hg'].
  etransitivity; [exact He | apply Hk, Hg'].
Qed.

Ltac guarded_step :=
  first
    [ apply guarded_ret
    | apply guarded_ask
    | apply guarded_xreq
    | apply guarded_call
    | apply guarded_bind; [|intros ?]
    | match goal with
      | |- guarded (if ?b then _ else _) => destruct b
      | |- guarded (match ?x with _ => _ end) => destruct x
      end ].

(** X6.  As long as no drag is ended from inside it, [enternotify] leaves
    the event queue as it is: requests to drop the enter events that reach
    [dropEnterNotifyEvents] while the handler runs find the guard set and
    drop nothing, so enter events that follow the handled one are kept. *)
Theorem enternotify_spares_events ce st :
  xqueue (exec (enternotify o ce) st) = xqueue st
  /\ xserver (exec (enternotify o ce) st) = xserver st.
Proof.
  change (same_events st (exec (enternotify o ce) st)).
  unfold enternotify, exec.
  destruct (negb (e_mode ce =? X.NotifyNormal) || (e_detail ce =? X.NotifyInferior));
    [reflexivity|].
  rewrite bind_run.
  assert (Hbegin : same_events st (snd (enternotify_begin o ce st))
                   /\ duringEnterNotify_ (snd (enternotify_begin o ce st)) = true).
  { unfold enternotify_begin. rewrite bind_modify.
    set (s0 := set_duringEnterNotify true st).
    assert (Hb : guarded
      (decorationClient ← ask (fun h => Decoration_toClient o h (e_window ce));
       match decorationClient with
       | Some d => call o (Dec_updateResizeAreaCursors d)
       | None => ret tt
       end ;;
       ret decorationClient)) by (repeat guarded_step).
    destruct (Hb s0 eq_refl) as [He Hg]. split; [|exact Hg].
    etransitivity; [|exact He]. split; reflexivity. }
  destruct Hbegin as [He Hg]. etransitivity; [exact He|].
  generalize (fst (enternotify_begin o ce st)). intros d.
  revert Hg. generalize (snd (enternotify_begin o ce st)). intros s1 Hg.
  cbv beta. revert s1 Hg.
  refine (spares_bind _ _ (guarded_ask _) _). intros dragging.
  refine (spares_bind _ _ (guarded_ask _) _). intros follows.
  refine (spares_bind _ _ _ _).
  - cbv zeta. repeat guarded_step.
  - intros _ s Hs. split; reflexivity.
Qed.

End Guarded.

(** Applied to a manager whose focus changes ask for the enter events to be
    dropped: the client under the pointer is focused, and the enter event
    queued behind the handled one stays. *)
Lemma enternotify_spares_events_witness :
  let st := XMainLoop_new [pointer_enters; key_pressed] [[pointer_enters]] [] in
  new_calls st (exec (enternotify vertical_refocusing pointer_enters) st)
  = [focus_client_ (Some 2%nat) false true false]
  /\ signals vertical_refocusing (trace st) (focus_client_ (Some 2%nat) false true false)
     = [cb_dropEnterNotifyEvents]
  /\ xqueue (exec (enternotify vertical_refocusing pointer_enters) st)
     = [pointer_enters; key_pressed]
  /\ xserver (exec (enternotify vertical_refocusing pointer_enters) st)
     = [[pointer_enters]].
Proof.
  intros st. split; [reflexivity|]. split; [reflexivity|].
  apply (enternotify_spares_events vertical_refocusing).
  intros h a. destruct a; simpl; repeat constructor.
Defined.

Lemma EnterWindowMask_selects_type e :
  mask_selects X.EnterWindowMask e = (e_type e =? X.EnterNotify).
Proof.
  apply eq_true_iff_eq. rewrite EnterWindowMask_selects. symmetry. apply Z.eqb_eq.
Qed.

Lemma filter_ext_bool {A} (f g : A -> bool) (l : list A) :
  (forall x, f x = g x) -> List.filter f l = List.filter g l.
Proof.
  intros H. induction l as [|x l IH]; [reflexivity|]. simpl. rewrite H, IH. reflexivity.
Qed.

Lemma without_EnterWindowMask st :
  xqueue (without X.EnterWindowMask st)
  = List.filter (fun e => negb (e_type e =? X.EnterNotify)) (xqueue st).
Proof.
  simpl. apply filter_ext_bool. intros e. rewrite EnterWindowMask_selects_type. reflexivity.
Qed.

(** X7.  [dropEnterNotifyEvents] does nothing at all while the guard of
    [enternotify] is set.  Otherwise it issues one XSync and takes out of
    the queue, what the XSync has read included, the EnterNotify events and
    only those, leaving the other events in their order. *)
Theorem dropEnterNotifyEvents_unless_guarded st :
  if duringEnterNotify_ st then exec dropEnterNotifyEvents st = st
  else new_calls st (exec dropEnterNotifyEvents st) = [XSync_]
       /\ xqueue (exec dropEnterNotifyEvents st)
          = List.filter (fun e => negb (e_type e =? X.EnterNotify))
              (xqueue st ++ hd [] (xserver st))
       /\ xserver (exec dropEnterNotifyEvents st) = tl (xserver st).
Proof.
  unfold dropEnterNotifyEvents, exec. rewrite bind_run. cbn [get fst snd].
  destruct (duringEnterNotify_ st); [reflexivity|].
  rewrite bind_run. fold (exec XSync st). rewrite bind_run, drain_masked_spec.
  cbn [fst snd ret]. fold (without X.EnterWindowMask (exec XSync st)).
  split; [apply new_calls_app; reflexivity|]. split; [|reflexivity].
  rewrite without_EnterWindowMask. reflexivity.
Qed.

(** X8.  [draggedClientChanges]: when a drag starts, a cursor is created,
    the fleur when the resize action names none, and the pointer is grabbed
    on the window of the dragged client for motion and button release, the
    event queue being left alone; when the drag ends, the pointer is
    released and, whether or not the guard of [enternotify] is set, an XSync
    is issued and every EnterNotify is taken out of the queue. *)
Theorem draggedClientChanges_grabs_or_releases o st :
  (forall c,
     let shape := default X.XC_fleur (toCursorShape o (resizeAction o (trace st))) in
     let st' := exec (draggedClientChanges o (Some c)) st in
     new_calls st st'
     = [XCreateFontCursor_ shape;
        XGrabPointer_ (x11Window o (trace st ++ [XCreateFontCursor_ shape]) c) true
          (Z.lor X.PointerMotionMask X.ButtonReleaseMask)
          X.GrabModeAsync X.GrabModeAsync X.None shape X.CurrentTime]
     /\ xqueue st' = xqueue st /\ xserver st' = xserver st)
  /\ (let st' := exec (draggedClientChanges o None) st in
      new_calls st st' = [XUngrabPointer_ X.CurrentTime; XSync_]
      /\ xqueue st'
         = List.filter (fun e => negb (e_type e =? X.EnterNotify))
             (xqueue st ++ hd [] (xserver st))
      /\ xserver st' = tl (xserver st)).
Proof.
  split.
  - intros c shape st'. subst st' shape. split; [|split; reflexivity].
    apply new_calls_app. cbn. rewrite <- app_assoc. reflexivity.
  - intros st'. subst st'. unfold draggedClientChanges, exec.
    rewrite bind_run. fold (exec (xreq (XUngrabPointer_ X.CurrentTime)) st).
    set (s1 := exec (xreq (XUngrabPointer_ X.CurrentTime)) st).
    rewrite bind_run. fold (exec XSync s1). rewrite bind_run, drain_masked_spec.
    cbn [fst snd ret]. fold (without X.EnterWindowMask (exec XSync s1)).
    split; [|split; [|reflexivity]].
    + apply new_calls_app. cbn. rewrite <- app_assoc. reflexivity.
    + rewrite without_EnterWindowMask. reflexivity.
Qed.

(** ** Reaping children *)

Lemma child_exits_app h1 h2 : child_exits (h1 ++ h2) = child_exits h1 ++ child_exits h2.
Proof. apply flat_map_app. Qed.

Lemma child_exits_callback noise :
  Forall (fun a => is_callback_request a = true) noise -> child_exits noise = [].
Proof.
  induction 1 as [|a noise Ha _ IH]; [reflexivity|].
  simpl. destruct a; simpl in *; try discriminate Ha; exact IH.
Qed.

Lemma WEXITSTATUS_range status : 0 <= WEXITSTATUS status < 256.
Proof.
  unfold WEXITSTATUS. rewrite Z.shiftr_land.
  change (Z.shiftr 65280 8) with (Z.ones 8). rewrite Z.land_ones by lia.
  apply Z.mod_pos_bound. reflexivity.
Qed.

Lemma emit_each_child o zs :
  forall st,
  exists new,
    trace (exec (fold_right
                   (fun z k => call o (childExited_emit (fst z) (WEXITSTATUS (snd z))) ;; k)
                   (ret tt) zs) st) = trace st ++ new
    /\ child_exits new = map (fun z => (fst z, WEXITSTATUS (snd z))) zs.
Proof.
  induction zs as [|z zs IH]; intros st.
  - exists []. split; [symmetry; apply app_nil_r | reflexivity].
  - cbn [fold_right]. rewrite exec_bind.
    destruct (call_trace o (childExited_emit (fst z) (WEXITSTATUS (snd z))) st)
      as (noise & Hn & Hf).
    destruct (IH (exec (call o (childExited_emit (fst z) (WEXITSTATUS (snd z)))) st))
      as (new & Hnew & Hex).
    exists ((childExited_emit (fst z) (WEXITSTATUS (snd z)) :: noise) ++ new). split.
    + rewrite Hnew, Hn, <- app_assoc. reflexivity.
    + rewrite child_exits_app. simpl. rewrite (child_exits_callback noise Hf), Hex.
      reflexivity.
Qed.

(** X9.  [collectZombies] emits [childExited] once for every child that
    waitpid reaps, in the order of reaping, with the pid and the exit status
    decoded from the wait status; every status it reports is a byte. *)
Theorem collectZombies_reports_each_child o st :
  child_exits (new_calls st (exec (collectZombies o) st))
  = map (fun z => (fst z, WEXITSTATUS (snd z))) (waitpid_WNOHANG o (trace st))
  /\ Forall (fun e => 0 <= snd e < 256)
       (child_exits (new_calls st (exec (collectZombies o) st))).
Proof.
  assert (H : child_exits (new_calls st (exec (collectZombies o) st))
              = map (fun z => (fst z, WEXITSTATUS (snd z))) (waitpid_WNOHANG o (trace st))).
  { unfold collectZombies, exec. rewrite bind_ask.
    destruct (emit_each_child o (waitpid_WNOHANG o (trace st)) st) as (new & Hn & Hex).
    unfold exec in Hn. rewrite (new_calls_app st _ new Hn). exact Hex. }
  split; [exact H|]. rewrite H. apply Forall_forall. intros e He.
  apply list_elem_of_In, in_map_iff in He as (z & <- & _). apply WEXITSTATUS_range.
Qed.

(** ** MotionNotify *)

Lemma ButtonMotionMask_selects e :
  mask_selects X.ButtonMotionMask e = (e_type e =? X.MotionNotify).
Proof.
  apply eq_true_iff_eq. rewrite Z.eqb_eq. unfold mask_selects. split.
  - intros H. apply andb_prop in H as [H _]. apply andb_prop in H as [H Hm].
    apply andb_prop in H as [H0 H1].
    apply Z.leb_le in H0. apply Z.ltb_lt in H1. unfold X.LASTEvent in H1.
    assert (Hc : exists n : nat, (n < 36)%nat /\ e_type e = Z.of_nat n).
    { exists (Z.to_nat (e_type e)). lia. }
    destruct Hc as (n & Hn & He). rewrite He in *. clear He H0 H1.
    do 36 (destruct n as [|n]; [vm_compute in Hm; try discriminate; vm_compute; auto|]).
    lia.
  - intros H; rewrite H; reflexivity.
Qed.

(** X10.  [motionnotify] takes every queued MotionNotify out of the queue,
    leaving the other events in their order, and reports one position to the
    mouse manager: the root coordinates of the last motion event that was
    queued, or of the event it was called with when none was. *)
Theorem motionnotify_reports_newest o event st :
  let newest :=
    List.last (List.filter (fun e => e_type e =? X.MotionNotify) (xqueue st)) event in
  let report := Mouse_handle_motion_event {| px := e_x_root newest; py := e_y_root newest |} in
  exec (motionnotify o event) st = exec (call o report) (without_motion st)
  /\ exists noise,
       new_calls st (exec (motionnotify o event) st) = report :: noise
       /\ Forall (fun a => is_callback_request a = true) noise.
Proof.
  intros newest report.
  assert (Heq : exec (motionnotify o event) st = exec (call o report) (without_motion st)).
  { unfold motionnotify, exec. rewrite bind_run, drain_masked_spec. cbn [fst snd].
    rewrite (filter_ext_bool (mask_selects X.ButtonMotionMask)
               (fun e => e_type e =? X.MotionNotify)) by apply ButtonMotionMask_selects.
    rewrite (filter_ext_bool (fun x => negb (mask_selects X.ButtonMotionMask x))
               (fun e => negb (e_type e =? X.MotionNotify)))
      by (intros x; rewrite ButtonMotionMask_selects; reflexivity).
    reflexivity. }
  split; [exact Heq|]. rewrite Heq.
  destruct (call_trace o report (without_motion st)) as (noise & Hn & Hf).
  exists noise. split; [|exact Hf]. apply new_calls_app. exact Hn.
Qed.

(** Three motion events are queued around a key press; the last position is
    the one reported. *)
Example motionnotify_reports_last_position :
  let st := XMainLoop_new [moved_to 2 2; key_pressed; moved_to 3 5] [] [] in
  new_calls st (exec (motionnotify tiled (moved_to 1 1)) st)
  = [Mouse_handle_motion_event {| px := 3; py := 5 |}]
  /\ xqueue (exec (motionnotify tiled (moved_to 1 1)) st) = [key_pressed].
Proof. split; reflexivity. Qed.

(** ** ButtonPress *)

Ltac keeps_for P Pcb :=
  cbv zeta;
  repeat first
    [ apply keeps_ret
    | apply keeps_ask
    | apply keeps_get
    | apply keeps_quit
    | apply keeps_guard
    | apply (keeps_XSync P Pcb)
    | apply keeps_drain_masked
    | apply keeps_xreq; reflexivity
    | apply (keeps_call P Pcb); reflexivity
    | apply keeps_bind; [|intros ?]
    | match goal with
      | |- keeps _ (if ?b then _ else _) => destruct b
      | |- keeps _ (match ?x with _ => _ end) => destruct x
      end ].

Lemma keeps_new_calls P {A} (m : M A) st :
  keeps P m -> Forall (fun a => P a = true) (new_calls st (snd (m st))).
Proof.
  intros Hm. destruct (Hm st) as [_ _ _ (new & Hn & Hf)].
  rewrite (new_calls_app st _ new Hn). exact Hf.
Qed.

(** A computation that ends with the request [a], everything before it
    satisfying [P]. *)
Lemma ends_with_bind (P : Action -> bool) a {A B} (m : M A) (k : A -> M B) :
  keeps P m ->
  (forall x st, exists before,
      trace (snd (k x st)) = trace st ++ before ++ [a]
      /\ Forall (fun b => P b = true) before) ->
  forall st, exists before,
    trace (snd (bind m k st)) = trace st ++ before ++ [a]
    /\ Forall (fun b => P b = true) before.
Proof.
  intros Hm Hk st. rewrite bind_run.
  destruct (Hm st) as [_ _ _ (new & Hn & Hf)].
  destruct (Hk (fst (m st)) (snd (m st))) as (before & Hb & Hfb).
  exists (new ++ before). split.
  - rewrite Hb, Hn, <- !app_assoc. reflexivity.
  - apply Forall_app. auto.
Qed.

Lemma not_replay_callback a : is_callback_request a = true -> not_replay a = true.
Proof. destruct a; simpl; intros H; try discriminate H; reflexivity. Qed.

Lemma not_click_response_callback a :
  is_callback_request a = true -> not_click_response a = true.
Proof. destruct a; simpl; intros H; try discriminate H; reflexivity. Qed.

(** X11.  Whatever a button press leads to, [buttonpress] ends by letting
    the pointer event through: its last request is XAllowEvents with
    ReplayPointer at the time of the event, and it makes no other
    XAllowEvents.  When the mouse manager has consumed the press, no client is
    focused and no move or resize is started. *)
Theorem buttonpress_replays_pointer o be st :
  (exists before,
     new_calls st (exec (buttonpress o be) st)
     = before ++ [XAllowEvents_ X.ReplayPointer (e_time be)]
     /\ Forall (fun a => is_XAllowEvents a = false) before)
  /\ (mouse_handle_event_result o (trace st) (e_state be) (e_button be) (e_window be) = true ->
      Forall (fun a => is_click_response a = false)
        (new_calls st (exec (buttonpress o be) st))).
Proof.
  split.
  - assert (H : exists before,
        trace (snd (buttonpress o be st))
        = trace st ++ before ++ [XAllowEvents_ X.ReplayPointer (e_time be)]
        /\ Forall (fun b => not_replay b = true) before).
    { unfold buttonpress.
      apply ends_with_bind; [apply keeps_ask|]. intros handled.
      apply ends_with_bind; [keeps_for not_replay not_replay_callback|]. intros _.
      apply ends_with_bind; [keeps_for not_replay not_replay_callback|]. intros _.
      apply ends_with_bind; [apply keeps_ask|]. intros frameDec.
      apply ends_with_bind; [keeps_for not_replay not_replay_callback|]. intros _ s.
      exists []. split; [reflexivity | constructor]. }
    destruct H as (before & Hb & Hf). exists before. split.
    + apply new_calls_app. exact Hb.
    + eapply Forall_impl; [exact Hf|]. intros a Ha. cbv beta in Ha.
      unfold not_replay in Ha. destruct (is_XAllowEvents a); [discriminate Ha | reflexivity].
  - intros Hhandled. unfold buttonpress, exec. rewrite bind_ask, Hhandled. cbn [negb].
    match goal with
    | |- Forall _ (new_calls st (snd (?m st))) =>
        assert (Hm : keeps not_click_response m)
          by (keeps_for not_click_response not_click_response_callback)
    end.
    eapply Forall_impl; [apply (keeps_new_calls _ _ st Hm)|].
    intros a Ha. cbv beta in Ha. unfold not_click_response in Ha.
    destruct (is_click_response a); [discriminate Ha | reflexivity].
Qed.

(** Applied to a press the mouse manager has a binding for. *)
Lemma buttonpress_replays_pointer_witness :
  mouse_handle_event_result mouse_binds (trace idle)
    (e_state button_pressed) (e_button button_pressed) (e_window button_pressed) = true
  /\ new_calls idle (exec (buttonpress mouse_binds button_pressed) idle)
     = [Mouse_handle_event 0 1 101; XAllowEvents_ X.ReplayPointer 1234]
  /\ Forall (fun a => is_click_response a = false)
       (new_calls idle (exec (buttonpress mouse_binds button_pressed) idle)).
Proof.
  split; [reflexivity|]. split; [reflexivity|].
  apply (buttonpress_replays_pointer mouse_binds button_pressed idle). reflexivity.
Defined.

(** ** MapRequest *)

Lemma not_map_callback a : is_callback_request a = true -> not_map a = true.
Proof. destruct a; simpl; intros H; try discriminate H; reflexivity. Qed.

Lemma not_map_new_calls (h : History) :
  Forall (fun a => not_map a = true) h -> Forall (fun a => is_XMapWindow a = false) h.
Proof.
  intros H. eapply Forall_impl; [exact H|]. intros a Ha. cbv beta in Ha.
  unfold not_map in Ha. destruct (is_XMapWindow a); [discriminate Ha | reflexivity].
Qed.

(** X12.  A MapRequest for a window that is neither the manager's own nor
    one of its internal windows never maps a managed client: the request only
    clears [minimized_].  And when the window is unknown, of no special type,
    and [manage_client] returns null, the request ends there: the null
    pointer is tested, not dereferenced, and the window is not mapped. *)
Theorem maprequest_maps_no_client o mapreq st :
  isOwnWindow o (trace st) (e_window mapreq) = false ->
  is_herbstluft_window o (trace st) (e_window mapreq) = false ->
  (forall c,
     clients_client o (trace st) (e_window mapreq) = Some c ->
     exec (maprequest o mapreq) st = exec (call o (Client_set_minimized c false)) st
     /\ Forall (fun a => is_XMapWindow a = false)
          (new_calls st (exec (maprequest o mapreq) st)))
  /\ (clients_client o (trace st) (e_window mapreq) = None ->
      getWindowType o (trace st) (e_window mapreq) = NetWmWindowTypeOther ->
      manage_client_result o (trace st) (e_window mapreq) false false DefaultOverride = None ->
      exec (maprequest o mapreq) st
      = exec (call o (Clients_manage_client (e_window mapreq) false false DefaultOverride)) st
      /\ Forall (fun a => is_XMapWindow a = false)
           (new_calls st (exec (maprequest o mapreq) st))).
Proof.
  intros Hown Hhlwm.
  assert (Hcall : forall a, not_map a = true ->
            Forall (fun a => is_XMapWindow a = false) (new_calls st (exec (call o a) st))).
  { intros a Ha. apply not_map_new_calls.
    apply (keeps_new_calls not_map (call o a) st).
    apply (keeps_call not_map not_map_callback). exact Ha. }
  split.
  - intros c Hc.
    assert (Heq : exec (maprequest o mapreq) st
                  = exec (call o (Client_set_minimized c false)) st).
    { unfold maprequest, exec. cbv zeta. mred. rewrite Hc, Hown, Hhlwm. reflexivity. }
    split; [exact Heq|]. rewrite Heq. apply Hcall. reflexivity.
  - intros Hc Htype Hnull.
    assert (Heq : exec (maprequest o mapreq) st
      = exec (call o (Clients_manage_client (e_window mapreq) false false DefaultOverride)) st).
    { unfold maprequest, exec. cbv zeta. mred. rewrite Hc, Hown, Hhlwm. cbn [orb].
      mred. rewrite Htype. mred. rewrite Hnull. rewrite bind_run. reflexivity. }
    split; [exact Heq|]. rewrite Heq. apply Hcall. reflexivity.
Qed.

(** Applied to a request of the managed window 101, and to one of window
    11, which [manage_client] refuses. *)
Lemma maprequest_maps_no_client_witness :
  new_calls idle (exec (maprequest tiled (map_requested 101)) idle)
  = [Client_set_minimized 1%nat false]
  /\ manage_client_result refusing (trace idle) 11 false false DefaultOverride = None
  /\ new_calls idle (exec (maprequest refusing (map_requested 11)) idle)
     = [Clients_manage_client 11 false false DefaultOverride]
  /\ Forall (fun a => is_XMapWindow a = false)
       (new_calls idle (exec (maprequest refusing (map_requested 11)) idle)).
Proof.
  split; [reflexivity|]. split; [reflexivity|]. split; [reflexivity|].
  apply (maprequest_maps_no_client refusing (map_requested 11) idle); reflexivity.
Defined.

(** ** ConfigureRequest, continued *)

Lemma not_configure_callback a : is_callback_request a = true -> not_configure a = true.
Proof. destruct a; simpl; intros H; try discriminate H; reflexivity. Qed.

(** X13.  [configurerequest] passes a request on to the server exactly for
    windows that are not managed: for such a window its one request is
    XConfigureWindow with the position, size, border width, sibling and
    stack mode of the event and with the event's mask narrowed to the 32 bits
    of the unsigned int that XConfigureWindow takes, and for a managed client
    it never issues an XConfigureWindow, whatever the client and the request
    are. *)
Theorem configurerequest_forwards_unmanaged o cre st :
  match clients_client o (trace st) (e_window cre) with
  | None =>
      new_calls st (exec (configurerequest o cre) st)
      = [XConfigureWindow_ (e_window cre) (e_value_mask cre mod 2 ^ 32)
           {| wc_x := e_x cre; wc_y := e_y cre;
              wc_width := e_width cre; wc_height := e_height cre;
              wc_border_width := e_border_width cre;
              wc_sibling := e_above cre; wc_stack_mode := e_detail cre |}]
      /\ same_events st (exec (configurerequest o cre) st)
  | Some _ =>
      Forall (fun a => is_XConfigureWindow a = false)
        (new_calls st (exec (configurerequest o cre) st))
  end.
Proof.
  unfold configurerequest, exec. rewrite bind_ask.
  destruct (clients_client o (trace st) (e_window cre)) as [c|].
  - match goal with
    | |- Forall _ (new_calls st (snd (?m st))) =>
        assert (Hm : keeps not_configure m)
          by (unfold requested_geometry; keeps_for not_configure not_configure_callback)
    end.
    eapply Forall_impl; [apply (keeps_new_calls _ _ st Hm)|].
    intros a Ha. cbv beta in Ha. unfold not_configure in Ha.
    destruct (is_XConfigureWindow a); [discriminate Ha | reflexivity].
  - split; [apply new_calls_app; reflexivity | split; reflexivity].
Qed.

(** A mask with a bit above the 32nd reaches the server without it. *)
Example configurerequest_narrows_mask :
  e_value_mask configure_panel = 4294967299
  /\ new_calls idle (exec (configurerequest tiled configure_panel) idle)
     = [XConfigureWindow_ 55 3
          {| wc_x := 0; wc_y := 780; wc_width := 1280; wc_height := 20;
             wc_border_width := 0; wc_sibling := 0; wc_stack_mode := 0 |}].
Proof. split; reflexivity. Qed.

Lemma int32_fits z : fits_int z -> int32 z = z.
Proof.
  unfold fits_int, int32. intros H.
  rewrite Z.mod_small; lia.
Qed.

(** X14.  When a ConfigureRequest asks for a position, the rectangle
    [configurerequest] arrives at is relative to a monitor: the one showing
    the tag of the client, else the one at the requested point, else the
    focused one.  A coordinate that is not asked for is taken from
    [last_size_]; adding the origin of the monitor (its position plus its
    left and upper padding) to the result gives back the root coordinates,
    as long as the sums stay within [int].  Width and height are the
    requested ones where requested and the current ones otherwise. *)
Theorem requested_position_is_monitor_relative o c cre current st :
  let h := trace st in
  let x_requested := negb (0 =? Z.land (e_value_mask cre) X.CWX) in
  let y_requested := negb (0 =? Z.land (e_value_mask cre) X.CWY) in
  let width_requested := negb (0 =? Z.land (e_value_mask cre) X.CWWidth) in
  let height_requested := negb (0 =? Z.land (e_value_mask cre) X.CWHeight) in
  let x := if x_requested then e_x cre else rx (last_size_ o h c) in
  let y := if y_requested then e_y cre else ry (last_size_ o h c) in
  let m := monitor_for_request o h c x y in
  let ox := rx (monitor_rect o h m) + pad_left o h m in
  let oy := ry (monitor_rect o h m) + pad_up o h m in
  let asked := snd (fst (requested_geometry o c cre current st)) in
  x_requested || y_requested = true ->
  fits_int ox -> fits_int oy -> fits_int (x - ox) -> fits_int (y - oy) ->
  rx asked + ox = x
  /\ ry asked + oy = y
  /\ rwidth asked = (if width_requested then e_width cre else rwidth current)
  /\ rheight asked = (if height_requested then e_height cre else rheight current).
Proof.
  intros h x_requested y_requested width_requested height_requested x y m ox oy asked.
  subst asked ox oy m x y. unfold monitor_for_request, requested_geometry, bind, ask, ret.
  cbv zeta. subst x_requested y_requested width_requested height_requested h.
  destruct (negb (0 =? Z.land (e_value_mask cre) X.CWX));
    destruct (negb (0 =? Z.land (e_value_mask cre) X.CWY));
    cbn [negb orb]; intros Hxy; try discriminate Hxy;
    (destruct (monitors_byTag o (trace st) (tag o (trace st) c)) as [m|];
     [|match goal with
       | |- context [monitors_byCoordinate o (trace st) ?p] =>
           destruct (monitors_byCoordinate o (trace st) p) as [m|]
       end]);
    intros Hox Hoy Hx Hy; cbn [fst snd];
    rewrite (int32_fits _ Hox), (int32_fits _ Hoy), (int32_fits _ Hx), (int32_fits _ Hy);
    destruct (negb (0 =? Z.land (e_value_mask cre) X.CWWidth));
    destruct (negb (0 =? Z.land (e_value_mask cre) X.CWHeight));
    cbn; repeat split; lia.
Qed.

(** Applied to the request with all mask bits set for the floated client 1
    on the monitor at the origin. *)
Lemma requested_position_is_monitor_relative_witness :
  let current := float_size_ floating (trace idle) 1%nat in
  let asked := snd (fst (requested_geometry floating 1%nat configure_all current idle)) in
  asked = {| rx := 5; ry := 6; rwidth := 800; rheight := 600 |}
  /\ rx asked + 0 = 5 /\ ry asked + 0 = 6 /\ rwidth asked = 800 /\ rheight asked = 600.
Proof.
  intros current asked. split; [reflexivity|].
  apply (requested_position_is_monitor_relative floating 1%nat configure_all current idle);
    try reflexivity;
    unfold fits_int; vm_compute; (split; [discriminate | reflexivity]).
Defined.

(** ** UnmapNotify, in general *)

(** X15.  Every UnmapNotify ends with an XSync after which no EnterNotify
    is left in the queue.  Before that, the client manager is told of the
    unmap only when the event is reported on the window itself, and
    XUnmapWindow is issued only for a synthetic event. *)
Theorem unmapnotify_in_general o event st :
  let w := e_window event in
  let st' := exec (unmapnotify o event) st in
  (exists noise,
     new_calls st st'
     = (if w =? e_event event then Clients_unmap_notify w :: noise else [])
       ++ (if e_send_event event then [XUnmapWindow_ w] else [])
       ++ [XSync_]
     /\ Forall (fun a => is_callback_request a = true) noise)
  /\ Forall (fun e => e_type e <> X.EnterNotify) (xqueue st').
Proof.
  intros w st'. subst st' w. unfold unmapnotify, exec.
  rewrite bind_run.
  set (s1 := snd ((if e_window event =? e_event event
                   then call o (Clients_unmap_notify (e_window event))
                   else ret tt) st)).
  rewrite bind_run.
  set (s2 := snd ((if e_send_event event
                   then xreq (XUnmapWindow_ (e_window event))
                   else ret tt) s1)).
  rewrite bind_run. fold (exec XSync s2). rewrite bind_run, drain_masked_spec.
  cbn [fst snd ret]. fold (without X.EnterWindowMask (exec XSync s2)).
  split.
  - assert (H1 : exists noise,
        trace s1 = trace st ++ (if e_window event =? e_event event
                                then Clients_unmap_notify (e_window event) :: noise else [])
        /\ Forall (fun a => is_callback_request a = true) noise).
    { subst s1. destruct (e_window event =? e_event event).
      - apply call_trace.
      - exists []. split; [symmetry; apply app_nil_r | constructor]. }
    destruct H1 as (noise & Hn1 & Hf). exists noise. split; [|exact Hf].
    apply new_calls_app.
    change (trace (without X.EnterWindowMask (exec XSync s2))) with (trace s2 ++ [XSync_]).
    assert (H2 : trace s2 = trace s1 ++ (if e_send_event event
                                         then [XUnmapWindow_ (e_window event)] else [])).
    { subst s2. destruct (e_send_event event); [reflexivity|].
      symmetry. apply app_nil_r. }
    rewrite H2, Hn1, <- !app_assoc. reflexivity.
  - rewrite without_EnterWindowMask. apply Forall_forall. intros e He.
    apply list_elem_of_In, filter_In in He as [_ He].
    apply negb_true_iff, Z.eqb_neq in He. exact He.
Qed.

(** ** scanExistingClients, the second loop and the end *)

Lemma not_foreign_reparent_callback o a :
  is_callback_request a = true -> not_foreign_reparent o a = true.
Proof. destruct a; simpl; intros H; try discriminate H; reflexivity. Qed.

Lemma keeps_scan_children_reparent o wins :
  keeps (not_foreign_reparent o) (scan_children o wins).
Proof.
  induction wins as [|w wins IH]; simpl; [apply keeps_ret|].
  apply keeps_bind.
  - unfold scan_child, findTagForWindow.
    keeps_for (not_foreign_reparent o) (not_foreign_reparent_callback o).
  - intros [|]; [exact IH | apply keeps_ret].
Qed.

Lemma keeps_scan_original_reparent o wins :
  Forall (fun w => w ∈ original_client_list_ o) wins ->
  keeps (not_foreign_reparent o) (scan_original o wins).
Proof.
  induction 1 as [|w wins Hw _ IH]; simpl; [apply keeps_ret|].
  apply keeps_bind; [|intros _; exact IH].
  unfold scan_original_client, findTagForWindow.
  apply keeps_bind; [apply keeps_ask|]. intros c.
  destruct (bool_decide (is_Some c)); [apply keeps_ret|].
  apply keeps_bind; [apply keeps_ask|]. intros [wa|]; [|apply keeps_ret].
  destruct (override_redirect wa); [apply keeps_ret|].
  apply keeps_bind.
  - apply keeps_xreq. unfold not_foreign_reparent, is_foreign_reparent.
    rewrite bool_decide_eq_true_2 by exact Hw. rewrite !Z.eqb_refl. reflexivity.
  - intros _. keeps_for (not_foreign_reparent o) (not_foreign_reparent_callback o).
Qed.

(** X16.  The only windows [scanExistingClients] reparents are windows of
    the client list left by the previous window manager, and it reparents
    them to the root window at (0, 0). *)
Theorem scan_reparents_original_clients_only o st :
  Forall (fun a => is_foreign_reparent o a = false)
    (new_calls st (exec (scanExistingClients o) st)).
Proof.
  assert (Hm : keeps (not_foreign_reparent o) (scanExistingClients o)).
  { unfold scanExistingClients.
    apply keeps_bind; [apply keeps_ask|]. intros ws.
    apply keeps_bind; [apply keeps_scan_children_reparent|].
    intros [|]; [|apply keeps_ret].
    apply keeps_bind.
    - apply keeps_scan_original_reparent. apply Forall_forall. auto.
    - intros _. keeps_for (not_foreign_reparent o) (not_foreign_reparent_callback o). }
  eapply Forall_impl; [apply (keeps_new_calls _ _ st Hm)|].
  intros a Ha. cbv beta in Ha. unfold not_foreign_reparent in Ha.
  destruct (is_foreign_reparent o a); [discriminate Ha | reflexivity].
Qed.

(** X17.  A scan that completes ends with a restack of the monitors: the
    last call it makes to another component is [restack], followed only by
    requests of members called back while the restack is served. *)
Theorem scan_ends_with_restack o st :
  fst (scanExistingClients o st) = Normal ->
  exists before noise,
    new_calls st (exec (scanExistingClients o) st) = before ++ Monitors_restack :: noise
    /\ Forall (fun a => is_callback_request a = true) noise.
Proof.
  intros Hnormal.
  unfold scanExistingClients, exec in *. rewrite bind_ask in *. rewrite bind_run in *.
  set (r := scan_children o (X_queryTree o (trace st) (X_root o)) st) in *.
  assert (Hr : exists b1, trace (snd r) = trace st ++ b1).
  { destruct (keeps_scan_children o (X_queryTree o (trace st) (X_root o)) st)
      as [_ _ _ (b1 & Hb1 & _)]. exists b1. exact Hb1. }
  destruct Hr as (b1 & Hb1).
  destruct (fst r); [|discriminate Hnormal].
  rewrite bind_run.
  set (s2 := snd (scan_original o (original_client_list_ o) (snd r))).
  assert (Hs2 : exists b2, trace s2 = trace (snd r) ++ b2).
  { destruct (keeps_scan_original o (original_client_list_ o) (snd r))
      as [_ _ _ (b2 & Hb2 & _)]. exists b2. exact Hb2. }
  destruct Hs2 as (b2 & Hb2).
  rewrite bind_run. fold (exec (call o Monitors_restack) s2). cbn [ret snd].
  destruct (call_trace o Monitors_restack s2) as (noise & Hn & Hf).
  exists (b1 ++ b2), noise. split; [|exact Hf].
  apply new_calls_app. rewrite Hn, Hb2, Hb1, <- !app_assoc. reflexivity.
Qed.

(** Applied to the scan of the two viewable children 10 and 11. *)
Lemma scan_ends_with_restack_witness :
  fst (scanExistingClients accepting idle) = Normal
  /\ new_calls idle (exec (scanExistingClients accepting) idle)
     = [Clients_manage_client 10 true false DoNothing; XMapWindow_ 10;
        Clients_manage_client 11 true false DoNothing; XMapWindow_ 11]
       ++ Monitors_restack :: []
  /\ exists before noise,
       new_calls idle (exec (scanExistingClients accepting) idle)
       = before ++ Monitors_restack :: noise
       /\ Forall (fun a => is_callback_request a = true) noise.
Proof.
  split; [reflexivity|]. split; [reflexivity|].
  apply (scan_ends_with_restack accepting idle). reflexivity.
Defined.

(** ** PropertyNotify *)

Lemma not_ipc_or_panel_callback a :
  is_callback_request a = true -> not_ipc_or_panel a = true.
Proof. destruct a; simpl; intros H; try discriminate H; reflexivity. Qed.

(** X18.  A property change reaches one recipient.  A deletion reaches
    none: the handler does nothing.  A new value on an IPC window goes to the
    IPC server, even when the window is a managed client; otherwise a new
    value on a window that is not managed goes to the panel manager, and one
    on a managed client stays with the client: neither the IPC server nor the
    panel manager is called. *)
Theorem propertynotify_routes_once o ev st :
  let w := e_window ev in
  let st' := exec (propertynotify o ev) st in
  (e_state ev <> X.PropertyNewValue -> st' = st)
  /\ (e_state ev = X.PropertyNewValue ->
      isConnectable o (trace st) w = true ->
      st' = exec (call o (Ipc_handleConnection w)) st)
  /\ (e_state ev = X.PropertyNewValue ->
      isConnectable o (trace st) w = false ->
      clients_client o (trace st) w = None ->
      st' = exec (call o (Panels_propertyChanged w (e_atom ev))) st)
  /\ (e_state ev = X.PropertyNewValue ->
      isConnectable o (trace st) w = false ->
      is_Some (clients_client o (trace st) w) ->
      Forall (fun a => is_ipc_or_panel_notice a = false) (new_calls st st')).
Proof.
  intros w st'. subst w st'. unfold propertynotify, exec. rewrite bind_ask.
  split; [|split; [|split]].
  - intros Hstate. apply Z.eqb_neq in Hstate. rewrite Hstate. reflexivity.
  - intros Hstate Hconn. rewrite Hstate, Z.eqb_refl, bind_ask, Hconn. reflexivity.
  - intros Hstate Hconn Hc. rewrite Hstate, Z.eqb_refl, bind_ask, Hconn, Hc. reflexivity.
  - intros Hstate Hconn [c Hc]. rewrite Hstate, Z.eqb_refl, bind_ask, Hconn, Hc.
    match goal with
    | |- Forall _ (new_calls st (snd (?m st))) =>
        assert (Hm : keeps not_ipc_or_panel m)
          by (keeps_for not_ipc_or_panel not_ipc_or_panel_callback)
    end.
    eapply Forall_impl; [apply (keeps_new_calls _ _ st Hm)|].
    intros a Ha. cbv beta in Ha. unfold not_ipc_or_panel in Ha.
    destruct (is_ipc_or_panel_notice a); [discriminate Ha | reflexivity].
Qed.

(** Applied to a title change of window 101, a managed client: where every
    window is an IPC connection the IPC server gets it, otherwise the client
    does. *)
Lemma propertynotify_routes_once_witness :
  clients_client ipc_everywhere (trace idle) 101 = Some 1%nat
  /\ new_calls idle (exec (propertynotify ipc_everywhere (title_changed 101)) idle)
     = [Ipc_handleConnection 101]
  /\ new_calls idle (exec (propertynotify tiled (title_changed 101)) idle)
     = [Client_update_title 1%nat]
  /\ Forall (fun a => is_ipc_or_panel_notice a = false)
       (new_calls idle (exec (propertynotify tiled (title_changed 101)) idle)).
Proof.
  split; [reflexivity|]. split; [reflexivity|]. split; [reflexivity|].
  apply (propertynotify_routes_once tiled (title_changed 101) idle);
    [reflexivity | reflexivity | eexists; reflexivity].
Defined.

(** Applied to [keypress] in the state the lost selection leaves. *)
Lemma member_keeps_loop_state_witness :
  let st := snd (run tiled 3 (XMainLoop_new [] [[selection_lost; key_pressed]] [])) in
  aboutToQuit_ st = true
  /\ aboutToQuit_ (exec (member tiled keypress_ key_pressed) st) = true.
Proof.
  intros st. split; [reflexivity|].
  apply (member_keeps_loop_state tiled keypress_ key_pressed st). reflexivity.
Defined.

(** ** EnterNotify without focus_follows_mouse *)

Lemma not_focus_callback a : is_callback_request a = true -> not_focus a = true.
Proof. destruct a; simpl; intros H; try discriminate H; reflexivity. Qed.

(** X19.  [enternotify] never moves the focus while a client is dragged,
    when focus_follows_mouse is off, or when the entered window has the
    keyboard focus already, whatever the mode and the detail of the event
    are: neither [focus_client] nor [focusFrame] is called. *)
Theorem enternotify_keeps_focus o ce st :
  let h := trace (exec (enternotify_begin o ce) st) in
  mouse_is_dragging o h = true \/ focus_follows_mouse o h = false \/ e_focus ce = true ->
  Forall (fun a => is_focus_change a = false)
    (new_calls st (exec (enternotify o ce) st)).
Proof.
  intros h Hcond.
  assert (Hoff : negb (mouse_is_dragging o h) && focus_follows_mouse o h && negb (e_focus ce)
                 = false).
  { destruct Hcond as [H | [H | H]]; rewrite H;
      destruct (mouse_is_dragging o h), (focus_follows_mouse o h), (e_focus ce);
      reflexivity. }
  assert (Hbegin : keeps not_focus (enternotify_begin o ce)).
  { unfold enternotify_begin. keeps_for not_focus not_focus_callback. }
  assert (Hweak : forall l, Forall (fun a => not_focus a = true) l ->
                            Forall (fun a => is_focus_change a = false) l).
  { intros l Hl. eapply Forall_impl; [exact Hl|]. intros a Ha. cbv beta in Ha.
    unfold not_focus in Ha. destruct (is_focus_change a); [discriminate Ha | reflexivity]. }
  unfold enternotify, exec.
  destruct (negb (e_mode ce =? X.NotifyNormal) || (e_detail ce =? X.NotifyInferior)).
  - cbn [ret snd].
    rewrite (new_calls_app st st []); [constructor | symmetry; apply app_nil_r].
  - rewrite bind_run. fold (exec (enternotify_begin o ce) st). mred. fold h.
    rewrite Hoff. rewrite bind_run. cbn [ret modify fst snd].
    change (new_calls st (set_duringEnterNotify false (exec (enternotify_begin o ce) st)))
      with (new_calls st (exec (enternotify_begin o ce) st)).
    apply Hweak. apply (keeps_new_calls not_focus _ st Hbegin).
Qed.

(** Applied to the pointer entering a window that has the focus, in a
    layout in which entering would otherwise focus the client. *)
Lemma enternotify_keeps_focus_witness :
  e_focus pointer_enters_focused = true
  /\ new_calls idle (exec (enternotify vertical_refocusing pointer_enters) idle)
     = [focus_client_ (Some 2%nat) false true false]
  /\ Forall (fun a => is_focus_change a = false)
       (new_calls idle (exec (enternotify vertical_refocusing pointer_enters_focused) idle)).
Proof.
  split; [reflexivity|]. split; [reflexivity|].
  apply (enternotify_keeps_focus vertical_refocusing pointer_enters_focused idle).
  right. right. reflexivity.
Defined.

(** ** Reaping around the wait *)

Lemma collectZombies_trace o st :
  exists new,
    trace (exec (collectZombies o) st) = trace st ++ new
    /\ child_exits new
       = map (fun z => (fst z, WEXITSTATUS (snd z))) (waitpid_WNOHANG o (trace st))
    /\ Forall (fun a => own a = true) new.
Proof.
  destruct (keeps_collectZombies o st) as [_ _ _ (new & Hn & Hf)].
  exists new. split; [exact Hn|]. split; [|exact Hf].
  unfold collectZombies, exec in *. rewrite bind_ask in *.
  destruct (emit_each_child o (waitpid_WNOHANG o (trace st)) st) as (new' & Hn' & Hex).
  unfold exec in Hn'. rewrite Hn in Hn'. apply app_inv_head in Hn'. subst new'. exact Hex.
Qed.

(** X20.  A pass of the outer loop with the flag clear waits in [select]
    exactly once, and reaps on both sides of the wait: the children that have
    exited when the pass begins are reported before the wait, those that have
    exited when [select] returns right after it, before the flag is tested. *)
Theorem reaping_surrounds_the_wait o st :
  aboutToQuit_ st = false ->
  exists before after st',
    step o (OuterTest, st) = (QuitCheck, st')
    /\ new_calls st st' = before ++ select_ :: after
    /\ Forall (fun a => own a = true) before
    /\ Forall (fun a => own a = true) after
    /\ child_exits before
       = map (fun z => (fst z, WEXITSTATUS (snd z))) (waitpid_WNOHANG o (trace st))
    /\ child_exits after
       = map (fun z => (fst z, WEXITSTATUS (snd z)))
           (waitpid_WNOHANG o (trace st ++ before ++ [select_])).
Proof.
  intros Hq.
  destruct (collectZombies_trace o st) as (before & Hb & Hexb & Hfb).
  set (s1 := exec (collectZombies o) st) in *.
  set (s2 := exec (xreq select_) s1).
  destruct (collectZombies_trace o s2) as (after & Ha & Hexa & Hfa).
  assert (Hs2 : trace s2 = trace st ++ before ++ [select_]).
  { subst s2. cbn. rewrite Hb, <- app_assoc. reflexivity. }
  exists before, after, (exec (collectZombies o) s2).
  split; [|split; [|split; [exact Hfb|split; [exact Hfa|split; [exact Hexb|]]]]].
  - cbn [step]. rewrite Hq. f_equal. rewrite !exec_bind. reflexivity.
  - apply new_calls_app. rewrite Ha, Hs2, <- !app_assoc. reflexivity.
  - rewrite <- Hs2. exact Hexa.
Qed.

(** Applied to a pass during which two children wait to be reaped. *)
Lemma reaping_surrounds_the_wait_witness :
  aboutToQuit_ idle = false
  /\ new_calls idle (snd (step two_zombies (OuterTest, idle)))
     = [childExited_emit 4711 3; childExited_emit 4712 0; select_;
        childExited_emit 4711 3; childExited_emit 4712 0]
  /\ exists before after st',
       step two_zombies (OuterTest, idle) = (QuitCheck, st')
       /\ new_calls idle st' = before ++ select_ :: after
       /\ Forall (fun a => own a = true) before
       /\ Forall (fun a => own a = true) after
       /\ child_exits before
          = map (fun z => (fst z, WEXITSTATUS (snd z)))
              (waitpid_WNOHANG two_zombies (trace idle))
       /\ child_exits after
          = map (fun z => (fst z, WEXITSTATUS (snd z)))
              (waitpid_WNOHANG two_zombies (trace idle ++ before ++ [select_])).
Proof.
  split; [reflexivity|]. split; [reflexivity|].
  apply (reaping_surrounds_the_wait two_zombies idle). reflexivity.
Defined.
